(** * quick-auth: the authentication engine, the JWT strategy and the
      in-memory adapter, embedded in Rocq.

    The development follows the TypeScript sources file by file:
    - [JS]            the fragment of JavaScript data the code manipulates
                      (values, objects with their property order, exceptions,
                      asynchronous effectful computations);
    - [Zod]           the part of the zod validation library the engine calls;
    - [Jsonwebtoken]  a symbolic model of the jsonwebtoken library;
    - [Types]         src/types/index.ts;
    - [AuthEngine]    src/core/engine.ts;
    - [JWTStrategy]   src/strategies/jwt.ts;
    - [MemoryAdapter] src/adapters/memory.ts;
    - [Index]         src/index.ts, the configuration [quickAuth] builds;
    - [Express]       src/middleware/express.ts;
    - [Routes]        src/index.ts, the route handlers.
    The theorems come after all definitions. *)

From Stdlib Require Import ZArith NArith String Ascii List Bool Lia.
From stdpp Require Import base option gmap strings.
Import ListNotations.

Local Open Scope string_scope.

(* ===================================================================== *)
(** * JavaScript data *)
(* ===================================================================== *)

Module JS.

(** Primitive values that occur as attributes of users, registration input
    and token claims.  Numbers are integers (ids, ages, NumericDate claims);
    strings are ASCII, one character per code unit, so that [String.length]
    is the [length] of JavaScript; [VDate t] is a [Date] object holding [t]
    milliseconds since the epoch. *)
Inductive value : Type :=
  | VUndefined
  | VNull
  | VBool (b : bool)
  | VNum (n : Z)
  | VStr (s : string)
  | VDate (t : Z).

#[global] Instance value_eq_dec : EqDecision value.
Proof. solve_decision. Defined.

(** [!!v] of JavaScript. *)
Definition truthy (v : value) : bool :=
  match v with
  | VUndefined | VNull => false
  | VBool b => b
  | VNum n => negb (n =? 0)%Z
  | VStr s => negb (String.eqb s "")
  | VDate _ => true
  end.

Definition isNumber (v : value) : bool :=
  match v with VNum _ => true | _ => false end.

Definition isString (v : value) : bool :=
  match v with VStr _ => true | _ => false end.

Definition isUndefined (v : value) : bool :=
  match v with VUndefined => true | _ => false end.

(** The name zod prints for the type of a received value. *)
Definition parsedType (v : value) : string :=
  match v with
  | VUndefined => "undefined"
  | VNull => "null"
  | VBool _ => "boolean"
  | VNum _ => "number"
  | VStr _ => "string"
  | VDate _ => "date"
  end.

(** [String.prototype.toLowerCase] on the ASCII letters. *)
Definition lowerAscii (a : ascii) : ascii :=
  let n := N_of_ascii a in
  if ((65 <=? n) && (n <=? 90))%N then ascii_of_N (n + 32) else a.

Fixpoint toLowerCase (s : string) : string :=
  match s with
  | EmptyString => EmptyString
  | String a s' => String (lowerAscii a) (toLowerCase s')
  end.

(** ** Objects

    An object is the list of its own properties in creation order.  The
    enumeration order of JavaScript (array-index keys first, ascending, then
    the other keys in creation order) is computed by [ownEntries]. *)
Definition obj (V : Type) : Type := list (string * V).

Section Obj.
Context {V : Type}.

Fixpoint get (o : obj V) (k : string) : option V :=
  match o with
  | [] => None
  | (k', v) :: o' => if String.eqb k' k then Some v else get o' k
  end.

(** [o[k] = v]: overwrite in place, or append a new property. *)
Fixpoint set (k : string) (v : V) (o : obj V) : obj V :=
  match o with
  | [] => [(k, v)]
  | (k', v') :: o' =>
      if String.eqb k' k then (k', v) :: o' else (k', v') :: set k v o'
  end.

(** [o[k] = v] as an assignment to a plain object: the key ["__proto__"]
    reaches the accessor of [Object.prototype], which changes the prototype
    (or nothing, when [v] is no object) and makes no own property.
    (Spreads and computed keys in literals define properties: they are
    [set].) *)
Definition put (k : string) (v : V) (o : obj V) : obj V :=
  if String.eqb k "__proto__" then o else set k v o.

(** [delete o[k]], also the rest pattern [{k, ...rest} = o]. *)
Definition remove (k : string) (o : obj V) : obj V :=
  List.filter (fun kv => negb (String.eqb (fst kv) k)) o.

Definition has (o : obj V) (k : string) : bool :=
  match get o k with Some _ => true | None => false end.

Definition digit (a : ascii) : option N :=
  let n := N_of_ascii a in
  if ((48 <=? n) && (n <=? 57))%N then Some (n - 48)%N else None.

Fixpoint digits (s : string) (acc : N) : option N :=
  match s with
  | EmptyString => Some acc
  | String a s' =>
      match digit a with
      | Some d => digits s' (10 * acc + d)%N
      | None => None
      end
  end.

(** A canonical numeric string below 2^32 - 1 is an array index. *)
Definition arrayIndex (k : string) : option N :=
  match k with
  | EmptyString => None
  | String "0"%char EmptyString => Some 0%N
  | String "0"%char _ => None
  | _ =>
      match digits k 0 with
      | Some n => if (n <? 4294967295)%N then Some n else None
      | None => None
      end
  end.

Fixpoint insertIndex (n : N) (e : string * V) (l : list (N * (string * V)))
  : list (N * (string * V)) :=
  match l with
  | [] => [(n, e)]
  | (m, e') :: l' =>
      if (n <? m)%N then (n, e) :: l else (m, e') :: insertIndex n e l'
  end.

Definition indexEntries (o : obj V) : list (N * (string * V)) :=
  fold_left
    (fun acc e =>
       match arrayIndex (fst e) with
       | Some n => insertIndex n e acc
       | None => acc
       end) o [].

Definition ownEntries (o : obj V) : list (string * V) :=
  List.map snd (indexEntries o)
  ++ List.filter
       (fun e => match arrayIndex (fst e) with Some _ => false | None => true end) o.

Definition ownKeys (o : obj V) : list string := List.map fst (ownEntries o).
Definition ownValues (o : obj V) : list V := List.map snd (ownEntries o).

(** [{...target, ...source}]: the properties of [source] are assigned one
    after the other.  (Walking [source] in creation order or in enumeration
    order yields the same object: only the creation order among array-index
    keys differs, which no enumeration observes.) *)
Definition assign (target source : obj V) : obj V :=
  fold_left (fun acc e => set (fst e) (snd e) acc) source target.
End Obj.

(** [o.k] read as a value: a missing property reads [undefined]. *)
Definition prop (o : obj value) (k : string) : value :=
  match get o k with Some v => v | None => VUndefined end.

(** ** Exceptions

    What is thrown is an error object, or any other value: [throw] takes
    every value, and a promise can be rejected with none.  The classes of
    error objects are those the sources discriminate with [instanceof]:
    [z.ZodError], which carries its issues, and the classes of jsonwebtoken,
    [NotBeforeError] and [TokenExpiredError] being subclasses of
    [JsonWebTokenError]; [Error] stands for every other class, [TypeError]
    among them.  Every class but [ZodError] is read through its [message]
    only.  [Thrown v] is a thrown value that is no error object: [null],
    [undefined], a string, a number, a boolean, a date. *)
Record ZodIssue : Type := { path : list string; message : string }.

Inductive errorClass : Type :=
  | TokenExpiredError
  | NotBeforeError
  | JsonWebTokenError
  | Error.

Inductive exn : Type :=
  | ZodError (issues : list ZodIssue)
  | Err (c : errorClass) (msg : string)
  | Thrown (v : value).

Definition instanceofJsonWebTokenError (e : exn) : bool :=
  match e with
  | Err TokenExpiredError _ | Err NotBeforeError _ | Err JsonWebTokenError _ => true
  | _ => false
  end.

Definition instanceofTokenExpiredError (e : exn) : bool :=
  match e with Err TokenExpiredError _ => true | _ => false end.

(** ** Computations

    A synchronous call either returns or throws.  An awaited call does so
    after acting on the world [W] outside the engine (the storage behind an
    adapter, the clock, the entropy source, whatever a callback touches). *)
Inductive completion (A : Type) : Type :=
  | Return (a : A)
  | Throw (e : exn).
Arguments Return {A} a.
Arguments Throw {A} e.

(** [(v as Error).message] inside a string concatenation, for a thrown [v]
    that is no error object: [null] and [undefined] have no properties to
    read, which is a TypeError; any other such value has no [message], and
    [undefined] prints as "undefined". *)
Definition messageOf (v : value) : completion string :=
  match v with
  | VUndefined | VNull =>
      Throw (Err Error ("Cannot read properties of " ++ parsedType v
                        ++ " (reading 'message')"))
  | _ => Return "undefined"
  end.

Definition M (W A : Type) : Type := W -> completion A * W.

Definition ret {W A} (a : A) : M W A := fun w => (Return a, w).
Definition throw {W A} (e : exn) : M W A := fun w => (Throw e, w).
Definition lift {W A} (c : completion A) : M W A := fun w => (c, w).

Definition bind {W A B} (m : M W A) (k : A -> M W B) : M W B :=
  fun w =>
    match m w with
    | (Return a, w') => k a w'
    | (Throw e, w') => (Throw e, w')
    end.

(** [try { body } catch (error) { handler error }]. *)
Definition tryCatch {W A} (body : M W A) (handler : exn -> M W A) : M W A :=
  fun w =>
    match body w with
    | (Return a, w') => (Return a, w')
    | (Throw e, w') => handler e w'
    end.

(** ** Bearer tokens

    The engine hands tokens around as opaque strings.  A string is seen here
    through the parser of compact JWS: either it is the serialization of a
    JSON object [payload] with an HMAC signature computed under [key], or it
    is anything else.  The signature scheme is idealised: a signature made
    under [key] checks under a secret exactly when the secret is [key]. *)
Inductive Token : Type :=
  | Malformed (raw : string)
  | Signed (payload : obj value) (key : string).

(** The double-quote character, for messages that quote a name. *)
Definition dquote : string := String (ascii_of_N 34) EmptyString.

End JS.

Export JS.

Notation "'await' x <- c1 ; c2" := (bind c1 (fun x => c2))
  (at level 10, x name, c1 at level 100, c2 at level 200,
   format "'[v' 'await'  x  <-  c1 ; '/' c2 ']'").
Notation "'await_' c1 ; c2" := (bind c1 (fun _ => c2))
  (at level 10, c1 at level 100, c2 at level 200,
   format "'[v' 'await_'  c1 ; '/' c2 ']'").

(* ===================================================================== *)
(** * Library and runtime functions the sources call but do not define *)
(* ===================================================================== *)

Class Externals : Type := {
  (** the regular expression behind zod's [z.string().email()] *)
  isEmail : string -> bool;
  (** [bcrypt.compare(data, encrypted)]: deterministic, rejects ill-typed
      arguments *)
  bcrypt_compare : value -> value -> completion bool;
  (** the [ms] package: a time span such as ["7d"], in whole milliseconds;
      [None] is its [undefined] *)
  ms : string -> option Z;
  (** [Date.prototype.toISOString] *)
  toISOString : Z -> string;
}.

(** [bcrypt.hash(data, rounds)] draws a salt: it acts on the world. *)
Class Bcrypt (W : Type) : Type := {
  bcrypt_hash : value -> Z -> M W string;
}.

(* ===================================================================== *)
(** * zod: string rules and object schemas *)
(* ===================================================================== *)

Module Zod.
Section Zod.
Context `{Externals}.

(** What a schema's [_parse] hands back: a value, or the issues it raised
    (relative to the place of the value). *)
Inductive ParseReturn : Type :=
  | OK (v : value)
  | INVALID (issues : list ZodIssue).

(** [z.ZodTypeAny] *)
Definition ZodType : Type := value -> ParseReturn.

Definition issue (msg : string) : ZodIssue := {| path := []; message := msg |}.

(** A refinement of [z.string()]: the message it raises on a string, if any. *)
Definition check : Type := string -> option string.

(** [.email(msg)] *)
Definition email (msg : string) : check :=
  fun s => if isEmail s then None else Some msg.

(** [.min(n, msg)] *)
Definition min (n : nat) (msg : string) : check :=
  fun s => if (String.length s <? n)%nat then Some msg else None.

(** [z.string()] followed by [checks]; every failing check raises its issue. *)
Definition string_ (checks : list check) : ZodType :=
  fun v =>
    match v with
    | VStr s =>
        match List.flat_map
                (fun c => match c s with Some m => [issue m] | None => [] end)
                checks with
        | [] => OK (VStr s)
        | issues => INVALID issues
        end
    | VUndefined => INVALID [issue "Required"]
    | _ => INVALID [issue ("Expected string, received " ++ parsedType v)]
    end.

Inductive UnknownKeys : Type := strip | passthrough.

(** [z.object(shape)], possibly [.passthrough()] *)
Record ZodObject : Type := { shape : obj ZodType; unknownKeys : UnknownKeys }.

Definition object (shape : obj ZodType) : ZodObject :=
  {| shape := shape; unknownKeys := strip |}.

Definition passthrough_ (s : ZodObject) : ZodObject :=
  {| shape := shape s; unknownKeys := passthrough |}.

Definition isINVALID (r : ParseReturn) : bool :=
  match r with INVALID _ => true | OK _ => false end.

(** The pairs [ZodObject._parse] builds: one per key of the shape, in the
    order of [Object.keys(shape)], each with the result of the key's rule on
    [data[key]] and whether [key in data]. *)
Definition shapePairs (s : ZodObject) (data : obj value)
  : list (string * ParseReturn * bool) :=
  List.map (fun kv => (fst kv, snd kv (prop data (fst kv)), has data (fst kv)))
           (ownEntries (shape s)).

Definition pairIssues (p : string * ParseReturn * bool) : list ZodIssue :=
  match p with
  | (k, INVALID issues, _) =>
      List.map (fun i => {| path := k :: path i; message := message i |}) issues
  | (_, OK _, _) => []
  end.

Definition extraPairs (s : ZodObject) (data : obj value) : list (string * value) :=
  match unknownKeys s with
  | strip => []
  | passthrough =>
      List.filter
        (fun kv => negb (existsb (String.eqb (fst kv)) (ownKeys (shape s))))
        (ownEntries data)
  end.

Definition mergePair (final : obj value) (p : string * ParseReturn * bool)
  : obj value :=
  match p with
  | (k, OK v, alwaysSet) =>
      if negb (String.eqb k "__proto__") && (negb (isUndefined v) || alwaysSet)
      then set k v final else final
  | (_, INVALID _, _) => final
  end.

Definition mergeExtra (final : obj value) (kv : string * value) : obj value :=
  if negb (String.eqb (fst kv) "__proto__") && negb (isUndefined (snd kv))
  then set (fst kv) (snd kv) final else final.

(** [schema.parse(data)]: every rule runs and every issue is collected; any
    invalid key makes the call throw. *)
Definition parse (s : ZodObject) (data : obj value) : completion (obj value) :=
  let pairs := shapePairs s data in
  if existsb (fun p => isINVALID (snd (fst p))) pairs then
    match List.flat_map pairIssues pairs with
    | [] => Throw (Err Error "Validation failed but no issues detected.")
    | issues => Throw (ZodError issues)
    end
  else
    Return (fold_left mergeExtra (extraPairs s data) (fold_left mergePair pairs [])).
End Zod.
End Zod.

(* ===================================================================== *)
(** * jsonwebtoken *)
(* ===================================================================== *)

Module Jsonwebtoken.

(** The options object [generateToken] builds.  [expiresIn] is always a key
    of it ([None] never occurs there, [Some VUndefined] does when the
    strategy was configured with an explicit [undefined]); [issuer] and
    [audience] are keys only when set. *)
Record SignOptions : Type := {
  expiresIn : option value;
  issuer : option string;
  audience : option string;
}.

(** [{issuer, audience}] as [verify] passes them; [None] is [undefined]. *)
Record VerifyOptions : Type := {
  v_issuer : option string;
  v_audience : option string;
}.

(** The two calls of the library the strategy makes.  The last argument is
    [Date.now()], in milliseconds. *)
Class Lib : Type := {
  sign : obj value -> string -> SignOptions -> Z -> completion Token;
  verify : Token -> string -> VerifyOptions -> Z -> completion (obj value);
}.

Section Symbolic.
Context `{Externals}.

Definition error (msg : string) : exn := Err Error msg.

(** [validatePayload]: the registered claims [iat], [exp] and [nbf], when
    they are keys of the payload, must be numbers; the first offending
    key, in key order, is reported. *)
Definition validatePayload (payload : obj value) : completion unit :=
  match List.filter
          (fun kv =>
             (String.eqb (fst kv) "iat" || String.eqb (fst kv) "exp"
              || String.eqb (fst kv) "nbf")
             && negb (isNumber (snd kv)))
          (ownEntries payload) with
  | [] => Return tt
  | (k, _) :: _ =>
      Throw (error (dquote ++ k ++ dquote ++ " should be a number of seconds"))
  end.

(** [validateOptions] on the keys [generateToken] can set. *)
Definition validateOptions (options : SignOptions) : completion unit :=
  match expiresIn options with
  | None | Some (VNum _) => Return tt
  | Some (VStr s) =>
      if String.eqb s "" then
        Throw (error (dquote ++ "expiresIn" ++ dquote
                      ++ " should be a number of seconds or string representing a timespan"))
      else Return tt
  | Some _ =>
      Throw (error (dquote ++ "expiresIn" ++ dquote
                    ++ " should be a number of seconds or string representing a timespan"))
  end.

(** [timespan(time, iat)] of the library; [None] is [undefined]. *)
Definition timespan (time : value) (iat : Z) : option Z :=
  match time with
  | VStr s =>
      match ms s with
      | Some milliseconds => Some (iat + milliseconds / 1000)%Z
      | None => None
      end
  | VNum n => Some (iat + n)%Z
  | _ => None
  end.

(** [payload[claim] = options[key]] for the audience and the issuer, in
    that order; the claim must not be in the payload already. *)
Definition optionToPayload (key claim : string) (opt : option string)
    (payload : obj value) : completion (obj value) :=
  match opt with
  | None => Return payload
  | Some v =>
      if negb (isUndefined (prop payload claim)) then
        Throw (error ("Bad " ++ dquote ++ "options." ++ key ++ dquote
                      ++ " option. The payload already has an "
                      ++ dquote ++ claim ++ dquote ++ " property."))
      else Return (set claim (VStr v) payload)
  end.

(** [JSON.parse(JSON.stringify(payload))]: properties holding
    [undefined] are dropped and dates become their ISO strings. *)
Definition toJSON (payload : obj value) : obj value :=
  List.flat_map
    (fun kv =>
       match snd kv with
       | VUndefined => []
       | VDate t => [(fst kv, VStr (toISOString t))]
       | v => [(fst kv, v)]
       end)
    payload.

(** [jwt.sign(payload, secret, options)] with the default algorithm. *)
Definition symbolic_sign (payload : obj value) (secret : string)
    (options : SignOptions) (now : Z) : completion Token :=
  if String.eqb secret "" then
    Throw (error "secretOrPrivateKey must have a value")
  else
    match validatePayload payload with
    | Throw e => Throw e
    | Return _ =>
    let payload := assign [] payload in
    if negb (isUndefined (prop payload "exp"))
       && match expiresIn options with
          | Some v => negb (isUndefined v)
          | None => false
          end
    then
      Throw (error ("Bad " ++ dquote ++ "options.expiresIn" ++ dquote
                    ++ " option the payload already has an "
                    ++ dquote ++ "exp" ++ dquote ++ " property."))
    else
    match validateOptions options with
    | Throw e => Throw e
    | Return _ =>
    let timestamp :=
      match prop payload "iat" with
      | VNum n => if (n =? 0)%Z then (now / 1000)%Z else n
      | _ => (now / 1000)%Z
      end in
    let payload := set "iat" (VNum timestamp) payload in
    match
      match expiresIn options with
      | Some time =>
          if isUndefined time then Return payload
          else
            match timespan time timestamp with
            | Some exp => Return (set "exp" (VNum exp) payload)
            | None =>
                Throw (error (dquote ++ "expiresIn" ++ dquote
                  ++ " should be a number of seconds or string representing a timespan eg: "
                  ++ dquote ++ "1d" ++ dquote ++ ", "
                  ++ dquote ++ "20h" ++ dquote ++ ", 60"))
            end
      | None => Return payload
      end
    with
    | Throw e => Throw e
    | Return payload =>
    match optionToPayload "audience" "aud" (audience options) payload with
    | Throw e => Throw e
    | Return payload =>
    match optionToPayload "issuer" "iss" (issuer options) payload with
    | Throw e => Throw e
    | Return payload => Return (Signed (toJSON payload) secret)
    end end end end end.

Definition jwtError (msg : string) : exn := Err JsonWebTokenError msg.

(** [jwt.verify(token, secret, {issuer, audience})]: structure, signature,
    [nbf], [exp], audience, issuer, in the library's order. *)
Definition symbolic_verify (tok : Token) (secret : string)
    (options : VerifyOptions) (now : Z) : completion (obj value) :=
  match tok with
  | Malformed raw =>
      if String.eqb raw "" then Throw (jwtError "jwt must be provided")
      else Throw (jwtError "jwt malformed")
  | Signed payload key =>
      let clockTimestamp := (now / 1000)%Z in
      if String.eqb secret "" then
        Throw (jwtError "secret or public key must be provided")
      else if negb (String.eqb key secret) then
        Throw (jwtError "invalid signature")
      else
      match
        match prop payload "nbf" with
        | VUndefined => None
        | VNum nbf =>
            if (clockTimestamp <? nbf)%Z
            then Some (Err NotBeforeError "jwt not active") else None
        | _ => Some (jwtError "invalid nbf value")
        end
      with
      | Some e => Throw e
      | None =>
      match
        match prop payload "exp" with
        | VUndefined => None
        | VNum exp =>
            if (exp <=? clockTimestamp)%Z
            then Some (Err TokenExpiredError "jwt expired") else None
        | _ => Some (jwtError "invalid exp value")
        end
      with
      | Some e => Throw e
      | None =>
      match
        match v_audience options with
        | Some aud =>
            if negb (String.eqb aud "")
               && negb (bool_decide (prop payload "aud" = VStr aud))
            then Some (jwtError ("jwt audience invalid. expected: " ++ aud))
            else None
        | None => None
        end
      with
      | Some e => Throw e
      | None =>
      match
        match v_issuer options with
        | Some iss =>
            if negb (String.eqb iss "")
               && negb (bool_decide (prop payload "iss" = VStr iss))
            then Some (jwtError ("jwt issuer invalid. expected: " ++ iss))
            else None
        | None => None
        end
      with
      | Some e => Throw e
      | None => Return payload
      end end end end
  end.

(** The library, with the idealised signature scheme. *)
Definition symbolic : Lib :=
  {| sign := symbolic_sign; verify := symbolic_verify |}.
End Symbolic.

End Jsonwebtoken.

(* ===================================================================== *)
(** * src/types/index.ts *)
(* ===================================================================== *)

Module Types.

(** [User], [CreateUserData], [LoginCredentials]: objects with a few named
    properties and an index signature. *)
Definition User : Type := obj value.
Definition CreateUserData : Type := obj value.
Definition LoginCredentials : Type := obj value.

Record AuthResult : Type := {
  success : bool;
  user : option User;
  token : option Token;
  error : option string;
  errors : option (obj string);
}.

(** What [customValidator] returns. *)
Record CustomResult : Type := {
  cv_success : bool;
  cv_errors : option (obj string);
}.

Record ValidationConfig `{Externals} : Type := {
  email : option Zod.ZodType;
  password : option Zod.ZodType;
  fields : option (obj Zod.ZodType);
  customValidator : option (obj value -> completion CustomResult);
}.

Section World.
Context {W : Type}.

(** The e-mail handed to [findUserByEmail] is read off a parsed object,
    which TypeScript types as [any]: it is a value. *)
Record DatabaseAdapter : Type := {
  findUserByEmail : value -> M W (option User);
  findUserById : string -> M W (option User);
  createUser : CreateUserData -> M W User;
  updateUser : string -> obj value -> M W User;
  deleteUser : string -> M W unit;
}.

Record AuthStrategy : Type := {
  name : string;
  authenticate : LoginCredentials -> M W AuthResult;
  verify : Token -> M W AuthResult;
  generateToken : User -> M W Token;
}.

Record AuthCallbacks : Type := {
  onLogin : option (User -> M W unit);
  onRegister : option (User -> M W unit);
  onLogout : option (User -> M W unit);
}.

Record AuthConfig `{Externals} : Type := {
  adapter : DatabaseAdapter;
  strategy : AuthStrategy;
  callbacks : option AuthCallbacks;
  validation : option ValidationConfig;
}.
End World.
Arguments DatabaseAdapter : clear implicits.
Arguments AuthStrategy : clear implicits.
Arguments AuthCallbacks : clear implicits.
Arguments AuthConfig W {_}.

(** The two result shapes without a user. *)
Definition failure (msg : string) : AuthResult :=
  {| success := false; user := None; token := None;
     error := Some msg; errors := None |}.

Definition failureWith (msg : string) (errs : option (obj string)) : AuthResult :=
  {| success := false; user := None; token := None;
     error := Some msg; errors := errs |}.

End Types.

Export Types.

(* ===================================================================== *)
(** * src/core/engine.ts *)
(* ===================================================================== *)

Module AuthEngine.
Section AuthEngine.
Context {W : Type} `{Externals} `{Bcrypt W}.

Definition SALT_ROUNDS : Z := 12.

Definition defaultLoginSchema : Zod.ZodObject :=
  Zod.object
    [ ("email", Zod.string_ [Zod.email "Invalid email format"]);
      ("password", Zod.string_ [Zod.min 1 "Password is required"]) ].

Definition defaultRegisterSchema : Zod.ZodObject :=
  Zod.object
    [ ("email", Zod.string_ [Zod.email "Invalid email format"]);
      ("password",
       Zod.string_ [Zod.min 6 "Password must be at least 6 characters"]) ].

(** [config.validation || {}] *)
Definition validationConfig (config : AuthConfig W) : ValidationConfig :=
  match validation config with
  | Some v => v
  | None =>
      {| email := None; password := None; fields := None;
         customValidator := None |}
  end.

Definition buildRegisterSchema (config : AuthConfig W) : Zod.ZodObject :=
  let emailValidation :=
    match email (validationConfig config) with
    | Some v => v
    | None => Zod.string_ [Zod.email "Invalid email format"]
    end in
  let passwordValidation :=
    match password (validationConfig config) with
    | Some v => v
    | None => Zod.string_ [Zod.min 6 "Password must be at least 6 characters"]
    end in
  let schema := [("email", emailValidation); ("password", passwordValidation)] in
  let schema :=
    match fields (validationConfig config) with
    | Some fs =>
        fold_left (fun schema fv => put (fst fv) (snd fv) schema)
                  (ownEntries fs) schema
    | None => schema
    end in
  Zod.passthrough_ (Zod.object schema).

Definition formatZodError (issues : list ZodIssue) : obj string :=
  fold_left
    (fun errors err =>
       let path := String.concat "." (path err) in
       if negb (String.eqb path "") then put path (message err) errors
       else errors)
    issues [].

(** [Object.values(errors)[0] || 'Validation failed'] *)
Definition firstError (errors : obj string) : string :=
  match ownValues errors with
  | v :: _ => if String.eqb v "" then "Validation failed" else v
  | [] => "Validation failed"
  end.

(** The [instanceof z.ZodError] branch of both [catch] blocks. *)
Definition validationFailure (issues : list ZodIssue) : AuthResult :=
  let errors := formatZodError issues in
  failureWith (firstError errors) (Some errors).

Definition sanitizeUser (user : User) : User := remove "password" user.

Definition userExists : AuthResult :=
  failureWith "User already exists"
              (Some [("email", "This email is already registered")]).

Definition invalidCredentials : AuthResult :=
  failureWith "Invalid credentials"
              (Some [("general", "Invalid email or password")]).

Definition authenticated (user : User) (tok : Token) : AuthResult :=
  {| success := true; user := Some (sanitizeUser user); token := Some tok;
     error := None; errors := None |}.

(** [if (callbacks?.on...) await callbacks.on...(user)] *)
Definition runCallback
    (select : AuthCallbacks W -> option (User -> M W unit))
    (config : AuthConfig W) (user : User) : M W unit :=
  match callbacks config with
  | Some cbs =>
      match select cbs with
      | Some callback => callback user
      | None => ret tt
      end
  | None => ret tt
  end.

Definition register (config : AuthConfig W) (data : CreateUserData)
  : M W AuthResult :=
  tryCatch
    (let validateAndCreate : M W AuthResult :=
       let schema := buildRegisterSchema config in
       await validated <- lift (Zod.parse schema data);
       await existingUser <-
         findUserByEmail (adapter config) (prop validated "email");
       match existingUser with
       | Some _ => ret userExists
       | None =>
           await hashedPassword <-
             bcrypt_hash (prop validated "password") SALT_ROUNDS;
           let customFields := remove "password" validated in
           await user <-
             createUser (adapter config)
               (assign [ ("email", prop validated "email");
                         ("password", VStr hashedPassword) ]
                       customFields);
           await_ runCallback onRegister config user;
           await tok <- generateToken (strategy config) user;
           ret (authenticated user tok)
       end in
     match customValidator (validationConfig config) with
     | Some validator =>
         await customResult <- lift (validator data);
         if negb (cv_success customResult) then
           ret (failureWith "Validation failed" (cv_errors customResult))
         else validateAndCreate
     | None => validateAndCreate
     end)
    (fun error =>
       match error with
       | ZodError issues => ret (validationFailure issues)
       | Err _ msg => ret (failure ("Registration failed: " ++ msg))
       | Thrown v =>
           await msg <- lift (messageOf v);
           ret (failure ("Registration failed: " ++ msg))
       end).

Definition login (config : AuthConfig W) (credentials : LoginCredentials)
  : M W AuthResult :=
  tryCatch
    (await validated <- lift (Zod.parse defaultLoginSchema credentials);
     await found <- findUserByEmail (adapter config) (prop validated "email");
     match found with
     | None => ret invalidCredentials
     | Some user =>
         if negb (truthy (prop user "password")) then ret invalidCredentials
         else
           await isValid <-
             lift (bcrypt_compare (prop validated "password")
                                  (prop user "password"));
           if negb isValid then ret invalidCredentials
           else
             await_ runCallback onLogin config user;
             await tok <- generateToken (strategy config) user;
             ret (authenticated user tok)
     end)
    (fun error =>
       match error with
       | ZodError issues => ret (validationFailure issues)
       | Err _ msg => ret (failure ("Login failed: " ++ msg))
       | Thrown v =>
           await msg <- lift (messageOf v);
           ret (failure ("Login failed: " ++ msg))
       end).

Definition verifyToken (config : AuthConfig W) (tok : Token) : M W AuthResult :=
  verify (strategy config) tok.

Definition getUser (config : AuthConfig W) (id : string) : M W (option User) :=
  await found <- findUserById (adapter config) id;
  ret (match found with
       | Some user => Some (sanitizeUser user)
       | None => None
       end).

Definition updateUser (config : AuthConfig W) (id : string) (data : obj value)
  : M W User :=
  await user <- Types.updateUser (adapter config) id data;
  ret (sanitizeUser user).

Definition deleteUser (config : AuthConfig W) (id : string) : M W unit :=
  Types.deleteUser (adapter config) id.

Definition logout (config : AuthConfig W) (user : User) : M W unit :=
  runCallback onLogout config user.
End AuthEngine.
End AuthEngine.

(* ===================================================================== *)
(** * src/strategies/jwt.ts *)
(* ===================================================================== *)

Module JWTStrategy.

Record JWTStrategyConfig : Type := {
  secret : string;
  expiresIn : option value;
  issuer : option string;
  audience : option string;
}.

(** An instance: its [name] and its private [config]. *)
Record t : Type := { name : string; config : JWTStrategyConfig }.

(** [new JWTStrategy(config)]: [{ expiresIn: '7d', ...config }] *)
Definition new (config : JWTStrategyConfig) : t :=
  {| name := "jwt";
     config :=
       {| secret := secret config;
          expiresIn :=
            Some (match expiresIn config with
                  | Some v => v
                  | None => VStr "7d"
                  end);
          issuer := issuer config;
          audience := audience config |} |}.

(** The options object [verify] hands to the library. *)
Definition verifyOptions (this : t) : Jsonwebtoken.VerifyOptions :=
  {| Jsonwebtoken.v_issuer := issuer (config this);
     Jsonwebtoken.v_audience := audience (config this) |}.

Section JWTStrategy.
Context {jwt : Jsonwebtoken.Lib}.

Definition authenticate (this : t) (credentials : LoginCredentials) : AuthResult :=
  failure "JWT strategy does not support direct authentication. Use login flow instead.".

(** [verify], at the instant [now] of the clock. *)
Definition verify (this : t) (tok : Token) (now : Z) : AuthResult :=
  match Jsonwebtoken.verify tok (secret (config this)) (verifyOptions this) now with
  | Return decoded =>
      if negb (truthy (prop decoded "sub")) then failure "Invalid token payload"
      else
        {| success := true;
           user := Some (assign [ ("id", prop decoded "sub");
                                  ("email", prop decoded "email") ] decoded);
           token := None; error := None; errors := None |}
  | Throw error =>
      if instanceofTokenExpiredError error then failure "Token expired"
      else if instanceofJsonWebTokenError error then failure "Invalid token"
      else failure "Token verification failed"
  end.

(** [['id', 'password'].includes(key)] *)
Definition excluded (key : string) : bool :=
  String.eqb key "id" || String.eqb key "password".

(** The constant [payload] of [generateToken]. *)
Definition payload (user : User) : obj value :=
  assign [ ("sub", prop user "id"); ("email", prop user "email") ]
    (fold_left (fun acc key => set key (prop user key) (assign [] acc))
               (List.filter (fun key => negb (excluded key)) (ownKeys user))
               []).

(** The constant [options] of [generateToken]. *)
Definition options (this : t) : Jsonwebtoken.SignOptions :=
  {| Jsonwebtoken.expiresIn :=
       Some (match expiresIn (config this) with
             | Some v => v
             | None => VUndefined
             end);
     Jsonwebtoken.issuer :=
       match issuer (config this) with
       | Some i => if String.eqb i "" then None else Some i
       | None => None
       end;
     Jsonwebtoken.audience :=
       match audience (config this) with
       | Some a => if String.eqb a "" then None else Some a
       | None => None
       end |}.

(** [generateToken], at the instant [now] of the clock. *)
Definition generateToken (this : t) (user : User) (now : Z) : completion Token :=
  Jsonwebtoken.sign (payload user) (secret (config this)) (options this) now.

(** The instance as the engine sees it, in a world with a clock. *)
Definition strategy {W : Type} (clock : W -> Z) (this : t) : AuthStrategy W :=
  {| Types.name := name this;
     Types.authenticate := fun credentials => ret (authenticate this credentials);
     Types.verify := fun tok w => (Return (verify this tok (clock w)), w);
     Types.generateToken := fun user w => (generateToken this user (clock w), w) |}.
End JWTStrategy.
End JWTStrategy.

(* ===================================================================== *)
(** * src/adapters/memory.ts *)
(* ===================================================================== *)

Module MemoryAdapter.

(** The private maps of an instance. *)
Record t : Type := {
  users : gmap string User;
  emailIndex : gmap string string;
}.

(** The world of a process that holds one instance: its maps, the clock
    ([Date.now()], milliseconds) and the identifiers [crypto.randomUUID]
    is going to return, [drawn] of them being used up. *)
Record World : Type := {
  store : t;
  clock : Z;
  uuids : nat -> string;
  drawn : nat;
}.

Definition setStore (s : t) (w : World) : World :=
  {| store := s; clock := clock w; uuids := uuids w; drawn := drawn w |}.

Definition randomUUID : M World string :=
  fun w =>
    (Return (uuids w (drawn w)),
     {| store := store w; clock := clock w; uuids := uuids w;
        drawn := S (drawn w) |}).

(** [new Date()] *)
Definition newDate : M World value := fun w => (Return (VDate (clock w)), w).

(** [v.toLowerCase()] where [v] is typed as a string; [expr] is the text of
    the receiver, which the TypeError quotes. *)
Definition toLowerCaseOf (expr : string) (v : value) : completion string :=
  match v with
  | VStr s => Return (toLowerCase s)
  | VUndefined =>
      Throw (Err Error "Cannot read properties of undefined (reading 'toLowerCase')")
  | VNull =>
      Throw (Err Error "Cannot read properties of null (reading 'toLowerCase')")
  | _ => Throw (Err Error (expr ++ ".toLowerCase is not a function"))
  end.

Definition findUserByEmail (email : value) : M World (option User) :=
  await lower <- lift (toLowerCaseOf "email" email);
  fun w =>
    match emailIndex (store w) !! lower with
    | None => (Return None, w)
    | Some id =>
        if String.eqb id "" then (Return None, w)
        else (Return (users (store w) !! id), w)
    end.

Definition findUserById (id : string) : M World (option User) :=
  fun w => (Return (users (store w) !! id), w).

Definition createUser (data : CreateUserData) : M World User :=
  await id <- randomUUID;
  await createdAt <- newDate;
  await updatedAt <- newDate;
  let user :=
    set "updatedAt" updatedAt
      (set "createdAt" createdAt (assign [("id", VStr id)] data)) in
  await_ (fun w =>
            (Return tt,
             setStore {| users := <[id := user]> (users (store w));
                         emailIndex := emailIndex (store w) |} w));
  await lower <- lift (toLowerCaseOf "data.email" (prop data "email"));
  await_ (fun w =>
            (Return tt,
             setStore {| users := users (store w);
                         emailIndex := <[lower := id]> (emailIndex (store w)) |} w));
  ret user.

Definition updateUser (id : string) (data : obj value) : M World User :=
  fun w =>
    match users (store w) !! id with
    | None => (Throw (Err Error "User not found"), w)
    | Some user =>
        (await updatedAt <- newDate;
         let updated :=
           set "updatedAt" updatedAt (assign (assign [] user) data) in
         await_ (fun w =>
                   (Return tt,
                    setStore {| users := <[id := updated]> (users (store w));
                                emailIndex := emailIndex (store w) |} w));
         await_ (if truthy (prop data "email")
                    && negb (bool_decide (prop data "email" = prop user "email"))
                 then
                   await old <- lift (toLowerCaseOf "user.email" (prop user "email"));
                   await_ (fun w =>
                             (Return tt,
                              setStore {| users := users (store w);
                                          emailIndex := delete old (emailIndex (store w)) |} w));
                   await new <- lift (toLowerCaseOf "data.email" (prop data "email"));
                   fun w =>
                     (Return tt,
                      setStore {| users := users (store w);
                                  emailIndex := <[new := id]> (emailIndex (store w)) |} w)
                 else ret tt);
         ret updated) w
    end.

Definition deleteUser (id : string) : M World unit :=
  fun w =>
    match users (store w) !! id with
    | None => (Return tt, w)
    | Some user =>
        (await lower <- lift (toLowerCaseOf "user.email" (prop user "email"));
         fun w =>
           (Return tt,
            setStore {| users := delete id (users (store w));
                        emailIndex := delete lower (emailIndex (store w)) |} w)) w
    end.

Definition clear : M World unit :=
  fun w => (Return tt, setStore {| users := ∅; emailIndex := ∅ |} w).

(** [MemoryAdapter implements DatabaseAdapter] *)
Definition adapter : DatabaseAdapter World :=
  {| Types.findUserByEmail := findUserByEmail;
     Types.findUserById := findUserById;
     Types.createUser := createUser;
     Types.updateUser := updateUser;
     Types.deleteUser := deleteUser |}.

End MemoryAdapter.

(* ===================================================================== *)
(** * src/index.ts *)
(* ===================================================================== *)

Module Index.
Section Index.
Context `{Externals} {jwt : Jsonwebtoken.Lib}.

Record QuickAuthOptions : Type := {
  secret : string;
  adapter_ : option (DatabaseAdapter MemoryAdapter.World);
  strategy_ : option (AuthStrategy MemoryAdapter.World);
  expiresIn : option value;
  validation_ : option ValidationConfig;
}.

(** The configuration of the engine [quickAuth(options)] builds. *)
Definition quickAuth (options : QuickAuthOptions) : AuthConfig MemoryAdapter.World :=
  let adapter :=
    match adapter_ options with
    | Some a => a
    | None => MemoryAdapter.adapter
    end in
  let strategyConfig :=
    {| JWTStrategy.secret := secret options;
       JWTStrategy.expiresIn :=
         match expiresIn options with
         | Some VUndefined | None => None
         | Some v => Some v
         end;
       JWTStrategy.issuer := None;
       JWTStrategy.audience := None |} in
  let strategy :=
    match strategy_ options with
    | Some s => s
    | None => JWTStrategy.strategy MemoryAdapter.clock (JWTStrategy.new strategyConfig)
    end in
  {| adapter := adapter; strategy := strategy; callbacks := None;
     validation := validation_ options |}.

(** [createAuth(config)] hands [config] to the engine as it is. *)
Definition createAuth {W : Type} (config : AuthConfig W) : AuthConfig W := config.
End Index.
End Index.

(* ===================================================================== *)
(** * Stand-ins for the libraries

    The theorems hold for every [Externals], [Bcrypt] and, where stated,
    every [Jsonwebtoken.Lib].  To run the code on concrete inputs the
    following stand-ins are used.  They agree with the real libraries on the
    inputs of the examples: ["7d"] is 604800000 ms, ["a@b.com"] is an
    e-mail address, a hash matches the password it was made from and no
    other. *)
(* ===================================================================== *)

Module Reference.

Definition isEmail (s : string) : bool :=
  match String.index 0 "@" s with
  | Some n =>
      (0 <? n)%nat
      && match String.index (S n) "." s with
         | Some m => (S n <? m)%nat && (S m <? String.length s)%nat
         | None => false
         end
  | None => false
  end.

Definition bcrypt_compare (data encrypted : value) : completion bool :=
  match data, encrypted with
  | VStr d, VStr e => Return (String.eqb e ("$2b$12$" ++ d))
  | _, _ => Throw (Err Error "data and hash must be strings")
  end.

Definition unit_ms (u : string) : option Z :=
  if String.eqb u "" then Some 1%Z
  else if String.eqb u "ms" then Some 1%Z
  else if String.eqb u "s" then Some 1000%Z
  else if String.eqb u "m" then Some 60000%Z
  else if String.eqb u "h" then Some 3600000%Z
  else if String.eqb u "d" then Some 86400000%Z
  else if String.eqb u "w" then Some 604800000%Z
  else if String.eqb u "y" then Some 31557600000%Z
  else None.

(** Whole numbers followed by a short unit: ["60"], ["30s"], ["7d"]. *)
Fixpoint ms_from (s : string) (acc : option N) : option Z :=
  match s with
  | EmptyString => match acc with Some n => Some (Z.of_N n) | None => None end
  | String a s' =>
      match digit a, acc with
      | Some d, None => ms_from s' (Some d)
      | Some d, Some n => ms_from s' (Some (10 * n + d)%N)
      | None, Some n =>
          match unit_ms s with
          | Some u => Some (Z.of_N n * u)%Z
          | None => None
          end
      | None, None => None
      end
  end.

Definition ms (s : string) : option Z := ms_from s None.

Fixpoint decimal (fuel : nat) (n : N) (acc : string) : string :=
  match fuel with
  | O => acc
  | S fuel' =>
      let acc' := String (ascii_of_N (48 + n mod 10)) acc in
      if (n / 10 =? 0)%N then acc' else decimal fuel' (n / 10)%N acc'
  end.

Fixpoint zeros (n : nat) : string :=
  match n with O => "" | S n' => String "0" (zeros n') end.

Definition padded (width : nat) (n : Z) : string :=
  let d := decimal 20 (Z.to_N n) "" in
  zeros (width - String.length d) ++ d.

(** Proleptic Gregorian calendar, years 0000 to 9999. *)
Definition toISOString (t : Z) : string :=
  let days := (t / 86400000)%Z in
  let msOfDay := (t mod 86400000)%Z in
  let z := (days + 719468)%Z in
  let era := (z / 146097)%Z in
  let doe := (z mod 146097)%Z in
  let yoe := ((doe - doe / 1460 + doe / 36524 - doe / 146096) / 365)%Z in
  let doy := (doe - (365 * yoe + yoe / 4 - yoe / 100))%Z in
  let mp := ((5 * doy + 2) / 153)%Z in
  let d := (doy - (153 * mp + 2) / 5 + 1)%Z in
  let m := (if mp <? 10 then mp + 3 else mp - 9)%Z in
  let y := (yoe + era * 400 + (if m <=? 2 then 1 else 0))%Z in
  padded 4 y ++ "-" ++ padded 2 m ++ "-" ++ padded 2 d ++ "T"
  ++ padded 2 (msOfDay / 3600000) ++ ":"
  ++ padded 2 (msOfDay / 60000 mod 60) ++ ":"
  ++ padded 2 (msOfDay / 1000 mod 60) ++ "."
  ++ padded 3 (msOfDay mod 1000) ++ "Z".

Definition externals : Externals :=
  Build_Externals isEmail bcrypt_compare ms toISOString.

(** The hash of a password is a fixed prefix followed by the password. *)
Definition bcrypt {W : Type} : Bcrypt W :=
  Build_Bcrypt W
    (fun data rounds =>
       match data with
       | VStr d => ret ("$2b$12$" ++ d)
       | _ =>
           throw (Err Error
             "data must be a string or Buffer and salt must either be a salt string or a number of rounds")
       end).
End Reference.

(* ===================================================================== *)
(** * Vocabulary of the statements *)
(* ===================================================================== *)

(** No key occurs twice: the invariant of every object built with [set]. *)
Definition NoDupKeys {V : Type} (o : obj V) : Prop := NoDup (List.map fst o).

(** [post P m]: whenever [m] returns, the returned value satisfies [P]. *)
Definition post {W A : Type} (P : A -> Prop) (m : M W A) : Prop :=
  forall w a w', m w = (Return a, w') -> P a.

(** [total m]: [m] returns from every world; it never throws. *)
Definition total {W A : Type} (m : M W A) : Prop :=
  forall w, exists a w', m w = (Return a, w').

(** The TypeError of reading [message] off a thrown [v] that has no
    properties. *)
Definition messageTypeError (v : value) : exn :=
  Err Error ("Cannot read properties of " ++ parsedType v
             ++ " (reading 'message')").

(** The thrown value is [null] or [undefined]. *)
Definition nullish (e : exn) : bool :=
  match e with
  | Thrown VUndefined | Thrown VNull => true
  | _ => false
  end.

(** A result carries no user, or a user without a password. *)
Definition userSanitized (res : AuthResult) : Prop :=
  forall u, user res = Some u -> get u "password" = None.

Section EngineVocabulary.
Context {W : Type} `{Externals}.

(** The custom validator, when there is one, returns with [success] set. *)
Definition customAccepts (config : AuthConfig W) (data : CreateUserData) : bool :=
  match customValidator (AuthEngine.validationConfig config) with
  | Some validator =>
      match validator data with
      | Return customResult => cv_success customResult
      | Throw _ => false
      end
  | None => true
  end.

(** [config] with another [validation]. *)
Definition withValidation (v : option ValidationConfig) (config : AuthConfig W)
  : AuthConfig W :=
  {| adapter := adapter config; strategy := strategy config;
     callbacks := callbacks config; validation := v |}.

(** The fixed rule of login in words: the e-mail is a string the e-mail
    check accepts, the password is a string that is not empty. *)
Definition loginSchemaAccepts (credentials : LoginCredentials) : bool :=
  match prop credentials "email", prop credentials "password" with
  | VStr e, VStr p => isEmail e && negb (String.eqb p "")
  | _, _ => false
  end.

(** What the fixed rule reports on a field: a missing field is "Required",
    a field that is no string is reported with its type, a string with the
    message of the requirement it fails, if it fails. *)
Definition fieldIssues (key : string) (v : value) (fails : string -> bool)
    (msg : string) : list ZodIssue :=
  match v with
  | VStr s => if fails s then [{| path := [key]; message := msg |}] else []
  | VUndefined => [{| path := [key]; message := "Required" |}]
  | _ => [{| path := [key];
             message := "Expected string, received " ++ parsedType v |}]
  end.

(** The issues of the fixed rule of login: the e-mail must pass the e-mail
    check, the password must not be empty. *)
Definition loginIssues (credentials : LoginCredentials) : list ZodIssue :=
  (fieldIssues "email" (prop credentials "email")
     (fun e => negb (isEmail e)) "Invalid email format"
   ++ fieldIssues "password" (prop credentials "password")
        (fun p => String.eqb p "") "Password is required")%list.
End EngineVocabulary.

(** [civil m]: whatever [m] throws, it is not [null] or [undefined]. *)
Definition civil {W A : Type} (m : M W A) : Prop :=
  forall w e w', m w = (Throw e, w') -> nullish e = false.

Section Collaborators.
Context {W : Type} `{Externals} `{Bcrypt W}.

(** None of the collaborators of the engine -- the adapter, the strategy,
    bcrypt, the callbacks, the custom validator -- throws [null] or
    [undefined]. *)
Definition civilEngine (config : AuthConfig W) : Prop :=
  (forall email, civil (findUserByEmail (adapter config) email))
  /\ (forall data, civil (createUser (adapter config) data))
  /\ (forall u, civil (generateToken (strategy config) u))
  /\ (forall u, civil (AuthEngine.runCallback onLogin config u))
  /\ (forall u, civil (AuthEngine.runCallback onRegister config u))
  /\ (forall data rounds, civil (bcrypt_hash data rounds))
  /\ (forall data encrypted e,
         bcrypt_compare data encrypted = Throw e -> nullish e = false)
  /\ (forall validator data e,
         customValidator (AuthEngine.validationConfig config) = Some validator ->
         validator data = Throw e -> nullish e = false).
End Collaborators.

(** What a token says about itself, in the terms the specification uses. *)
Definition signatureOrStructureInvalid (tok : Token) (secret : string) : bool :=
  match tok with
  | Malformed _ => true
  | Signed _ key => String.eqb secret "" || negb (String.eqb key secret)
  end.

Definition expiresAt (tok : Token) : option Z :=
  match tok with
  | Signed payload _ =>
      match prop payload "exp" with VNum exp => Some exp | _ => None end
  | Malformed _ => None
  end.

Definition expirationElapsed (tok : Token) (now : Z) : bool :=
  match expiresAt tok with
  | Some exp => (exp <=? now / 1000)%Z
  | None => false
  end.

(** The token carries no [exp], or one that lies ahead. *)
Definition unexpiredAt (tok : Token) (now : Z) : bool :=
  match tok with
  | Signed payload _ =>
      match prop payload "exp" with
      | VUndefined => true
      | VNum exp => (now / 1000 <? exp)%Z
      | _ => false
      end
  | Malformed _ => false
  end.

(** The token carries no [nbf], or one that has been reached. *)
Definition activeAt (tok : Token) (now : Z) : bool :=
  match tok with
  | Signed payload _ =>
      match prop payload "nbf" with
      | VUndefined => true
      | VNum nbf => (nbf <=? now / 1000)%Z
      | _ => false
      end
  | Malformed _ => false
  end.


(* ===================================================================== *)
(** * A concrete installation

    The engine of [quickAuth({secret: "s3cret"})] over the in-memory
    adapter, at a fixed instant, with the stand-in libraries; the inputs on
    which the theorems are exercised below. *)
(* ===================================================================== *)

Module Scenario.
#[local] Existing Instance Reference.externals.
#[local] Existing Instance Reference.bcrypt.
#[local] Existing Instance Jsonwebtoken.symbolic.

(** 2023-11-14T22:13:20.000Z *)
Definition now : Z := 1700000000000.

Definition id1 : string := "3f2b0c1e-0000-4000-8000-000000000001".
Definition id2 : string := "3f2b0c1e-0000-4000-8000-000000000002".

Definition uuids (n : nat) : string :=
  match n with O => id1 | _ => id2 end.

Definition world (s : MemoryAdapter.t) (drawn : nat) : MemoryAdapter.World :=
  {| MemoryAdapter.store := s; MemoryAdapter.clock := now;
     MemoryAdapter.uuids := uuids; MemoryAdapter.drawn := drawn |}.

Definition emptyStore : MemoryAdapter.t :=
  {| MemoryAdapter.users := ∅; MemoryAdapter.emailIndex := ∅ |}.

Definition engine : AuthConfig MemoryAdapter.World :=
  Index.quickAuth
    {| Index.secret := "s3cret"; Index.adapter_ := None; Index.strategy_ := None;
       Index.expiresIn := None; Index.validation_ := None |}.

Definition registration : CreateUserData :=
  [("email", VStr "a@b.com"); ("password", VStr "secret1")].

(** The user [createUser] stores for [registration]. *)
Definition alice : User :=
  [ ("id", VStr id1); ("email", VStr "a@b.com");
    ("password", VStr "$2b$12$secret1");
    ("createdAt", VDate now); ("updatedAt", VDate now) ].

(** A user that came in through an external identity provider. *)
Definition sso : User := [("id", VStr id2); ("email", VStr "sso@b.com")].

Definition aliceStore : MemoryAdapter.t :=
  {| MemoryAdapter.users := <[id1 := alice]> ∅;
     MemoryAdapter.emailIndex := <["a@b.com" := id1]> ∅ |}.

Definition store : MemoryAdapter.t :=
  {| MemoryAdapter.users := <[id2 := sso]> (<[id1 := alice]> ∅);
     MemoryAdapter.emailIndex := <["sso@b.com" := id2]> (<["a@b.com" := id1]> ∅) |}.

Definition strategyConfig : JWTStrategy.JWTStrategyConfig :=
  {| JWTStrategy.secret := "s3cret"; JWTStrategy.expiresIn := None;
     JWTStrategy.issuer := None; JWTStrategy.audience := None |}.

(** The token [generateToken] issues for [alice] at [now]. *)
Definition aliceToken : Token :=
  Signed
    [ ("sub", VStr id1); ("email", VStr "a@b.com");
      ("createdAt", VStr "2023-11-14T22:13:20.000Z");
      ("updatedAt", VStr "2023-11-14T22:13:20.000Z");
      ("iat", VNum 1700000000); ("exp", VNum 1700604800) ]
    "s3cret".

(** Users with an attribute named like a registered claim, and one with
    an empty id. *)
Definition mallory : User :=
  [ ("id", VStr "u-mallory"); ("email", VStr "mallory@b.com");
    ("sub", VStr "u-alice") ].

Definition blank : User := [("id", VStr ""); ("email", VStr "blank@b.com")].

Definition early : User :=
  [ ("id", VStr "u-early"); ("email", VStr "early@b.com");
    ("nbf", VNum 4102444800) ].

(** A strategy that insists on an issuer, and a token signed under the
    same secret by a strategy that names none. *)
Definition checking : JWTStrategy.t :=
  JWTStrategy.new
    {| JWTStrategy.secret := "s3cret"; JWTStrategy.expiresIn := None;
       JWTStrategy.issuer := Some "https://auth.example";
       JWTStrategy.audience := None |}.

Definition expiredToken : Token :=
  Signed [ ("sub", VStr id1); ("email", VStr "a@b.com");
           ("iat", VNum 1699000000); ("exp", VNum 1699604800) ]
         "s3cret".

Definition tokenWithoutSub : Token :=
  Signed [ ("email", VStr "a@b.com");
           ("iat", VNum 1700000000); ("exp", VNum 1700604800) ]
         "s3cret".

(** A library whose [verify] fails outside its own error classes. *)
Definition unavailable : Jsonwebtoken.Lib :=
  {| Jsonwebtoken.sign := fun _ _ _ _ => Throw (Err Error "crypto unavailable");
     Jsonwebtoken.verify := fun _ _ _ _ => Throw (Err Error "crypto unavailable") |}.

(** An engine whose [onRegister] callback throws [e]. *)
Definition notifying (e : exn) : AuthConfig MemoryAdapter.World :=
  Index.createAuth
    {| adapter := MemoryAdapter.adapter;
       strategy := JWTStrategy.strategy MemoryAdapter.clock
                     (JWTStrategy.new strategyConfig);
       callbacks :=
         Some {| onLogin := None;
                 onRegister := Some (fun _ => throw e);
                 onLogout := None |};
       validation := None |}.

Definition mailDown : exn := Err Error "SMTP connection refused".

(** What [profileSchema.parse(user)] throws in a callback. *)
Definition profileInvalid : exn :=
  ZodError [{| path := ["profile"]; message := "Required" |}].

(** An engine with a custom validator that wants the terms accepted. *)
Definition termsValidator (data : obj value) : completion CustomResult :=
  Return
    (if bool_decide (prop data "terms" = VBool true)
     then {| cv_success := true; cv_errors := None |}
     else {| cv_success := false;
             cv_errors := Some [("terms", "You must accept the terms")] |}).

Definition withTerms : AuthConfig MemoryAdapter.World :=
  withValidation
    (Some {| email := None; password := None; fields := None;
             customValidator := Some termsValidator |})
    engine.

Definition malformed : CreateUserData :=
  [("email", VStr "not-an-email"); ("password", VStr "x")].

(** The world in which [alice] has just been created. *)
Definition created : MemoryAdapter.World := world aliceStore 1.
End Scenario.

(* ===================================================================== *)
(** * src/middleware/express.ts *)
(* ===================================================================== *)

Module Express.

(** How the string after ["Bearer "] reads as a token.  The compact
    serialization of tokens is not modelled; the parser's view of a string
    is a parameter. *)
Class TokenReader : Type := { readToken : string -> Token }.

(** [RequestWithUser], as far as the middleware and the route handlers read
    and write it: [headers.authorization], [user], and the JSON object
    [body]. *)
Record Request : Type := {
  authorization : value;
  user : option User;
  body : obj value;
}.

(** [res.status(status).json(json)] *)
Record Response : Type := { status : Z; json : AuthResult }.

(** What a middleware does with a request: it answers, or it calls [next()]
    on the request, to which it may have attached a user.  ([next] is the
    end of the middleware here: what the rest of the chain does is not its
    concern.) *)
Inductive Handled : Type :=
  | Responded (res : Response)
  | Next (req : Request).

(** [MiddlewareOptions] *)
Record MiddlewareOptions : Type := {
  requireAuth_ : option bool;
  roles : option (list string);
}.

(** [req.user = u] *)
Definition setUser (u : User) (req : Request) : Request :=
  {| authorization := authorization req; user := Some u; body := body req |}.

(** [s.startsWith(prefix)] *)
Definition startsWith (s prefix : string) : bool := String.prefix prefix s.

(** [s.substring(n)] *)
Definition substringFrom (n : nat) (s : string) : string :=
  String.substring n (String.length s - n) s.

(** [res.status(401).json({ success: false, error: msg })] *)
Definition unauthorized (msg : string) : Handled :=
  Responded {| status := 401; json := failure msg |}.

(** [result.error || 'Invalid token'] *)
Definition errorOr (result : AuthResult) (fallback : string) : string :=
  match error result with
  | Some e => if String.eqb e "" then fallback else e
  | None => fallback
  end.

Section Middleware.
Context {W : Type} `{Externals} `{TokenReader}.

Definition requireAuth (auth : AuthConfig W) (options : MiddlewareOptions)
    (req : Request) : M W Handled :=
  tryCatch
    (let authHeader := authorization req in
     if negb (truthy authHeader) then ret (unauthorized "Authentication required")
     else
       match authHeader with
       | VStr header =>
           if negb (startsWith header "Bearer ") then
             ret (unauthorized "Authentication required")
           else
             let tok := substringFrom 7 header in
             await result <- AuthEngine.verifyToken auth (readToken tok);
             match success result, Types.user result with
             | true, Some u => ret (Next (setUser u req))
             | _, _ => ret (unauthorized (errorOr result "Invalid token"))
             end
       | _ => throw (Err Error "authHeader.startsWith is not a function")
       end)
    (fun error => ret (unauthorized "Authentication failed")).

Definition optionalAuth (auth : AuthConfig W) (req : Request) : M W Handled :=
  tryCatch
    (let authHeader := authorization req in
     if negb (truthy authHeader) then ret (Next req)
     else
       match authHeader with
       | VStr header =>
           if negb (startsWith header "Bearer ") then ret (Next req)
           else
             let tok := substringFrom 7 header in
             await result <- AuthEngine.verifyToken auth (readToken tok);
             match success result, Types.user result with
             | true, Some u => ret (Next (setUser u req))
             | _, _ => ret (Next req)
             end
       | _ => throw (Err Error "authHeader.startsWith is not a function")
       end)
    (fun error => ret (Next req)).
End Middleware.

End Express.

(* ===================================================================== *)
(** * src/index.ts: the route handlers

    [quickAuth] and [createAuth] return the same handlers around the engine
    they build. *)
(* ===================================================================== *)

Module Routes.
Section Routes.
Context {W : Type} `{Externals} `{Bcrypt W} `{Express.TokenReader}.

(** [res.json(body)]: status 200 *)
Definition ok (body : AuthResult) : Express.Response :=
  {| Express.status := 200; Express.json := body |}.

Definition middleware (engine : AuthConfig W) (req : Express.Request)
  : M W Express.Handled :=
  Express.optionalAuth engine req.

Definition requireAuth (engine : AuthConfig W) (req : Express.Request)
  : M W Express.Handled :=
  Express.requireAuth engine
    {| Express.requireAuth_ := None; Express.roles := None |} req.

Definition login (engine : AuthConfig W) (req : Express.Request)
  : M W Express.Response :=
  await result <- AuthEngine.login engine (Express.body req);
  ret {| Express.status := if success result then 200 else 401;
         Express.json := result |}.

Definition register (engine : AuthConfig W) (req : Express.Request)
  : M W Express.Response :=
  await result <- AuthEngine.register engine (Express.body req);
  ret {| Express.status := if success result then 201 else 400;
         Express.json := result |}.

Definition logout (engine : AuthConfig W) (req : Express.Request)
  : M W Express.Response :=
  await_ match Express.user req with
         | Some u => AuthEngine.logout engine u
         | None => ret tt
         end;
  ret (ok {| success := true; user := None; token := None;
             error := None; errors := None |}).

Definition me (engine : AuthConfig W) (req : Express.Request)
  : M W Express.Response :=
  match Express.user req with
  | None =>
      ret {| Express.status := 401; Express.json := failure "Not authenticated" |}
  | Some u =>
      ret (ok {| success := true; user := Some u; token := None;
                 error := None; errors := None |})
  end.
End Routes.
End Routes.

(* ===================================================================== *)
(** * Vocabulary of the statements on error maps and headers *)
(* ===================================================================== *)

(** The key [formatZodError] files an issue under. *)
Definition joined (i : ZodIssue) : string := String.concat "." (path i).

(** The message of the last issue raised for the path [p], if any. *)
Definition lastMessage (issues : list ZodIssue) (p : string) : option string :=
  fold_left
    (fun found i => if String.eqb (joined i) p then Some (message i) else found)
    issues None.


(* ===================================================================== *)
(** * Further inputs on which the theorems are exercised *)
(* ===================================================================== *)

Module Cases.
#[local] Existing Instance Reference.externals.
#[local] Existing Instance Reference.bcrypt.
#[local] Existing Instance Jsonwebtoken.symbolic.

(** What [register] hands to [createUser] for [Scenario.registration]. *)
Definition filed : CreateUserData :=
  [("email", VStr "a@b.com"); ("password", VStr "$2b$12$secret1")].

(** A reader that knows the serialization of [Scenario.aliceToken]. *)
Definition reader : Express.TokenReader :=
  Express.Build_TokenReader
    (fun s => if String.eqb s "alice.jwt" then Scenario.aliceToken
              else Malformed s).

(** A request with the given [authorization] header and an empty body. *)
Definition request (header : value) : Express.Request :=
  {| Express.authorization := header; Express.user := None; Express.body := [] |}.

(** The user [verify] yields for [Scenario.aliceToken]. *)
Definition verifiedAlice : User :=
  [ ("id", VStr Scenario.id1); ("email", VStr "a@b.com");
    ("sub", VStr Scenario.id1);
    ("createdAt", VStr "2023-11-14T22:13:20.000Z");
    ("updatedAt", VStr "2023-11-14T22:13:20.000Z");
    ("iat", VNum 1700000000); ("exp", VNum 1700604800) ].

(** A strategy configured with the key [expiresIn] set to [undefined]. *)
Definition unbounded : JWTStrategy.JWTStrategyConfig :=
  {| JWTStrategy.secret := "s3cret"; JWTStrategy.expiresIn := Some VUndefined;
     JWTStrategy.issuer := None; JWTStrategy.audience := None |}.

(** An engine whose [onLogout] callback throws. *)
Definition auditing : AuthConfig MemoryAdapter.World :=
  Index.createAuth
    {| adapter := MemoryAdapter.adapter;
       strategy := JWTStrategy.strategy MemoryAdapter.clock
                     (JWTStrategy.new Scenario.strategyConfig);
       callbacks :=
         Some {| onLogin := None; onRegister := None;
                 onLogout := Some (fun _ => throw Scenario.mailDown) |};
       validation := None |}.

(** A request without headers that posts [body]. *)
Definition posting (body : obj value) : Express.Request :=
  {| Express.authorization := VUndefined; Express.user := None;
     Express.body := body |}.

(** An engine whose callbacks reject without a reason. *)
Definition rejecting : AuthConfig MemoryAdapter.World :=
  Index.createAuth
    {| adapter := MemoryAdapter.adapter;
       strategy := JWTStrategy.strategy MemoryAdapter.clock
                     (JWTStrategy.new Scenario.strategyConfig);
       callbacks :=
         Some {| onLogin := Some (fun _ => throw (Thrown VUndefined));
                 onRegister := Some (fun _ => throw (Thrown VUndefined));
                 onLogout := None |};
       validation := None |}.


(** Issues of a schema with a refinement on the whole object and a field
    named like the prototype accessor. *)
Definition issues : list ZodIssue :=
  [ {| path := ["password"]; message := "Too short" |};
    {| path := []; message := "Passwords differ" |};
    {| path := ["__proto__"]; message := "Expected string, received object" |};
    {| path := ["password"]; message := "Needs a digit" |} ].
End Cases.


(* ===================================================================== *)
(** * Properties of objects *)
(* ===================================================================== *)

Section ObjFacts.
Context {V : Type}.
Implicit Types (o s t : obj V) (k : string) (v : V).

Lemma get_set_eq o k v : get (set k v o) k = Some v.
Proof.
  induction o as [|[k' v'] o IH]; simpl.
  - now rewrite String.eqb_refl.
  - destruct (String.eqb_spec k' k) as [->|Hne]; simpl.
    + now rewrite String.eqb_refl.
    + destruct (String.eqb_spec k' k); [contradiction | exact IH].
Qed.

Lemma get_set_ne o k k' v : k <> k' -> get (set k v o) k' = get o k'.
Proof.
  intros Hne. induction o as [|[k1 v1] o IH]; simpl.
  - destruct (String.eqb_spec k k'); [contradiction | reflexivity].
  - destruct (String.eqb_spec k1 k) as [->|H1]; simpl.
    + destruct (String.eqb_spec k k'); [contradiction | reflexivity].
    + destruct (String.eqb_spec k1 k'); [reflexivity | exact IH].
Qed.

Lemma get_remove_eq o k : get (remove k o) k = None.
Proof.
  induction o as [|[k' v'] o IH]; simpl; [reflexivity|].
  destruct (String.eqb_spec k' k) as [->|Hne]; simpl; [exact IH|].
  destruct (String.eqb_spec k' k); [contradiction | exact IH].
Qed.

Lemma get_remove_ne o k k' : k <> k' -> get (remove k o) k' = get o k'.
Proof.
  intros Hne. induction o as [|[k1 v1] o IH]; simpl; [reflexivity|].
  destruct (String.eqb_spec k1 k) as [->|H1]; simpl.
  - destruct (String.eqb_spec k k'); [contradiction | exact IH].
  - destruct (String.eqb_spec k1 k'); [reflexivity | exact IH].
Qed.

Lemma get_None_notin o k : get o k = None <-> ~ In k (List.map fst o).
Proof.
  induction o as [|[k' v'] o IH]; simpl.
  - tauto.
  - destruct (String.eqb_spec k' k) as [->|Hne].
    + split; [discriminate | intros Hn; exfalso; apply Hn; now left].
    + rewrite IH. split; [intros Hn [He|Hi]; [congruence | tauto] | tauto].
Qed.

Lemma get_assign_None s : forall t k,
  get s k = None -> get (assign t s) k = get t k.
Proof.
  unfold assign. induction s as [|[k1 v1] s IH]; intros t k Hs; simpl in *.
  - reflexivity.
  - destruct (String.eqb_spec k1 k) as [->|Hne]; [discriminate|].
    rewrite (IH _ _ Hs). now apply get_set_ne.
Qed.

Lemma keys_set o k v :
  List.map fst (set k v o)
  = if has o k then List.map fst o else (List.map fst o ++ [k])%list.
Proof.
  unfold has. induction o as [|[k' v'] o IH]; simpl; [reflexivity|].
  destruct (String.eqb_spec k' k) as [->|Hne]; simpl; [reflexivity|].
  rewrite IH. now destruct (get o k).
Qed.

Lemma NoDupKeys_set o k v : NoDupKeys o -> NoDupKeys (set k v o).
Proof.
  unfold NoDupKeys. intros Hnd. rewrite keys_set. unfold has.
  destruct (get o k) eqn:Hg; [exact Hnd|].
  apply get_None_notin in Hg.
  apply NoDup_app. repeat split; auto.
  - intros x Hx Hk. apply list_elem_of_In in Hx.
    apply list_elem_of_In in Hk. destruct Hk as [<-|[]]. contradiction.
  - apply NoDup_cons. split; [intros Hin; inversion Hin | apply NoDup_nil; exact I].
Qed.

Lemma NoDupKeys_assign s : forall t, NoDupKeys t -> NoDupKeys (assign t s).
Proof.
  unfold assign. induction s as [|[k1 v1] s IH]; intros t Ht; simpl; [exact Ht|].
  apply IH. now apply NoDupKeys_set.
Qed.

Lemma get_assign s : forall t k,
  NoDupKeys s ->
  get (assign t s) k = match get s k with Some v => Some v | None => get t k end.
Proof.
  unfold assign. induction s as [|[k1 v1] s IH]; intros t k Hnd; simpl.
  - reflexivity.
  - unfold NoDupKeys in Hnd. simpl in Hnd. apply NoDup_cons in Hnd as [Hk1 Hnd].
    rewrite (IH _ _ Hnd).
    destruct (String.eqb_spec k1 k) as [->|Hne].
    + assert (get s k = None) as ->.
      { apply get_None_notin. intros Hin. apply Hk1. now apply list_elem_of_In. }
      apply get_set_eq.
    + destruct (get s k); [reflexivity|]. now apply get_set_ne.
Qed.

Lemma In_insertIndex n (e : string * V) l x :
  In x (insertIndex n e l) -> x = (n, e) \/ In x l.
Proof.
  induction l as [|[m e'] l IH]; simpl.
  - intros [<-|[]]. now left.
  - destruct (n <? m)%N; simpl.
    + intros [<-|H]; [now left | now right].
    + intros [<-|H]; [right; now left|].
      destruct (IH H) as [->|Hl]; [now left | right; now right].
Qed.

Lemma In_indexEntries o : forall acc x,
  In x (fold_left
          (fun acc e =>
             match arrayIndex (fst e) with
             | Some n => insertIndex n e acc
             | None => acc
             end) o acc) ->
  In x acc \/ In (snd x) o.
Proof.
  induction o as [|e o IH]; intros acc x Hx; simpl in *; [now left|].
  destruct (IH _ _ Hx) as [Hacc|Ho]; [|right; now right].
  destruct (arrayIndex (fst e)); [|now left].
  destruct (In_insertIndex _ _ _ _ Hacc) as [->|Hl]; [right; now left | now left].
Qed.

(** Enumeration lists own properties only. *)
Lemma In_ownEntries o e : In e (ownEntries o) -> In e o.
Proof.
  unfold ownEntries, indexEntries. rewrite in_app_iff.
  intros [Hi|Hf].
  - apply in_map_iff in Hi as [x [<- Hx]].
    destruct (In_indexEntries _ _ _ Hx) as [[]|Ho]. exact Ho.
  - apply filter_In in Hf. tauto.
Qed.

Lemma In_ownKeys o k : In k (ownKeys o) -> In k (List.map fst o).
Proof.
  unfold ownKeys. intros Hk. apply in_map_iff in Hk as [e [<- He]].
  apply in_map. now apply In_ownEntries.
Qed.
End ObjFacts.

Lemma prop_set_eq (o : obj value) k v : prop (set k v o) k = v.
Proof. unfold prop. now rewrite get_set_eq. Qed.

Lemma prop_set_ne (o : obj value) k k' v : k <> k' -> prop (set k v o) k' = prop o k'.
Proof. intros Hne. unfold prop. now rewrite get_set_ne. Qed.

(* ===================================================================== *)
(** * Reasoning about computations *)
(* ===================================================================== *)

Section Computations.
Context {W : Type}.

Lemma post_ret {A} (P : A -> Prop) a : P a -> post P (ret (W:=W) a).
Proof. intros HP w a' w' Hr. injection Hr as <- _. exact HP. Qed.

Lemma post_bind {A B} (P : B -> Prop) (m : M W A) (k : A -> M W B) :
  (forall a, post P (k a)) -> post P (bind m k).
Proof.
  intros Hk w b w' Hr. unfold bind in Hr.
  destruct (m w) as [[a|e] w1]; [exact (Hk a w1 b w' Hr) | discriminate].
Qed.

Lemma post_tryCatch {A} (P : A -> Prop) (body : M W A) handler :
  post P body -> (forall e, post P (handler e)) -> post P (tryCatch body handler).
Proof.
  intros Hb Hh w a w' Hr. unfold tryCatch in Hr.
  destruct (body w) as [[a0|e] w1] eqn:Eb.
  - injection Hr as <- <-. exact (Hb _ _ _ Eb).
  - exact (Hh e w1 a w' Hr).
Qed.

(** What a [try] statement throws, its handler threw. *)
Lemma tryCatch_Throw {A} (body : M W A) handler w e w' :
  tryCatch body handler w = (Throw e, w') ->
  exists e0 w0, body w = (Throw e0, w0) /\ handler e0 w0 = (Throw e, w').
Proof.
  unfold tryCatch. destruct (body w) as [[a|e0] w0]; [discriminate|].
  intros Hh. now exists e0, w0.
Qed.

End Computations.

Ltac post_step :=
  match goal with
  | |- post _ (tryCatch _ _) => apply post_tryCatch
  | |- post _ (bind _ _) => apply post_bind; intros
  | |- post _ (ret _) => apply post_ret
  | |- post _ (match ?x with _ => _ end) => destruct x
  | |- post _ (if ?b then _ else _) => destruct b
  | |- forall _, _ => intros
  end.

(* ===================================================================== *)
(** * The engine: sanitization *)
(* ===================================================================== *)

Create HintDb sanitize.

Section Sanitization.
Context {W : Type} `{Externals} `{Bcrypt W}.
Implicit Types (config : AuthConfig W) (w : W).

Lemma sanitizeUser_no_password (u : User) :
  get (AuthEngine.sanitizeUser u) "password" = None.
Proof. apply get_remove_eq. Qed.


Lemma userSanitized_failureWith msg errs :
  userSanitized (failureWith msg errs).
Proof. intros u Hu. discriminate. Qed.

Lemma userSanitized_authenticated u tok :
  userSanitized (AuthEngine.authenticated u tok).
Proof.
  intros u' Hu. simpl in Hu. injection Hu as <-. apply sanitizeUser_no_password.
Qed.

Lemma userSanitized_failure msg : userSanitized (failure msg).
Proof. intros u Hu. discriminate. Qed.

Hint Resolve userSanitized_failureWith userSanitized_failure
  userSanitized_authenticated : sanitize.

Lemma register_sanitized config data :
  post userSanitized (AuthEngine.register config data).
Proof.
  unfold AuthEngine.register; cbv zeta.
  repeat post_step;
    unfold AuthEngine.validationFailure, AuthEngine.userExists;
    auto with sanitize.
Qed.

Lemma login_sanitized config credentials :
  post userSanitized (AuthEngine.login config credentials).
Proof.
  unfold AuthEngine.login.
  repeat post_step;
    unfold AuthEngine.validationFailure, AuthEngine.invalidCredentials;
    auto with sanitize.
Qed.

Lemma getUser_sanitized config id :
  post (fun found => forall u, found = Some u -> get u "password" = None)
       (AuthEngine.getUser config id).
Proof.
  unfold AuthEngine.getUser. apply post_bind. intros [found|]; apply post_ret.
  - intros u Hu. injection Hu as <-. apply sanitizeUser_no_password.
  - intros u Hu. discriminate.
Qed.

Lemma updateUser_sanitized config id data :
  post (fun u => get u "password" = None) (AuthEngine.updateUser config id data).
Proof.
  unfold AuthEngine.updateUser. repeat post_step. apply sanitizeUser_no_password.
Qed.

(** The catch blocks of [register] and [login] throw nothing but the
    TypeError of reading the [message] of a thrown [null] or [undefined];
    what the body threw is such a value then. *)
Lemma catch_Throw (prefix : string) (e0 e : exn) (w0 w' : W) :
  match e0 with
  | ZodError issues => ret (AuthEngine.validationFailure issues)
  | Err _ msg => ret (failure (prefix ++ msg))
  | Thrown v =>
      await msg <- lift (messageOf v);
      ret (failure (prefix ++ msg))
  end w0 = (Throw e, w') ->
  exists v, e0 = Thrown v /\ nullish e0 = true /\ e = messageTypeError v /\ w' = w0.
Proof.
  destruct e0 as [issues|c msg|v]; try discriminate.
  unfold bind, lift, ret, messageOf, messageTypeError.
  destruct v; try discriminate; intros Hr; injection Hr as <- <-;
    eexists; repeat split.
Qed.

Lemma register_Throw config data w e w' :
  AuthEngine.register config data w = (Throw e, w') ->
  e = messageTypeError VUndefined \/ e = messageTypeError VNull.
Proof.
  intros Hr. apply tryCatch_Throw in Hr as (e0 & w0 & _ & Hh).
  apply catch_Throw in Hh as (v & -> & Hv & -> & _).
  destruct v; try discriminate; auto.
Qed.

Lemma login_Throw config credentials w e w' :
  AuthEngine.login config credentials w = (Throw e, w') ->
  e = messageTypeError VUndefined \/ e = messageTypeError VNull.
Proof.
  intros Hr. apply tryCatch_Throw in Hr as (e0 & w0 & _ & Hh).
  apply catch_Throw in Hh as (v & -> & Hv & -> & _).
  destruct v; try discriminate; auto.
Qed.
End Sanitization.

(* ===================================================================== *)
(** * The engine: login *)
(* ===================================================================== *)

Section Login.
Context {W : Type} `{Externals} `{Bcrypt W}.
Implicit Types (config : AuthConfig W) (w : W).

(** C1.  Once the credentials pass the login schema, the three ways a login
    is refused for the credentials themselves -- the lookup finds no user,
    the user found has no (or an empty) password hash, the comparison of
    the password with the hash returns false -- all return the same value,
    [{success: false, error: "Invalid credentials",
      errors: {general: "Invalid email or password"}}]. *)
Theorem login_refusals_identical config credentials validated found w w' :
  Zod.parse AuthEngine.defaultLoginSchema credentials = Return validated ->
  findUserByEmail (adapter config) (prop validated "email") w = (Return found, w') ->
  (found = None
   \/ exists user, found = Some user
      /\ (truthy (prop user "password") = false
          \/ bcrypt_compare (prop validated "password") (prop user "password")
             = Return false)) ->
  AuthEngine.login config credentials w
  = (Return
       {| success := false; user := None; token := None;
          error := Some "Invalid credentials";
          errors := Some [("general", "Invalid email or password")] |},
     w').
Proof.
  intros Hparse Hfind Hcase.
  unfold AuthEngine.login, tryCatch, bind, lift. rewrite Hparse, Hfind.
  destruct Hcase as [-> | (user & -> & [Hnone | Hcmp])].
  - reflexivity.
  - now rewrite Hnone.
  - destruct (truthy (prop user "password")); simpl; [|reflexivity].
    now rewrite Hcmp.
Qed.

Lemma parse_login_accepts credentials e p :
  prop credentials "email" = VStr e ->
  prop credentials "password" = VStr p ->
  isEmail e = true -> p <> "" ->
  Zod.parse AuthEngine.defaultLoginSchema credentials
  = Return [("email", VStr e); ("password", VStr p)].
Proof.
  intros He Hp Hmail Hne.
  unfold Zod.parse, Zod.shapePairs, AuthEngine.defaultLoginSchema. simpl.
  rewrite He, Hp. simpl. unfold Zod.email, Zod.min. rewrite Hmail.
  destruct p as [|a p]; [contradiction|]. reflexivity.
Qed.

(** The fixed rule throws the issues of the rule, in the order e-mail,
    password. *)
Lemma parse_login_issues credentials :
  loginSchemaAccepts credentials = false ->
  loginIssues credentials <> []
  /\ Zod.parse AuthEngine.defaultLoginSchema credentials
     = Throw (ZodError (loginIssues credentials)).
Proof.
  unfold loginSchemaAccepts, loginIssues, fieldIssues. intros Hrej.
  unfold Zod.parse, Zod.shapePairs, AuthEngine.defaultLoginSchema. simpl.
  unfold Zod.email, Zod.min.
  destruct (prop credentials "email") as [| |b|n|e|t]; simpl in *;
    try (destruct (isEmail e));
    destruct (prop credentials "password") as [| |b'|n'|p|t'];
    try (destruct p as [|a p]);
    simpl in *; try discriminate; split; (discriminate || reflexivity).
Qed.

(** C7.  The validation of login ignores the [validation] part of the
    configuration, and it is the fixed rule -- the e-mail is a string that
    passes the e-mail check, the password is a string that is not empty.
    Credentials the rule rejects are answered, before any lookup and in the
    world they came in, with the validation failure that reports the
    issues of the rule.  Credentials the rule accepts are never refused by
    validation: [login] goes on to look the e-mail up, and from there on
    it is the rest of [login] on the e-mail and the password given. *)
Theorem login_schema_fixed config credentials w :
  (forall v,
      AuthEngine.login (withValidation v config) credentials w
      = AuthEngine.login config credentials w)
  /\ (loginSchemaAccepts credentials = false ->
      loginIssues credentials <> []
      /\ AuthEngine.login config credentials w
         = (Return (AuthEngine.validationFailure (loginIssues credentials)), w))
  /\ (loginSchemaAccepts credentials = true ->
      loginIssues credentials = []
      /\ AuthEngine.login config credentials w
         = tryCatch
             (await found <-
                findUserByEmail (adapter config) (prop credentials "email");
              match found with
              | None => ret AuthEngine.invalidCredentials
              | Some user =>
                  if negb (truthy (prop user "password"))
                  then ret AuthEngine.invalidCredentials
                  else
                    await isValid <-
                      lift (bcrypt_compare (prop credentials "password")
                                           (prop user "password"));
                    if negb isValid then ret AuthEngine.invalidCredentials
                    else
                      await_ AuthEngine.runCallback onLogin config user;
                      await tok <- generateToken (strategy config) user;
                      ret (AuthEngine.authenticated user tok)
              end)
             (fun error =>
                match error with
                | ZodError issues => ret (AuthEngine.validationFailure issues)
                | Err _ msg => ret (failure ("Login failed: " ++ msg))
                | Thrown v =>
                    await msg <- lift (messageOf v);
                    ret (failure ("Login failed: " ++ msg))
                end) w).
Proof.
  split; [|split].
  - intros v. reflexivity.
  - intros Hrej. destruct (parse_login_issues _ Hrej) as (Hsome & Hparse).
    split; [exact Hsome|].
    unfold AuthEngine.login, tryCatch, bind, lift. now rewrite Hparse.
  - unfold loginSchemaAccepts, loginIssues, fieldIssues. intros Hacc.
    destruct (prop credentials "email") as [| |b|n|e|t] eqn:He; try discriminate.
    destruct (prop credentials "password") as [| |b'|n'|p|t'] eqn:Hp;
      try discriminate.
    apply andb_true_iff in Hacc as [Hmail Hne].
    rewrite Hmail. destruct (String.eqb_spec p "") as [|Hnonempty];
      [discriminate|].
    split; [reflexivity|].
    unfold AuthEngine.login, tryCatch, bind, lift.
    now rewrite (parse_login_accepts credentials e p He Hp Hmail Hnonempty).
Qed.
End Login.

(* ===================================================================== *)
(** * The engine: registration *)
(* ===================================================================== *)

Section Register.
Context {W : Type} `{Externals} `{Bcrypt W}.
Implicit Types (config : AuthConfig W) (w : W).

(** [register] from the point where the custom validator has accepted. *)
Lemma register_accepted config data w :
  customAccepts config data = true ->
  AuthEngine.register config data w
  = tryCatch
      (await validated <- lift (Zod.parse (AuthEngine.buildRegisterSchema config) data);
       await existingUser <-
         findUserByEmail (adapter config) (prop validated "email");
       match existingUser with
       | Some _ => ret AuthEngine.userExists
       | None =>
           await hashedPassword <-
             bcrypt_hash (prop validated "password") AuthEngine.SALT_ROUNDS;
           await user <-
             createUser (adapter config)
               (assign [ ("email", prop validated "email");
                         ("password", VStr hashedPassword) ]
                       (remove "password" validated));
           await_ AuthEngine.runCallback onRegister config user;
           await tok <- generateToken (strategy config) user;
           ret (AuthEngine.authenticated user tok)
       end)
      (fun error =>
         match error with
         | ZodError issues => ret (AuthEngine.validationFailure issues)
         | Err _ msg => ret (failure ("Registration failed: " ++ msg))
         | Thrown v =>
             await msg <- lift (messageOf v);
             ret (failure ("Registration failed: " ++ msg))
         end) w.
Proof.
  unfold customAccepts, AuthEngine.register, tryCatch. intros Hacc.
  destruct (customValidator (AuthEngine.validationConfig config)) as [validator|];
    [|reflexivity].
  unfold bind at 1, lift at 1.
  destruct (validator data) as [customResult|e]; [|discriminate].
  now rewrite Hacc.
Qed.

Lemma register_existing config data validated existing w w' :
  customAccepts config data = true ->
  Zod.parse (AuthEngine.buildRegisterSchema config) data = Return validated ->
  findUserByEmail (adapter config) (prop validated "email") w
  = (Return (Some existing), w') ->
  AuthEngine.register config data w = (Return AuthEngine.userExists, w').
Proof.
  intros Hacc Hparse Hfind. rewrite (register_accepted _ _ _ Hacc).
  unfold tryCatch, bind, lift. now rewrite Hparse, Hfind.
Qed.

(** C6.  When the custom validator reports a failure on the raw input,
    [register] answers [{success: false, error: "Validation failed",
    errors: <the validator's map>}] in the world it started in, whatever
    the rules of the schema are and whatever they would say of the input. *)
Theorem register_custom_validator_first config data validator customResult w :
  customValidator (AuthEngine.validationConfig config) = Some validator ->
  validator data = Return customResult ->
  cv_success customResult = false ->
  AuthEngine.register config data w
  = (Return
       {| success := false; user := None; token := None;
          error := Some "Validation failed";
          errors := cv_errors customResult |},
     w).
Proof.
  intros Hcv Hres Hfail.
  unfold AuthEngine.register, tryCatch. rewrite Hcv.
  unfold bind at 1, lift at 1. now rewrite Hres, Hfail.
Qed.

(** C8, as amended.  When the user has been persisted and the [onRegister]
    callback throws an error that is not a [ZodError], [register] answers
    [{success: false, error: "Registration failed: " + message}], in the
    world the callback left. *)
Theorem register_callback_failure
    config data validated hashed created cbs callback c msg w w1 w2 w3 w4 :
  customAccepts config data = true ->
  Zod.parse (AuthEngine.buildRegisterSchema config) data = Return validated ->
  findUserByEmail (adapter config) (prop validated "email") w = (Return None, w1) ->
  bcrypt_hash (prop validated "password") AuthEngine.SALT_ROUNDS w1
  = (Return hashed, w2) ->
  createUser (adapter config)
    (assign [("email", prop validated "email"); ("password", VStr hashed)]
            (remove "password" validated)) w2
  = (Return created, w3) ->
  callbacks config = Some cbs ->
  onRegister cbs = Some callback ->
  callback created w3 = (Throw (Err c msg), w4) ->
  AuthEngine.register config data w
  = (Return
       {| success := false; user := None; token := None;
          error := Some ("Registration failed: " ++ msg); errors := None |},
     w4).
Proof.
  intros Hacc Hparse Hfind Hhash Hcreate Hcbs Hon Hthrow.
  rewrite (register_accepted _ _ _ Hacc).
  unfold tryCatch, bind, lift, AuthEngine.runCallback.
  now rewrite Hparse, Hfind, Hhash, Hcreate, Hcbs, Hon, Hthrow.
Qed.

End Register.

(* ===================================================================== *)
(** * The in-memory adapter under the engine *)
(* ===================================================================== *)

Section InMemory.
Context `{Externals}.

(** A lookup leaves the world alone. *)
Lemma findUserByEmail_readonly email w r w' :
  MemoryAdapter.findUserByEmail email w = (r, w') -> w' = w.
Proof.
  unfold MemoryAdapter.findUserByEmail, bind, lift.
  destruct (MemoryAdapter.toLowerCaseOf "email" email) as [lower|e].
  - destruct (MemoryAdapter.emailIndex (MemoryAdapter.store w) !! lower) as [id|];
      [destruct (String.eqb id "")|]; intros Hr; now injection Hr as _ <-.
  - intros Hr. now injection Hr as _ <-.
Qed.

(** What a lookup returns depends on the maps only. *)
Lemma findUserByEmail_store email w1 w2 :
  MemoryAdapter.store w1 = MemoryAdapter.store w2 ->
  fst (MemoryAdapter.findUserByEmail email w1)
  = fst (MemoryAdapter.findUserByEmail email w2).
Proof.
  unfold MemoryAdapter.findUserByEmail, bind, lift. intros ->.
  destruct (MemoryAdapter.toLowerCaseOf "email" email) as [lower|e]; [|reflexivity].
  destruct (MemoryAdapter.emailIndex (MemoryAdapter.store w2) !! lower) as [id|];
    [destruct (String.eqb id "")|]; reflexivity.
Qed.

(** A user created under a string e-mail, with a non-empty identifier, is
    found under that e-mail. *)
Lemma createUser_found data e u w w' :
  prop data "email" = VStr e ->
  MemoryAdapter.uuids w (MemoryAdapter.drawn w) <> "" ->
  MemoryAdapter.createUser data w = (Return u, w') ->
  MemoryAdapter.findUserByEmail (VStr e) w' = (Return (Some u), w').
Proof.
  intros He Hid.
  unfold MemoryAdapter.createUser, MemoryAdapter.findUserByEmail,
    MemoryAdapter.randomUUID, MemoryAdapter.newDate, MemoryAdapter.setStore,
    bind, lift, ret.
  rewrite He. simpl. intros Hr. injection Hr as <- <-. simpl.
  rewrite lookup_insert_eq.
  destruct (String.eqb_spec (MemoryAdapter.uuids w (MemoryAdapter.drawn w)) "");
    [contradiction|].
  now rewrite lookup_insert_eq.
Qed.

Lemma NoDupKeys_fold {V A} (f : obj V -> A -> obj V) (l : list A) :
  (forall o a, NoDupKeys o -> NoDupKeys (f o a)) ->
  forall o, NoDupKeys o -> NoDupKeys (fold_left f l o).
Proof.
  intros Hf. induction l as [|a l IH]; intros o Ho; simpl; [exact Ho|].
  apply IH, Hf, Ho.
Qed.

(** What a schema returns has no key twice. *)
Lemma parse_NoDupKeys s data validated :
  Zod.parse s data = Return validated -> NoDupKeys validated.
Proof.
  unfold Zod.parse.
  destruct (existsb _ _).
  - destruct (List.flat_map _ _); discriminate.
  - intros Hr. injection Hr as <-.
    apply NoDupKeys_fold.
    + intros o [k v] Ho. unfold Zod.mergeExtra.
      destruct (_ && _); [now apply NoDupKeys_set | exact Ho].
    + apply NoDupKeys_fold.
      * intros o [[k [v|issues]] alwaysSet] Ho; simpl; [|exact Ho].
        destruct (_ && _); [now apply NoDupKeys_set | exact Ho].
      * apply NoDup_nil. exact I.
Qed.

Lemma NoDupKeys_remove {V} (o : obj V) k : NoDupKeys o -> NoDupKeys (remove k o).
Proof.
  unfold NoDupKeys, remove. induction o as [|[k1 v1] o IH]; simpl; [auto|].
  intros Hnd. apply NoDup_cons in Hnd as [Hk1 Hnd].
  destruct (negb (String.eqb k1 k)); simpl; [|now apply IH].
  apply NoDup_cons. split; [|now apply IH].
  intros Hin. apply Hk1. apply list_elem_of_In in Hin. apply list_elem_of_In.
  apply in_map_iff in Hin as [[k2 v2] [Hk Hin]]. simpl in Hk. subst k2.
  apply filter_In in Hin as [Hin _]. now apply (in_map fst) in Hin.
Qed.

(** The e-mail [register] hands to [createUser] is the validated e-mail. *)
Lemma created_email (validated : obj value) hashed :
  NoDupKeys validated ->
  prop (assign [("email", prop validated "email"); ("password", VStr hashed)]
               (remove "password" validated)) "email"
  = prop validated "email".
Proof.
  intros Hnd. unfold prop at 1.
  rewrite get_assign by now apply NoDupKeys_remove.
  rewrite get_remove_ne by discriminate.
  unfold prop. now destruct (get validated "email").
Qed.
End InMemory.

(** C4.  When the input passes validation and the lookup of the validated
    e-mail finds a user, [register] answers
    [{success: false, error: "User already exists",
      errors: {email: "This email is already registered"}}] and leaves the
    world as the lookup left it: nothing is hashed, no [createUser] is
    issued, no callback and no token strategy runs (none of them occurs in
    the hypotheses).  With the in-memory adapter, whose lookup only reads,
    the world after [register] is the world before it. *)
Theorem register_duplicate_email `{Externals} :
  (forall W (bc : Bcrypt W) (config : AuthConfig W) data validated existing w w',
      customAccepts config data = true ->
      Zod.parse (AuthEngine.buildRegisterSchema config) data = Return validated ->
      findUserByEmail (adapter config) (prop validated "email") w
      = (Return (Some existing), w') ->
      AuthEngine.register config data w
      = (Return
           {| success := false; user := None; token := None;
              error := Some "User already exists";
              errors := Some [("email", "This email is already registered")] |},
         w'))
  /\ (forall (bc : Bcrypt MemoryAdapter.World) (config : AuthConfig MemoryAdapter.World)
             data validated existing w w',
         adapter config = MemoryAdapter.adapter ->
         customAccepts config data = true ->
         Zod.parse (AuthEngine.buildRegisterSchema config) data = Return validated ->
         MemoryAdapter.findUserByEmail (prop validated "email") w
         = (Return (Some existing), w') ->
         AuthEngine.register config data w
         = (Return
              {| success := false; user := None; token := None;
                 error := Some "User already exists";
                 errors := Some [("email", "This email is already registered")] |},
            w)).
Proof.
  split.
  - intros W bc config data validated existing w w'.
    exact (register_existing config data validated existing w w').
  - intros bc config data validated existing w w' Hadapter Hacc Hparse Hfind.
    pose proof (findUserByEmail_readonly _ _ _ _ Hfind) as ->.
    apply (register_existing config data validated existing w w Hacc Hparse).
    now rewrite Hadapter.
Qed.



(* ===================================================================== *)
(** * jsonwebtoken: what a signed token carries *)
(* ===================================================================== *)

Section JwtFacts.
Context `{Externals}.

Lemma get_app {V} (o1 o2 : obj V) k :
  get (o1 ++ o2)%list k
  = match get o1 k with Some v => Some v | None => get o2 k end.
Proof.
  induction o1 as [|[k1 v1] o1 IH]; simpl; [reflexivity|].
  now destruct (String.eqb k1 k).
Qed.

Lemma get_toJSON_None (p : obj value) k :
  get p k = None -> get (Jsonwebtoken.toJSON p) k = None.
Proof.
  induction p as [|[k1 v1] p IH]; simpl; [reflexivity|].
  destruct (String.eqb_spec k1 k) as [->|Hne]; [discriminate|].
  intros Hp. rewrite get_app, (IH Hp).
  destruct v1; simpl; try reflexivity;
    now destruct (String.eqb_spec k1 k).
Qed.

(** A string or a number claim survives serialization. *)
Lemma get_toJSON_stable (p : obj value) k v :
  NoDupKeys p -> get p k = Some v ->
  (isString v || isNumber v = true) ->
  get (Jsonwebtoken.toJSON p) k = Some v.
Proof.
  intros Hnd Hget Hv.
  induction p as [|[k1 v1] p IH]; simpl in *; [discriminate|].
  unfold NoDupKeys in Hnd. simpl in Hnd. apply NoDup_cons in Hnd as [Hk1 Hnd].
  rewrite get_app.
  destruct (String.eqb_spec k1 k) as [->|Hne].
  - injection Hget as ->.
    destruct v; simpl in *; try discriminate; now rewrite String.eqb_refl.
  - rewrite (IH Hnd Hget).
    destruct v1; simpl; try reflexivity;
      now destruct (String.eqb_spec k1 k).
Qed.

Lemma get_copy (p : obj value) k : NoDupKeys p -> get (assign [] p) k = get p k.
Proof. intros Hnd. rewrite (get_assign _ _ _ Hnd). now destruct (get p k). Qed.

Lemma NoDupKeys_nil {V} : NoDupKeys (@nil (string * V)).
Proof. apply NoDup_nil. exact I. Qed.

Lemma optionToPayload_Return key claim opt p p' :
  Jsonwebtoken.optionToPayload key claim opt p = Return p' ->
  (opt = None /\ p' = p)
  \/ (exists v, opt = Some v /\ p' = set claim (VStr v) p).
Proof.
  unfold Jsonwebtoken.optionToPayload. destruct opt as [v|].
  - destruct (negb (isUndefined (prop p claim))); [discriminate|].
    intros Hr. injection Hr as <-. right. now exists v.
  - intros Hr. injection Hr as <-. now left.
Qed.

(** What [jwt.sign] returns: the payload, stamped with [iat], with [exp]
    when a span was given, with [aud] and [iss] when given, serialized and
    signed under the secret, which is not empty. *)
Lemma symbolic_sign_Return payload secret options now tok :
  NoDupKeys payload ->
  Jsonwebtoken.symbolic_sign payload secret options now = Return tok ->
  exists p,
    tok = Signed (Jsonwebtoken.toJSON p) secret /\ secret <> "" /\ NoDupKeys p
    /\ (forall k, k <> "iat" -> k <> "exp" -> k <> "aud" -> k <> "iss" ->
                  get p k = get payload k)
    /\ (forall v, Jsonwebtoken.expiresIn options = Some v ->
                  exists exp, get p "exp" = Some (VNum exp))
    /\ (forall a, Jsonwebtoken.audience options = Some a ->
                  get p "aud" = Some (VStr a))
    /\ (forall i, Jsonwebtoken.issuer options = Some i ->
                  get p "iss" = Some (VStr i)).
Proof.
  intros Hnd. unfold Jsonwebtoken.symbolic_sign.
  destruct (String.eqb_spec secret "") as [|Hsecret]; [discriminate|].
  destruct (Jsonwebtoken.validatePayload payload); [|discriminate].
  match goal with |- context [if ?b then _ else _] => destruct b; [discriminate|] end.
  destruct (Jsonwebtoken.validateOptions options) eqn:Hopts; [|discriminate].
  set (timestamp := match prop (assign [] payload) "iat" with
                    | VNum n => if (n =? 0)%Z then (now / 1000)%Z else n
                    | _ => (now / 1000)%Z
                    end).
  set (p1 := set "iat" (VNum timestamp) (assign [] payload)).
  assert (Hp1 : NoDupKeys p1)
    by (apply NoDupKeys_set, NoDupKeys_assign, NoDupKeys_nil).
  assert (Hk1 : forall k, k <> "iat" -> get p1 k = get payload k).
  { intros k Hk. unfold p1. rewrite get_set_ne by congruence. now apply get_copy. }
  match goal with
  | |- context [match ?m with Return _ => _ | Throw _ => _ end] =>
      destruct m as [p2|] eqn:Hexp; [|discriminate]
  end.
  assert (Hp2 : NoDupKeys p2
                /\ (forall k, k <> "iat" -> k <> "exp" -> get p2 k = get payload k)
                /\ (forall v, Jsonwebtoken.expiresIn options = Some v ->
                              exists exp, get p2 "exp" = Some (VNum exp))).
  { unfold Jsonwebtoken.validateOptions in Hopts.
    destruct (Jsonwebtoken.expiresIn options) as [time|].
    - destruct time; simpl in Hexp; try discriminate.
      + injection Hexp as <-. repeat split.
        * now apply NoDupKeys_set.
        * intros k Hi He. rewrite get_set_ne by congruence. now apply Hk1.
        * intros v _. eexists. apply get_set_eq.
      + destruct (ms s) as [milliseconds|]; simpl in Hexp; [|discriminate].
        injection Hexp as <-. repeat split.
        * now apply NoDupKeys_set.
        * intros k Hi He. rewrite get_set_ne by congruence. now apply Hk1.
        * intros v _. eexists. apply get_set_eq.
    - injection Hexp as <-. repeat split; auto. intros v Hv. discriminate. }
  destruct Hp2 as (Hnd2 & Hk2 & Hexp2).
  destruct (Jsonwebtoken.optionToPayload "audience" "aud"
              (Jsonwebtoken.audience options) p2) as [p3|] eqn:Haud; [|discriminate].
  destruct (Jsonwebtoken.optionToPayload "issuer" "iss"
              (Jsonwebtoken.issuer options) p3) as [p4|] eqn:Hiss; [|discriminate].
  intros Hr. injection Hr as <-. exists p4.
  apply optionToPayload_Return in Haud, Hiss.
  split; [reflexivity|]. split; [exact Hsecret|].
  destruct Haud as [[Ha ->] | (aud & Ha & ->)];
    destruct Hiss as [[Hi ->] | (iss & Hi & ->)];
    rewrite ?Ha, ?Hi;
    (split; [repeat apply NoDupKeys_set; exact Hnd2|]);
    (split; [intros k Hk1' Hk2' Hk3 Hk4; rewrite ?get_set_ne by congruence;
             now apply Hk2|]);
    (split; [intros v Hv; destruct (Hexp2 v Hv) as [exp Hg]; exists exp;
             rewrite ?get_set_ne by congruence; exact Hg|]);
    split; intros x Hx; try discriminate; injection Hx as <-;
    rewrite ?get_set_eq; try reflexivity;
    rewrite get_set_ne by congruence; apply get_set_eq.
Qed.
End JwtFacts.

(* ===================================================================== *)
(** * The JWT strategy *)
(* ===================================================================== *)

Section JwtStrategyFacts.
Context `{Externals}.

Lemma rest_get_None (u : User) keys : forall acc k,
  ~ In k keys -> get acc k = None ->
  get (fold_left (fun acc key => set key (prop u key) (assign [] acc)) keys acc) k
  = None.
Proof.
  induction keys as [|key keys IH]; intros acc k Hk Hacc; simpl; [exact Hacc|].
  apply IH; [intros Hin; apply Hk; now right|].
  rewrite get_set_ne by (intros ->; apply Hk; now left).
  now rewrite get_assign_None.
Qed.

Lemma NoDupKeys_payload (u : User) : NoDupKeys (JWTStrategy.payload u).
Proof.
  apply NoDupKeys_assign. unfold NoDupKeys. simpl.
  apply NoDup_cons. split; [|apply NoDup_cons; split; [|apply NoDup_nil; exact I]].
  - intros Hin. apply list_elem_of_In in Hin. destruct Hin as [Heq|[]]. discriminate.
  - intros Hin. inversion Hin.
Qed.

(** The user's [id] is never copied into the claims under its own name. *)
Lemma payload_no_id (u : User) : get (JWTStrategy.payload u) "id" = None.
Proof.
  unfold JWTStrategy.payload. rewrite get_assign_None; [reflexivity|].
  apply rest_get_None; [|reflexivity].
  intros Hin. apply filter_In in Hin as [_ Hex]. discriminate.
Qed.

(** Without an attribute [sub], the subject is the user's [id]. *)
Lemma payload_sub (u : User) :
  get u "sub" = None -> get (JWTStrategy.payload u) "sub" = Some (prop u "id").
Proof.
  intros Hu. unfold JWTStrategy.payload. rewrite get_assign_None; [reflexivity|].
  apply rest_get_None; [|reflexivity].
  intros Hin. apply filter_In in Hin as [Hin _].
  apply In_ownKeys in Hin. now apply get_None_notin in Hu.
Qed.

Existing Instance Jsonwebtoken.symbolic.

(** C3, as amended.  For a user whose [id] is a non-empty string and who
    has no attribute named [sub]: a token [generateToken] returned for the
    user, verified by the same strategy (same secret, issuer and audience)
    before its expiration -- and not before its [nbf], should an attribute
    of the user have put one in the token -- is accepted, and the user
    [verify] yields has the [id] of the user. *)
Theorem jwt_round_trip (cfg : JWTStrategy.JWTStrategyConfig) (u : User)
    (i : string) (now now' : Z) (tok : Token) :
  get u "id" = Some (VStr i) -> i <> "" ->
  get u "sub" = None ->
  JWTStrategy.generateToken (JWTStrategy.new cfg) u now = Return tok ->
  activeAt tok now' = true ->
  expirationElapsed tok now' = false ->
  exists verified,
    JWTStrategy.verify (JWTStrategy.new cfg) tok now'
    = {| success := true; user := Some verified; token := None;
         error := None; errors := None |}
    /\ get verified "id" = Some (VStr i).
Proof.
  intros Hid Hne Hsub Hgen Hactive Hexp.
  unfold JWTStrategy.generateToken in Hgen. simpl in Hgen.
  apply symbolic_sign_Return in Hgen; [|apply NoDupKeys_payload].
  destruct Hgen as (p & -> & Hsecret & Hnd & Hsame & Hexpires & Haud & Hiss).
  assert (Hpnbf :
    match prop (Jsonwebtoken.toJSON p) "nbf" with
    | VUndefined => None
    | VNum nbf =>
        if (now' / 1000 <? nbf)%Z
        then Some (Err NotBeforeError "jwt not active") else None
    | _ => Some (Jsonwebtoken.jwtError "invalid nbf value")
    end = None).
  { unfold activeAt in Hactive.
    destruct (prop (Jsonwebtoken.toJSON p) "nbf") as [| | | nbf | |];
      try discriminate; [reflexivity|].
    apply Z.leb_le in Hactive.
    now destruct (Z.ltb_spec (now' / 1000) nbf); [lia|]. }
  assert (Hpsub : get (Jsonwebtoken.toJSON p) "sub" = Some (VStr i)).
  { apply get_toJSON_stable; [exact Hnd | | reflexivity].
    rewrite Hsame by discriminate. rewrite (payload_sub _ Hsub).
    unfold prop. now rewrite Hid. }
  assert (Hpid : get (Jsonwebtoken.toJSON p) "id" = None).
  { apply get_toJSON_None. rewrite Hsame by discriminate. apply payload_no_id. }
  destruct (Hexpires _ eq_refl) as [exp Hpexp].
  assert (Hjexp : get (Jsonwebtoken.toJSON p) "exp" = Some (VNum exp))
    by (apply get_toJSON_stable; auto).
  unfold expirationElapsed, expiresAt, prop in Hexp. rewrite Hjexp in Hexp.
  exists (assign [("id", prop (Jsonwebtoken.toJSON p) "sub");
                  ("email", prop (Jsonwebtoken.toJSON p) "email")]
                 (Jsonwebtoken.toJSON p)).
  split.
  - unfold JWTStrategy.verify. simpl.
    destruct (String.eqb_spec (JWTStrategy.secret cfg) ""); [contradiction|].
    rewrite String.eqb_refl. simpl.
    rewrite Hpnbf.
    unfold prop at 1. rewrite Hjexp, Hexp.
    assert (Hau :
      match JWTStrategy.audience cfg with
      | Some aud =>
          if negb (String.eqb aud "")
             && negb (bool_decide (prop (Jsonwebtoken.toJSON p) "aud" = VStr aud))
          then Some (Jsonwebtoken.jwtError ("jwt audience invalid. expected: " ++ aud))
          else None
      | None => None
      end = None).
    { destruct (JWTStrategy.audience cfg) as [aud|] eqn:Ea; [|reflexivity].
      destruct (String.eqb_spec aud "") as [|Hane]; [reflexivity|].
      assert (Hga : get (Jsonwebtoken.toJSON p) "aud" = Some (VStr aud)).
      { apply get_toJSON_stable; [exact Hnd | | reflexivity].
        apply Haud. simpl. rewrite Ea.
        now destruct (String.eqb_spec aud ""). }
      unfold prop. rewrite Hga. now rewrite bool_decide_eq_true_2. }
    rewrite Hau.
    assert (His :
      match JWTStrategy.issuer cfg with
      | Some iss =>
          if negb (String.eqb iss "")
             && negb (bool_decide (prop (Jsonwebtoken.toJSON p) "iss" = VStr iss))
          then Some (Jsonwebtoken.jwtError ("jwt issuer invalid. expected: " ++ iss))
          else None
      | None => None
      end = None).
    { destruct (JWTStrategy.issuer cfg) as [iss|] eqn:Ei; [|reflexivity].
      destruct (String.eqb_spec iss "") as [|Hine]; [reflexivity|].
      assert (Hgi : get (Jsonwebtoken.toJSON p) "iss" = Some (VStr iss)).
      { apply get_toJSON_stable; [exact Hnd | | reflexivity].
        apply Hiss. simpl. rewrite Ei.
        now destruct (String.eqb_spec iss ""). }
      unfold prop. rewrite Hgi. now rewrite bool_decide_eq_true_2. }
    rewrite His.
    unfold prop at 1. rewrite Hpsub. simpl.
    destruct (String.eqb_spec i ""); [contradiction | reflexivity].
  - rewrite get_assign_None by exact Hpid. simpl.
    unfold prop. now rewrite Hpsub.
Qed.
End JwtStrategyFacts.

(** The library threw at this point: the goal follows from what it threw. *)
Ltac thrown :=
  let Hv := fresh "Hv" in intros Hv; injection Hv as <-; reflexivity.

(** The audience and the issuer remain to be checked: either check throws,
    or the library returns. *)
Ltac claims_checked options :=
  destruct (Jsonwebtoken.v_audience options) as [?aud|];
    [destruct (negb (String.eqb _ "") && _); [thrown|]|];
    (destruct (Jsonwebtoken.v_issuer options) as [?iss|];
     [destruct (negb (String.eqb _ "") && _); [thrown|]|]);
    discriminate.

Section JwtVerify.
Context `{Externals}.

Lemma verify_Throw {jwt : Jsonwebtoken.Lib} this tok now e :
  Jsonwebtoken.verify tok (JWTStrategy.secret (JWTStrategy.config this))
    (JWTStrategy.verifyOptions this) now = Throw e ->
  JWTStrategy.verify this tok now
  = failure (if instanceofTokenExpiredError e then "Token expired"
             else if instanceofJsonWebTokenError e then "Invalid token"
             else "Token verification failed").
Proof.
  unfold JWTStrategy.verify. intros ->.
  destruct (instanceofTokenExpiredError e); [reflexivity|].
  now destruct (instanceofJsonWebTokenError e).
Qed.

(** The symbolic library raises nothing but [JsonWebTokenError]s. *)
Lemma symbolic_verify_Throw tok secret options now e :
  Jsonwebtoken.symbolic_verify tok secret options now = Throw e ->
  instanceofJsonWebTokenError e = true.
Proof.
  unfold Jsonwebtoken.symbolic_verify, Jsonwebtoken.jwtError.
  intros Hv.
  repeat match type of Hv with
         | context [match ?x with _ => _ end] =>
             lazymatch x with
             | context [match _ with _ => _ end] => fail
             | _ => destruct x; simpl in Hv
             end
         end;
    try discriminate; injection Hv as <-; reflexivity.
Qed.

(** The library raises [TokenExpiredError] exactly on a token with a valid
    signature that is active and whose expiration has elapsed. *)
Lemma symbolic_expired_iff tok secret options now e :
  Jsonwebtoken.symbolic_verify tok secret options now = Throw e ->
  (if instanceofTokenExpiredError e then "Token expired" else "Invalid token")
  = (if negb (signatureOrStructureInvalid tok secret)
        && activeAt tok now && expirationElapsed tok now
     then "Token expired" else "Invalid token").
Proof.
  unfold Jsonwebtoken.symbolic_verify, Jsonwebtoken.jwtError,
    signatureOrStructureInvalid, activeAt, expirationElapsed, expiresAt.
  destruct tok as [raw|payload key].
  - destruct (String.eqb raw ""); thrown.
  - destruct (String.eqb secret ""); [thrown|].
    destruct (String.eqb key secret); simpl; [|thrown].
    destruct (prop payload "nbf") as [| | | nbf | |]; try thrown.
    + destruct (prop payload "exp") as [| | | exp | |]; try thrown.
      * claims_checked options.
      * destruct (exp <=? now / 1000)%Z; [thrown | claims_checked options].
    + destruct (Z.ltb_spec (now / 1000) nbf) as [Hlt|Hge].
      * destruct (Z.leb_spec nbf (now / 1000)); [lia | thrown].
      * destruct (Z.leb_spec nbf (now / 1000)) as [_|]; [|lia]. simpl.
        destruct (prop payload "exp") as [| | | exp | |]; try thrown.
        -- claims_checked options.
        -- destruct (exp <=? now / 1000)%Z; [thrown | claims_checked options].
Qed.

(** C5, as amended.  [verify] names the failure after the class of the
    exception the library raised: a [TokenExpiredError] is "Token expired",
    any other [JsonWebTokenError] is "Invalid token", an exception of
    another class is "Token verification failed".  With the library as
    modelled: a token of invalid structure or signature is "Invalid token";
    a token with a valid signature that is active and whose expiration has
    elapsed is "Token expired"; and every rejection by the library is a
    [JsonWebTokenError], answered "Token expired" in that one case and
    "Invalid token" in every other -- a token not yet active, an ill-typed
    [nbf] or [exp], an audience or an issuer that does not match. *)
Theorem verify_failure_messages :
  (forall (jwt : Jsonwebtoken.Lib) this tok now e,
      Jsonwebtoken.verify tok (JWTStrategy.secret (JWTStrategy.config this))
        (JWTStrategy.verifyOptions this) now = Throw e ->
      JWTStrategy.verify this tok now
      = failure (if instanceofTokenExpiredError e then "Token expired"
                 else if instanceofJsonWebTokenError e then "Invalid token"
                 else "Token verification failed"))
  /\ (forall this tok now,
         signatureOrStructureInvalid tok (JWTStrategy.secret (JWTStrategy.config this))
         = true ->
         @JWTStrategy.verify Jsonwebtoken.symbolic this tok now
         = failure "Invalid token")
  /\ (forall this payload now,
         let tok := Signed payload (JWTStrategy.secret (JWTStrategy.config this)) in
         JWTStrategy.secret (JWTStrategy.config this) <> "" ->
         activeAt tok now = true ->
         expirationElapsed tok now = true ->
         @JWTStrategy.verify Jsonwebtoken.symbolic this tok now
         = failure "Token expired")
  /\ (forall this tok now e,
         @Jsonwebtoken.verify Jsonwebtoken.symbolic tok
           (JWTStrategy.secret (JWTStrategy.config this))
           (JWTStrategy.verifyOptions this) now
         = Throw e ->
         instanceofJsonWebTokenError e = true
         /\ @JWTStrategy.verify Jsonwebtoken.symbolic this tok now
            = failure
                (if negb (signatureOrStructureInvalid tok
                            (JWTStrategy.secret (JWTStrategy.config this)))
                    && activeAt tok now && expirationElapsed tok now
                 then "Token expired" else "Invalid token")).
Proof.
  split; [|split; [|split]].
  - intros jwt this tok now e. apply verify_Throw.
  - intros this tok now Hinv. unfold JWTStrategy.verify. simpl.
    destruct tok as [raw|payload key]; simpl in *.
    + now destruct (String.eqb raw "").
    + destruct (String.eqb (JWTStrategy.secret (JWTStrategy.config this)) "");
        [reflexivity|].
      simpl in Hinv. now rewrite Hinv.
  - intros this payload now tok Hsecret Hactive Hexp.
    unfold JWTStrategy.verify. simpl.
    destruct (String.eqb_spec (JWTStrategy.secret (JWTStrategy.config this)) "");
      [contradiction|].
    rewrite String.eqb_refl. simpl.
    unfold activeAt in Hactive. unfold expirationElapsed, expiresAt in Hexp.
    simpl in Hactive, Hexp.
    destruct (prop payload "nbf") as [| | | nbf | |]; try discriminate.
    + destruct (prop payload "exp"); try discriminate. now rewrite Hexp.
    + apply Z.leb_le in Hactive.
      destruct (Z.ltb_spec (now / 1000) nbf); [lia|].
      destruct (prop payload "exp"); try discriminate. now rewrite Hexp.
  - intros this tok now e Hthrow.
    pose proof (symbolic_verify_Throw _ _ _ _ _ Hthrow) as Hjwt.
    split; [exact Hjwt|].
    rewrite (@verify_Throw Jsonwebtoken.symbolic _ _ _ _ Hthrow), Hjwt.
    f_equal. exact (symbolic_expired_iff _ _ _ _ _ Hthrow).
Qed.

(** C9.  When the library accepts the token (signature, time window and
    the configured issuer and audience all check out) and the decoded
    payload has no [sub], or a falsy one, [verify] answers
    [{success: false, error: "Invalid token payload"}], which is none of
    the three messages for a rejected token.  With the library as
    modelled and no issuer or audience configured, this is the answer for
    every token signed under the secret, active and unexpired, whose [sub]
    is missing or falsy. *)
Theorem verify_payload_without_subject :
  (forall (jwt : Jsonwebtoken.Lib) this tok now decoded,
      Jsonwebtoken.verify tok (JWTStrategy.secret (JWTStrategy.config this))
        (JWTStrategy.verifyOptions this) now = Return decoded ->
      truthy (prop decoded "sub") = false ->
      JWTStrategy.verify this tok now
      = {| success := false; user := None; token := None;
           error := Some "Invalid token payload"; errors := None |})
  /\ (forall this payload now,
         let tok := Signed payload (JWTStrategy.secret (JWTStrategy.config this)) in
         JWTStrategy.secret (JWTStrategy.config this) <> "" ->
         JWTStrategy.issuer (JWTStrategy.config this) = None ->
         JWTStrategy.audience (JWTStrategy.config this) = None ->
         activeAt tok now = true ->
         unexpiredAt tok now = true ->
         truthy (prop payload "sub") = false ->
         @JWTStrategy.verify Jsonwebtoken.symbolic this tok now
         = {| success := false; user := None; token := None;
              error := Some "Invalid token payload"; errors := None |})
  /\ (forall msg,
         In msg ["Invalid token"; "Token expired"; "Token verification failed"] ->
         failure "Invalid token payload" <> failure msg).
Proof.
  split; [|split].
  - intros jwt this tok now decoded Hv Hsub.
    unfold JWTStrategy.verify. now rewrite Hv, Hsub.
  - intros this payload now tok Hsecret Hiss Haud Hactive Hunexp Hsub.
    unfold JWTStrategy.verify. simpl.
    destruct (String.eqb_spec (JWTStrategy.secret (JWTStrategy.config this)) "");
      [contradiction|].
    rewrite String.eqb_refl, Hiss, Haud. simpl.
    unfold activeAt in Hactive. unfold unexpiredAt in Hunexp.
    simpl in Hactive, Hunexp.
    assert (Hnbf :
      match prop payload "nbf" with
      | VUndefined => None
      | VNum nbf =>
          if (now / 1000 <? nbf)%Z
          then Some (Err NotBeforeError "jwt not active") else None
      | _ => Some (Jsonwebtoken.jwtError "invalid nbf value")
      end = None).
    { destruct (prop payload "nbf") as [| | | nbf | |];
        try discriminate; [reflexivity|].
      apply Z.leb_le in Hactive.
      now destruct (Z.ltb_spec (now / 1000) nbf); [lia|]. }
    rewrite Hnbf.
    assert (Hexp :
      match prop payload "exp" with
      | VUndefined => None
      | VNum exp =>
          if (exp <=? now / 1000)%Z
          then Some (Err TokenExpiredError "jwt expired") else None
      | _ => Some (Jsonwebtoken.jwtError "invalid exp value")
      end = None).
    { destruct (prop payload "exp") as [| | | exp | |];
        try discriminate; [reflexivity|].
      apply Z.ltb_lt in Hunexp.
      now destruct (Z.leb_spec exp (now / 1000)); [lia|]. }
    rewrite Hexp. now rewrite Hsub.
  - intros msg Hin Heq. injection Heq as Heq.
    simpl in Hin. destruct Hin as [<-|[<-|[<-|[]]]]; discriminate.
Qed.
End JwtVerify.

(* ===================================================================== *)
(** * The engine: every returned user is sanitized *)
(* ===================================================================== *)

Section Outward.
Context {W : Type} `{Externals} `{Bcrypt W}.

(** C2.  Whatever the configuration and the input, a user returned by
    [register], [login], [getUser] or [updateUser] has no [password]
    attribute; and [register] and [login] return a result unless their
    catch block fails to read the [message] of a thrown [null] or
    [undefined]: they throw nothing but that TypeError. *)
Theorem returned_users_carry_no_password (config : AuthConfig W) (w : W) :
  (forall data res w',
      AuthEngine.register config data w = (Return res, w') ->
      forall u, user res = Some u -> get u "password" = None)
  /\ (forall credentials res w',
         AuthEngine.login config credentials w = (Return res, w') ->
         forall u, user res = Some u -> get u "password" = None)
  /\ (forall id u w',
         AuthEngine.getUser config id w = (Return (Some u), w') ->
         get u "password" = None)
  /\ (forall id data u w',
         AuthEngine.updateUser config id data w = (Return u, w') ->
         get u "password" = None)
  /\ (forall data e w',
         AuthEngine.register config data w = (Throw e, w') ->
         e = Err Error "Cannot read properties of undefined (reading 'message')"
         \/ e = Err Error "Cannot read properties of null (reading 'message')")
  /\ (forall credentials e w',
         AuthEngine.login config credentials w = (Throw e, w') ->
         e = Err Error "Cannot read properties of undefined (reading 'message')"
         \/ e = Err Error "Cannot read properties of null (reading 'message')").
Proof.
  repeat split.
  - intros data res w' Hr. exact (register_sanitized config data w res w' Hr).
  - intros credentials res w' Hr. exact (login_sanitized config credentials w res w' Hr).
  - intros id u w' Hr. exact (getUser_sanitized config id w _ w' Hr u eq_refl).
  - intros id data u w' Hr. exact (updateUser_sanitized config id data w u w' Hr).
  - intros data e w' Hr. exact (register_Throw config data w e w' Hr).
  - intros credentials e w' Hr. exact (login_Throw config credentials w e w' Hr).
Qed.
End Outward.

(* ===================================================================== *)
(** * The theorems at work on the concrete installation *)
(* ===================================================================== *)

Section Exercised.
Import Scenario.
#[local] Existing Instance Reference.externals.
#[local] Existing Instance Reference.bcrypt.
#[local] Existing Instance Jsonwebtoken.symbolic.

(** An unknown e-mail, a user without a password and a wrong password get
    the same answer. *)
Lemma login_refusals_identical_witness :
  AuthEngine.login engine
    [("email", VStr "nobody@b.com"); ("password", VStr "secret1")] (world store 2)
  = (Return AuthEngine.invalidCredentials, world store 2)
  /\ AuthEngine.login engine
       [("email", VStr "sso@b.com"); ("password", VStr "secret1")] (world store 2)
     = (Return AuthEngine.invalidCredentials, world store 2)
  /\ AuthEngine.login engine
       [("email", VStr "a@b.com"); ("password", VStr "wrong")] (world store 2)
     = (Return AuthEngine.invalidCredentials, world store 2).
Proof.
  split; [|split].
  - apply (login_refusals_identical engine _
             [("email", VStr "nobody@b.com"); ("password", VStr "secret1")] None);
      [reflexivity | vm_compute; reflexivity | left; reflexivity].
  - apply (login_refusals_identical engine _
             [("email", VStr "sso@b.com"); ("password", VStr "secret1")] (Some sso));
      [reflexivity | vm_compute; reflexivity |].
    right. exists sso. split; [reflexivity | left; reflexivity].
  - apply (login_refusals_identical engine _
             [("email", VStr "a@b.com"); ("password", VStr "wrong")] (Some alice));
      [reflexivity | vm_compute; reflexivity |].
    right. exists alice. split; [reflexivity | right; reflexivity].
Defined.

(** The four operations on the installation: each returns a user, none
    with a password. *)
Lemma returned_users_carry_no_password_witness :
  (exists res u,
      fst (AuthEngine.register engine registration (world emptyStore 0)) = Return res
      /\ user res = Some u /\ get u "email" = Some (VStr "a@b.com")
      /\ get u "password" = None)
  /\ (exists res u,
         fst (AuthEngine.login engine registration (world aliceStore 1)) = Return res
         /\ user res = Some u /\ get u "email" = Some (VStr "a@b.com")
         /\ get u "password" = None)
  /\ (exists u,
         fst (AuthEngine.getUser engine id1 (world aliceStore 1)) = Return (Some u)
         /\ get alice "password" = Some (VStr "$2b$12$secret1")
         /\ get u "password" = None)
  /\ (exists u,
         fst (AuthEngine.updateUser engine id1 [("name", VStr "Alice")]
                (world aliceStore 1)) = Return u
         /\ get u "name" = Some (VStr "Alice")
         /\ get u "password" = None).
Proof.
  pose proof (returned_users_carry_no_password engine (world emptyStore 0))
    as (Hregister & _).
  pose proof (returned_users_carry_no_password engine (world aliceStore 1))
    as (_ & Hlogin & HgetUser & HupdateUser & _).
  split; [|split; [|split]].
  - destruct (AuthEngine.register engine registration (world emptyStore 0))
      as [[res|e] w'] eqn:Hrun; [|vm_compute in Hrun; discriminate].
    destruct (user res) as [u|] eqn:Hu;
      [|vm_compute in Hrun; injection Hrun as <- _; discriminate].
    exists res, u. split; [reflexivity|]. split; [exact Hu|].
    split; [|exact (Hregister _ _ _ Hrun u Hu)].
    vm_compute in Hrun. injection Hrun as <- _. injection Hu as <-. reflexivity.
  - destruct (AuthEngine.login engine registration (world aliceStore 1))
      as [[res|e] w'] eqn:Hrun; [|vm_compute in Hrun; discriminate].
    destruct (user res) as [u|] eqn:Hu;
      [|vm_compute in Hrun; injection Hrun as <- _; discriminate].
    exists res, u. split; [reflexivity|]. split; [exact Hu|].
    split; [|exact (Hlogin _ _ _ Hrun u Hu)].
    vm_compute in Hrun. injection Hrun as <- _. injection Hu as <-. reflexivity.
  - destruct (AuthEngine.getUser engine id1 (world aliceStore 1))
      as [[[u|]|e] w'] eqn:Hrun; try (vm_compute in Hrun; discriminate).
    exists u. split; [reflexivity|]. split; [reflexivity|].
    exact (HgetUser _ _ _ Hrun).
  - destruct (AuthEngine.updateUser engine id1 [("name", VStr "Alice")]
                (world aliceStore 1))
      as [[u|e] w'] eqn:Hrun; [|vm_compute in Hrun; discriminate].
    exists u. split; [reflexivity|].
    split; [|exact (HupdateUser _ _ _ _ Hrun)].
    vm_compute in Hrun. injection Hrun as <- _. reflexivity.
Defined.

(** The token issued for [alice] is accepted a second later, under her id. *)
Lemma jwt_round_trip_witness :
  JWTStrategy.generateToken (JWTStrategy.new strategyConfig) alice now
  = Return aliceToken
  /\ exists verified,
       JWTStrategy.verify (JWTStrategy.new strategyConfig) aliceToken (now + 1000)
       = {| success := true; user := Some verified; token := None;
            error := None; errors := None |}
       /\ get verified "id" = Some (VStr id1).
Proof.
  split; [vm_compute; reflexivity|].
  apply (jwt_round_trip strategyConfig alice id1 now (now + 1000) aliceToken);
    [reflexivity | discriminate | reflexivity
     | vm_compute; reflexivity | reflexivity | vm_compute; reflexivity].
Defined.

(** C3 as stated fails.  A user with an attribute [sub] gets a token that
    verifies under the value of that attribute, not under the user's id; a
    user with an empty id gets a token that is refused for its payload; a
    user with an attribute [nbf] in the future gets a token that is not
    active yet and is refused as invalid.  All three tokens are verified at
    the instant of issuance, a week before they expire. *)
Lemma jwt_round_trip_counterexample :
  (exists tok verified,
      JWTStrategy.generateToken (JWTStrategy.new strategyConfig) mallory now
      = Return tok
      /\ activeAt tok now = true /\ expirationElapsed tok now = false
      /\ JWTStrategy.verify (JWTStrategy.new strategyConfig) tok now
         = {| success := true; user := Some verified; token := None;
              error := None; errors := None |}
      /\ prop verified "id" = VStr "u-alice"
      /\ prop mallory "id" = VStr "u-mallory")
  /\ (exists tok,
         JWTStrategy.generateToken (JWTStrategy.new strategyConfig) blank now
         = Return tok
         /\ activeAt tok now = true /\ expirationElapsed tok now = false
         /\ JWTStrategy.verify (JWTStrategy.new strategyConfig) tok now
            = failure "Invalid token payload")
  /\ (exists tok,
         JWTStrategy.generateToken (JWTStrategy.new strategyConfig) early now
         = Return tok
         /\ activeAt tok now = false /\ expirationElapsed tok now = false
         /\ JWTStrategy.verify (JWTStrategy.new strategyConfig) tok now
            = failure "Invalid token").
Proof.
  split; [|split].
  - exists (Signed [ ("sub", VStr "u-alice"); ("email", VStr "mallory@b.com");
                     ("iat", VNum 1700000000); ("exp", VNum 1700604800) ] "s3cret").
    eexists. repeat split; vm_compute; reflexivity.
  - exists (Signed [ ("sub", VStr ""); ("email", VStr "blank@b.com");
                     ("iat", VNum 1700000000); ("exp", VNum 1700604800) ] "s3cret").
    repeat split; vm_compute; reflexivity.
  - exists (Signed [ ("sub", VStr "u-early"); ("email", VStr "early@b.com");
                     ("nbf", VNum 4102444800);
                     ("iat", VNum 1700000000); ("exp", VNum 1700604800) ] "s3cret").
    repeat split; vm_compute; reflexivity.
Qed.

(** Registering [alice]'s e-mail again changes nothing. *)
Lemma register_duplicate_email_witness :
  AuthEngine.register engine registration (world store 2)
  = (Return
       {| success := false; user := None; token := None;
          error := Some "User already exists";
          errors := Some [("email", "This email is already registered")] |},
     world store 2).
Proof.
  apply (proj2 register_duplicate_email Reference.bcrypt engine registration
           registration alice (world store 2) (world store 2));
    [reflexivity | reflexivity | vm_compute; reflexivity | vm_compute; reflexivity].
Defined.

(** An input that the schema would reject on two counts is answered by the
    custom validator alone. *)
Lemma register_custom_validator_first_witness :
  Zod.parse (AuthEngine.buildRegisterSchema withTerms) malformed
  = Throw (ZodError
             [ {| path := ["email"]; message := "Invalid email format" |};
               {| path := ["password"];
                  message := "Password must be at least 6 characters" |} ])
  /\ AuthEngine.register withTerms malformed (world emptyStore 0)
     = (Return
          {| success := false; user := None; token := None;
             error := Some "Validation failed";
             errors := Some [("terms", "You must accept the terms")] |},
        world emptyStore 0).
Proof.
  split; [vm_compute; reflexivity|].
  apply (register_custom_validator_first withTerms malformed termsValidator
           {| cv_success := false;
              cv_errors := Some [("terms", "You must accept the terms")] |});
    reflexivity.
Defined.
(** C5 as stated fails.  The token is well formed, signed under the
    secret and a week from its expiration; the strategy insists on an
    issuer the token does not name.  The library raises an exception, which
    is therefore none of the first two causes, and [verify] answers
    "Invalid token", not "Token verification failed". *)
Lemma verify_failure_messages_counterexample :
  signatureOrStructureInvalid aliceToken
    (JWTStrategy.secret (JWTStrategy.config checking)) = false
  /\ expirationElapsed aliceToken now = false
  /\ Jsonwebtoken.verify aliceToken
       (JWTStrategy.secret (JWTStrategy.config checking))
       (JWTStrategy.verifyOptions checking) now
     = Throw (Err JsonWebTokenError
                  "jwt issuer invalid. expected: https://auth.example")
  /\ JWTStrategy.verify checking aliceToken now = failure "Invalid token"
  /\ JWTStrategy.verify checking aliceToken now
     <> failure "Token verification failed".
Proof. repeat split; try (vm_compute; reflexivity). vm_compute. discriminate. Qed.

(** The three messages, each on a token that earns it. *)
Lemma verify_failure_messages_witness :
  @JWTStrategy.verify unavailable (JWTStrategy.new strategyConfig) aliceToken now
  = failure "Token verification failed"
  /\ JWTStrategy.verify (JWTStrategy.new strategyConfig) (Malformed "not.a.jwt") now
     = failure "Invalid token"
  /\ JWTStrategy.verify (JWTStrategy.new strategyConfig) expiredToken now
     = failure "Token expired"
  /\ JWTStrategy.verify checking aliceToken now = failure "Invalid token".
Proof.
  destruct verify_failure_messages as (Hclass & Hinvalid & Hexpired & Hrejected).
  split; [|split; [|split]].
  - exact (Hclass unavailable (JWTStrategy.new strategyConfig) aliceToken now
             (Err Error "crypto unavailable") eq_refl).
  - exact (Hinvalid (JWTStrategy.new strategyConfig) (Malformed "not.a.jwt") now
             eq_refl).
  - apply (Hexpired (JWTStrategy.new strategyConfig)
             [ ("sub", VStr id1); ("email", VStr "a@b.com");
               ("iat", VNum 1699000000); ("exp", VNum 1699604800) ] now);
      [discriminate | reflexivity | vm_compute; reflexivity].
  - exact (proj2 (Hrejected checking aliceToken now
                    (Err JsonWebTokenError
                         "jwt issuer invalid. expected: https://auth.example")
                    eq_refl)).
Defined.

(** Login under a configuration that rewrites every registration rule;
    credentials that fail both requirements; and a password of one
    character, which the rule of registration would refuse and which gets
    as far as the comparison with the hash. *)
Lemma login_schema_fixed_witness :
  AuthEngine.login withTerms registration (world aliceStore 1)
  = AuthEngine.login engine registration (world aliceStore 1)
  /\ AuthEngine.login engine
       [("email", VStr "ab.com"); ("password", VStr "")] (world aliceStore 1)
     = (Return
          {| success := false; user := None; token := None;
             error := Some "Invalid email format";
             errors := Some [ ("email", "Invalid email format");
                              ("password", "Password is required") ] |},
        world aliceStore 1)
  /\ AuthEngine.login engine
       [("email", VStr "a@b.com"); ("password", VStr "x")] (world aliceStore 1)
     = (Return AuthEngine.invalidCredentials, world aliceStore 1).
Proof.
  split; [|split].
  - exact (proj1 (login_schema_fixed engine registration (world aliceStore 1))
             (Some {| email := None; password := None; fields := None;
                      customValidator := Some termsValidator |})).
  - exact (proj2 (proj1 (proj2 (login_schema_fixed engine
                                  [("email", VStr "ab.com"); ("password", VStr "")]
                                  (world aliceStore 1)))
                    eq_refl)).
  - rewrite (proj2 (proj2 (proj2 (login_schema_fixed engine
                                    [("email", VStr "a@b.com"); ("password", VStr "x")]
                                    (world aliceStore 1)))
                      eq_refl)).
    vm_compute. reflexivity.
Defined.

(** C8 as stated fails.  The callback throws what a schema's [parse]
    throws; the user has been persisted; [register] answers with the shape
    of a validation failure, not with "Registration failed: ...". *)
Lemma register_callback_failure_counterexample :
  AuthEngine.register (notifying profileInvalid) registration (world emptyStore 0)
  = (Return
       {| success := false; user := None; token := None;
          error := Some "Required";
          errors := Some [("profile", "Required")] |},
     created)
  /\ MemoryAdapter.users (MemoryAdapter.store created) !! id1 = Some alice
  /\ forall msg,
       fst (AuthEngine.register (notifying profileInvalid) registration
              (world emptyStore 0))
       <> Return (failure ("Registration failed: " ++ msg)).
Proof.
  split; [vm_compute; reflexivity|]. split; [vm_compute; reflexivity|].
  intros msg Heq. vm_compute in Heq. discriminate.
Qed.

(** The callback fails to reach the mail server. *)
Lemma register_callback_failure_witness :
  AuthEngine.register (notifying mailDown) registration (world emptyStore 0)
  = (Return
       {| success := false; user := None; token := None;
          error := Some "Registration failed: SMTP connection refused";
          errors := None |},
     created).
Proof.
  apply (register_callback_failure (notifying mailDown) registration registration
           "$2b$12$secret1" alice
           {| onLogin := None; onRegister := Some (fun _ => throw mailDown);
              onLogout := None |}
           (fun _ => throw mailDown) Error "SMTP connection refused"
           (world emptyStore 0) (world emptyStore 0) (world emptyStore 0)
           created created);
    try reflexivity; vm_compute; reflexivity.
Defined.

(** A token signed under the secret, in its time window, without [sub]. *)
Lemma verify_payload_without_subject_witness :
  JWTStrategy.verify (JWTStrategy.new strategyConfig) tokenWithoutSub now
  = {| success := false; user := None; token := None;
       error := Some "Invalid token payload"; errors := None |}.
Proof.
  destruct verify_payload_without_subject as (Hdecoded & Hsigned & _).
  apply (Hdecoded Jsonwebtoken.symbolic (JWTStrategy.new strategyConfig)
           tokenWithoutSub now
           [ ("email", VStr "a@b.com");
             ("iat", VNum 1700000000); ("exp", VNum 1700604800) ]);
    [vm_compute; reflexivity | reflexivity].
Defined.


End Exercised.

(* ===================================================================== *)
(** * The in-memory adapter on its own *)
(* ===================================================================== *)

Section MemoryFacts.
Implicit Types (w : MemoryAdapter.World) (data : obj value) (u : User).

(** X1.  [createUser] on data with a string e-mail returns a user that
    [findUserById] finds under the identifier drawn.  The user carries both
    timestamps at the clock and every attribute of the data; its [id] is the
    identifier drawn unless the data bring an [id] of their own, which then
    wins in the user while the record stays filed under the identifier
    drawn. *)
Theorem createUser_findUserById data email w :
  prop data "email" = VStr email ->
  exists u w',
    MemoryAdapter.createUser data w = (Return u, w')
    /\ MemoryAdapter.findUserById (MemoryAdapter.uuids w (MemoryAdapter.drawn w)) w'
       = (Return (Some u), w')
    /\ prop u "createdAt" = VDate (MemoryAdapter.clock w)
    /\ prop u "updatedAt" = VDate (MemoryAdapter.clock w)
    /\ (get data "id" = None ->
        prop u "id" = VStr (MemoryAdapter.uuids w (MemoryAdapter.drawn w)))
    /\ (NoDupKeys data ->
        forall k v, k <> "createdAt" -> k <> "updatedAt" ->
                    get data k = Some v -> get u k = Some v).
Proof.
  intros Hemail.
  unfold MemoryAdapter.createUser, MemoryAdapter.findUserById,
    MemoryAdapter.randomUUID, MemoryAdapter.newDate, MemoryAdapter.setStore,
    bind, lift, ret.
  rewrite Hemail. simpl.
  eexists. eexists. split; [reflexivity|]. simpl.
  split; [now rewrite lookup_insert_eq|].
  split; [rewrite prop_set_ne by discriminate; apply prop_set_eq|].
  split; [apply prop_set_eq|].
  split.
  - intros Hid. rewrite !prop_set_ne by discriminate.
    unfold prop. now rewrite get_assign_None.
  - intros Hnd k v Hc Hu Hk.
    rewrite !get_set_ne by congruence.
    now rewrite get_assign, Hk.
Qed.

(** X2.  Lookup by e-mail ignores letter case: two addresses with the same
    lower-case form get the same answer in every world, and a user created
    under one is found under the other. *)
Theorem findUserByEmail_case_insensitive email email' :
  toLowerCase email' = toLowerCase email ->
  (forall w,
      MemoryAdapter.findUserByEmail (VStr email') w
      = MemoryAdapter.findUserByEmail (VStr email) w)
  /\ (forall data u w w',
         prop data "email" = VStr email ->
         MemoryAdapter.uuids w (MemoryAdapter.drawn w) <> "" ->
         MemoryAdapter.createUser data w = (Return u, w') ->
         MemoryAdapter.findUserByEmail (VStr email') w' = (Return (Some u), w')).
Proof.
  intros Hlower.
  assert (Hsame : forall w,
             MemoryAdapter.findUserByEmail (VStr email') w
             = MemoryAdapter.findUserByEmail (VStr email) w).
  { intros w. unfold MemoryAdapter.findUserByEmail, bind, lift. simpl.
    now rewrite Hlower. }
  split; [exact Hsame|].
  intros data u w w' Hemail Hid Hcreate. rewrite Hsame.
  exact (createUser_found data email u w w' Hemail Hid Hcreate).
Qed.

(** X3.  [createUser] on data whose e-mail is not a string throws, after it
    has filed the user under the identifier drawn: the record is in [users]
    and no e-mail leads to it. *)
Theorem createUser_without_email data w :
  isString (prop data "email") = false ->
  exists msg u w',
    MemoryAdapter.createUser data w = (Throw (Err Error msg), w')
    /\ MemoryAdapter.users (MemoryAdapter.store w')
       !! MemoryAdapter.uuids w (MemoryAdapter.drawn w) = Some u
    /\ MemoryAdapter.emailIndex (MemoryAdapter.store w')
       = MemoryAdapter.emailIndex (MemoryAdapter.store w).
Proof.
  intros Hemail.
  unfold MemoryAdapter.createUser, MemoryAdapter.randomUUID,
    MemoryAdapter.newDate, MemoryAdapter.setStore, bind, lift, ret.
  destruct (prop data "email"); try discriminate; simpl;
    eexists; eexists; eexists; (split; [reflexivity|]); simpl;
    (split; [apply lookup_insert_eq | reflexivity]).
Qed.

(** X4.  [createUser] does not look for the e-mail in the index: under an
    e-mail that already leads to a user it returns all the same, the e-mail
    then leads to the new user, and the previous record is still filed
    under its identifier. *)
Theorem createUser_duplicate_email data email previous w :
  prop data "email" = VStr email ->
  MemoryAdapter.emailIndex (MemoryAdapter.store w) !! toLowerCase email
  = Some previous ->
  MemoryAdapter.uuids w (MemoryAdapter.drawn w) <> "" ->
  MemoryAdapter.uuids w (MemoryAdapter.drawn w) <> previous ->
  exists u w',
    MemoryAdapter.createUser data w = (Return u, w')
    /\ MemoryAdapter.findUserByEmail (VStr email) w' = (Return (Some u), w')
    /\ MemoryAdapter.users (MemoryAdapter.store w') !! previous
       = MemoryAdapter.users (MemoryAdapter.store w) !! previous.
Proof.
  intros Hemail Hprev Hid Hfresh.
  destruct (MemoryAdapter.createUser data w) as [[u|e] w'] eqn:Hcreate.
  - exists u, w'. split; [reflexivity|].
    split; [exact (createUser_found data email u w w' Hemail Hid Hcreate)|].
    revert Hcreate.
    unfold MemoryAdapter.createUser, MemoryAdapter.randomUUID,
      MemoryAdapter.newDate, MemoryAdapter.setStore, bind, lift, ret.
    rewrite Hemail. simpl. intros Hr. injection Hr as _ <-. simpl.
    now rewrite lookup_insert_ne.
  - exfalso. revert Hcreate.
    unfold MemoryAdapter.createUser, MemoryAdapter.randomUUID,
      MemoryAdapter.newDate, MemoryAdapter.setStore, bind, lift, ret.
    rewrite Hemail. simpl. discriminate.
Qed.

(** X5.  [deleteUser] on an identifier that is not filed changes nothing.
    On a filed user with a string e-mail it removes the record and the
    entry of that e-mail: neither lookup finds the user afterwards. *)
Theorem deleteUser_effect id w :
  (MemoryAdapter.users (MemoryAdapter.store w) !! id = None ->
   MemoryAdapter.deleteUser id w = (Return tt, w))
  /\ (forall u email,
         MemoryAdapter.users (MemoryAdapter.store w) !! id = Some u ->
         prop u "email" = VStr email ->
         exists w',
           MemoryAdapter.deleteUser id w = (Return tt, w')
           /\ MemoryAdapter.findUserById id w' = (Return None, w')
           /\ MemoryAdapter.findUserByEmail (VStr email) w' = (Return None, w')).
Proof.
  split.
  - intros Hnone. unfold MemoryAdapter.deleteUser, User in *. now rewrite Hnone.
  - intros u email Hsome Hemail.
    unfold MemoryAdapter.deleteUser, MemoryAdapter.findUserById,
      MemoryAdapter.findUserByEmail, MemoryAdapter.setStore, bind, lift,
      User in *.
    rewrite Hsome, Hemail. simpl.
    eexists. split; [reflexivity|]. simpl.
    split; now rewrite lookup_delete_eq.
Qed.
(** What [updateUser] makes of a filed user. *)
Lemma updateUser_Return id data u w :
  MemoryAdapter.users (MemoryAdapter.store w) !! id = Some u ->
  (truthy (prop data "email") = false \/ prop data "email" = prop u "email") ->
  MemoryAdapter.updateUser id data w
  = (Return (set "updatedAt" (VDate (MemoryAdapter.clock w))
                 (assign (assign [] u) data)),
     MemoryAdapter.setStore
       {| MemoryAdapter.users :=
            <[id := set "updatedAt" (VDate (MemoryAdapter.clock w))
                        (assign (assign [] u) data)]>
              (MemoryAdapter.users (MemoryAdapter.store w));
          MemoryAdapter.emailIndex :=
            MemoryAdapter.emailIndex (MemoryAdapter.store w) |} w).
Proof.
  intros Hsome Hsame.
  unfold MemoryAdapter.updateUser, MemoryAdapter.newDate, MemoryAdapter.setStore,
    bind, lift, ret, User in *.
  rewrite Hsome.
  destruct Hsame as [Hfalsy | Heq].
  - now rewrite Hfalsy.
  - rewrite Heq, bool_decide_eq_true_2 by reflexivity.
    now rewrite andb_false_r.
Qed.


End MemoryFacts.

(* ===================================================================== *)
(** * The engine over the in-memory adapter *)
(* ===================================================================== *)

Section EngineInMemory.
Context `{Externals} `{Bcrypt MemoryAdapter.World}.
Implicit Types (config : AuthConfig MemoryAdapter.World) (w : MemoryAdapter.World).

(** X8.  The engine's [updateUser] does not hash: a password among the data
    is filed as it is given, while the user returned has none. *)
Theorem updateUser_files_password_as_given config id data u password w :
  adapter config = MemoryAdapter.adapter ->
  MemoryAdapter.users (MemoryAdapter.store w) !! id = Some u ->
  NoDupKeys data -> NoDupKeys u ->
  get data "password" = Some password ->
  get data "email" = None ->
  exists returned filed w',
    AuthEngine.updateUser config id data w = (Return returned, w')
    /\ get returned "password" = None
    /\ MemoryAdapter.users (MemoryAdapter.store w') !! id = Some filed
    /\ get filed "password" = Some password.
Proof.
  intros Hadapter Hsome Hdata Hu Hpw Hnoemail.
  assert (Hfalsy : truthy (prop data "email") = false)
    by (unfold prop; now rewrite Hnoemail).
  unfold AuthEngine.updateUser, bind, ret. rewrite Hadapter. simpl.
  rewrite (updateUser_Return id data u w Hsome (or_introl Hfalsy)).
  eexists. eexists. eexists. split; [reflexivity|]. simpl.
  split; [apply get_remove_eq|].
  split; [unfold User; now rewrite lookup_insert_eq|].
  rewrite get_set_ne by discriminate. now rewrite get_assign, Hpw.
Qed.

(** X9.  On an identifier that is not filed the engine's [getUser] returns
    nothing, [deleteUser] returns without an effect, and [updateUser]
    throws the adapter's "User not found", which the engine does not
    catch; the world stays as it was in all three. *)
Theorem unknown_id config id data w :
  adapter config = MemoryAdapter.adapter ->
  MemoryAdapter.users (MemoryAdapter.store w) !! id = None ->
  AuthEngine.getUser config id w = (Return None, w)
  /\ AuthEngine.deleteUser config id w = (Return tt, w)
  /\ AuthEngine.updateUser config id data w
     = (Throw (Err Error "User not found"), w).
Proof.
  intros Hadapter Hnone.
  unfold AuthEngine.getUser, AuthEngine.deleteUser, AuthEngine.updateUser,
    bind, ret.
  rewrite Hadapter. simpl.
  unfold MemoryAdapter.findUserById, MemoryAdapter.deleteUser,
    MemoryAdapter.updateUser, User in *.
  now rewrite Hnone.
Qed.
End EngineInMemory.

(* ===================================================================== *)
(** * The engine: what a failed validation reports *)
(* ===================================================================== *)

Section ErrorMaps.
Context {W : Type} `{Externals} `{Bcrypt W}.
Implicit Types (config : AuthConfig W) (w : W).

Lemma get_put_eq {V} (o : obj V) k v :
  k <> "__proto__" -> get (put k v o) k = Some v.
Proof.
  intros Hk. unfold put. destruct (String.eqb_spec k "__proto__"); [contradiction|].
  apply get_set_eq.
Qed.

Lemma get_put_ne {V} (o : obj V) k k' v : k <> k' -> get (put k v o) k' = get o k'.
Proof.
  intros Hk. unfold put. destruct (String.eqb k "__proto__"); [reflexivity|].
  now apply get_set_ne.
Qed.

Lemma In_set {V} (o : obj V) k v x : In x (set k v o) -> In x o \/ x = (k, v).
Proof.
  induction o as [|[k1 v1] o IH]; simpl.
  - intros [<-|[]]. now right.
  - destruct (String.eqb_spec k1 k) as [->|Hne].
    + intros [<-|Hin]; [now right | left; now right].
    + intros [<-|Hin]; [left; now left|].
      destruct (IH Hin) as [Ho|Hx]; [left; now right | now right].
Qed.

Lemma formatZodError_fold issues : forall (errors : obj string) p,
  get (fold_left
         (fun errors err =>
            let path := String.concat "." (path err) in
            if negb (String.eqb path "") then put path (message err) errors
            else errors)
         issues errors) p
  = if String.eqb p "" || String.eqb p "__proto__" then get errors p
    else fold_left
           (fun found i =>
              if String.eqb (joined i) p then Some (message i) else found)
           issues (get errors p).
Proof.
  induction issues as [|i issues IH]; intros errors p; simpl.
  - now destruct (String.eqb p "" || String.eqb p "__proto__").
  - rewrite IH. unfold joined.
    destruct (String.eqb_spec (String.concat "." (path i)) p) as [Heq|Hne].
    + rewrite Heq.
      destruct (String.eqb_spec p "") as [|Hp]; [reflexivity|]. cbn [negb orb].
      destruct (String.eqb_spec p "__proto__") as [->|Hproto]; [reflexivity|].
      now rewrite get_put_eq.
    + destruct (String.eqb (String.concat "." (path i)) ""); cbn [negb];
        [reflexivity|].
      now rewrite get_put_ne.
Qed.

Lemma formatZodError_In issues : forall (errors : obj string) k v,
  In (k, v)
     (fold_left
        (fun errors err =>
           let path := String.concat "." (path err) in
           if negb (String.eqb path "") then put path (message err) errors
           else errors)
        issues errors) ->
  In (k, v) errors
  \/ exists i, In i issues /\ joined i = k /\ k <> "" /\ message i = v.
Proof.
  induction issues as [|i issues IH]; intros errors k v Hin; simpl in *;
    [now left|].
  destruct (IH _ _ _ Hin) as [Herr | (j & Hj & Hrest)];
    [|right; exists j; split; [now right | exact Hrest]].
  destruct (String.eqb_spec (String.concat "." (path i)) "") as [|Hi];
    cbn [negb] in Herr; [now left|].
  unfold put in Herr.
  destruct (String.eqb (String.concat "." (path i)) "__proto__"); [now left|].
  destruct (In_set _ _ _ _ Herr) as [Ho|Hx]; [now left|].
  injection Hx as -> ->. right. exists i. split; [now left|]. now repeat split.
Qed.

(** X10.  The map [formatZodError] builds has no key twice, and one entry
    per path that is neither empty nor "__proto__": the message of the
    last issue raised for the path.  Issues whose path is empty are left
    out of the map; so are those whose path is "__proto__", a key under
    which an assignment makes no property. *)
Theorem formatZodError_last_message issues :
  NoDupKeys (AuthEngine.formatZodError issues)
  /\ get (AuthEngine.formatZodError issues) "" = None
  /\ get (AuthEngine.formatZodError issues) "__proto__" = None
  /\ forall p, p <> "" -> p <> "__proto__" ->
               get (AuthEngine.formatZodError issues) p = lastMessage issues p.
Proof.
  unfold AuthEngine.formatZodError. split; [|split; [|split]].
  - apply NoDupKeys_fold; [|apply NoDupKeys_nil].
    intros o i Ho. destruct (negb _); [|exact Ho].
    unfold put. destruct (String.eqb _ "__proto__");
      [exact Ho | now apply NoDupKeys_set].
  - now rewrite formatZodError_fold.
  - now rewrite formatZodError_fold.
  - intros p Hp Hproto. rewrite formatZodError_fold.
    destruct (String.eqb_spec p ""); [contradiction|].
    now destruct (String.eqb_spec p "__proto__").
Qed.

(** X11.  The [error] of a validation failure is never empty: it is the
    message of an issue that has a path, or, when no such message is first
    in the map or the first one is the empty string, "Validation failed".
    When no issue has a path the map is empty. *)
Theorem validationFailure_error issues :
  (exists msg,
      error (AuthEngine.validationFailure issues) = Some msg
      /\ msg <> ""
      /\ (msg = "Validation failed"
          \/ exists i, In i issues /\ joined i <> "" /\ message i = msg))
  /\ ((forall i, In i issues -> joined i = "") ->
      AuthEngine.validationFailure issues
      = failureWith "Validation failed" (Some [])).
Proof.
  split.
  - unfold AuthEngine.validationFailure, AuthEngine.firstError, ownValues. simpl.
    destruct (ownEntries (AuthEngine.formatZodError issues)) as [|[k v] rest] eqn:He;
      simpl.
    + exists "Validation failed". split; [reflexivity|].
      split; [discriminate | now left].
    + destruct (String.eqb_spec v "") as [->|Hv].
      * exists "Validation failed". split; [reflexivity|].
        split; [discriminate | now left].
      * exists v. split; [reflexivity|]. split; [exact Hv|]. right.
        assert (Hin : In (k, v) (AuthEngine.formatZodError issues))
          by (apply In_ownEntries; rewrite He; now left).
        apply formatZodError_In in Hin as [[] | (i & Hi & Hj & Hk & Hm)].
        exists i. split; [exact Hi|]. split; [congruence | exact Hm].
  - intros Hall.
    assert (Hnil : AuthEngine.formatZodError issues = []).
    { destruct (AuthEngine.formatZodError issues) as [|[k v] rest] eqn:He;
        [reflexivity|].
      assert (Hin : In (k, v) (AuthEngine.formatZodError issues))
        by (rewrite He; now left).
      apply formatZodError_In in Hin as [[] | (i & Hi & Hj & Hk & Hm)].
      rewrite (Hall i Hi) in Hj. congruence. }
    unfold AuthEngine.validationFailure. now rewrite Hnil.
Qed.

(** X12.  Under the default rules (no [validation] in the configuration), a
    registration whose e-mail fails the e-mail check or whose password has
    fewer than six characters is answered in the world it came in -- no
    lookup, no hash, no record -- with one message per failing field, the
    e-mail's first, which is also the [error] when the e-mail fails. *)
Theorem register_default_rules config data e p w :
  validation config = None ->
  prop data "email" = VStr e ->
  prop data "password" = VStr p ->
  isEmail e = false \/ (String.length p < 6)%nat ->
  AuthEngine.register config data w
  = (Return
       {| success := false; user := None; token := None;
          error :=
            Some (if isEmail e then "Password must be at least 6 characters"
                  else "Invalid email format");
          errors :=
            Some ((if isEmail e then []
                   else [("email", "Invalid email format")])
                  ++ (if (String.length p <? 6)%nat
                      then [("password", "Password must be at least 6 characters")]
                      else []))%list |},
     w).
Proof.
  intros Hv He Hp Hbad.
  unfold AuthEngine.register, AuthEngine.validationConfig, tryCatch. rewrite Hv.
  cbn [customValidator]. unfold bind at 1, lift at 1.
  unfold AuthEngine.buildRegisterSchema, AuthEngine.validationConfig. rewrite Hv.
  cbn [email password fields].
  unfold Zod.parse, Zod.shapePairs. simpl.
  rewrite He, Hp. simpl. unfold Zod.email, Zod.min.
  destruct (isEmail e); destruct (Nat.ltb_spec (String.length p) 6); simpl;
    try reflexivity.
  destruct Hbad as [|Hlt]; [discriminate | lia].
Qed.
End ErrorMaps.

(* ===================================================================== *)
(** * The engine: the answers of login and register *)
(* ===================================================================== *)

Ltac run_step :=
  match goal with
  | |- context [match ?x with _ => _ end] =>
      lazymatch x with
      | context [match _ with _ => _ end] => fail
      | _ => destruct x eqn:?
      end
  end.

Section Outcomes.
Context {W : Type} `{Externals} `{Bcrypt W}.
Implicit Types (config : AuthConfig W) (w : W).

Lemma civil_ret {A} (a : A) : civil (ret (W:=W) a).
Proof. intros w e w' Hr. discriminate. Qed.

Lemma civil_lift {A} (c : completion A) :
  (forall e, c = Throw e -> nullish e = false) -> civil (lift (W:=W) c).
Proof. intros Hc w e w' Hr. injection Hr as Hr _. exact (Hc e Hr). Qed.

Lemma civil_bind {A B} (m : M W A) (k : A -> M W B) :
  civil m -> (forall a, civil (k a)) -> civil (bind m k).
Proof.
  intros Hm Hk w e w' Hr. unfold bind in Hr.
  destruct (m w) as [[a|e0] w0] eqn:Em.
  - exact (Hk a w0 e w' Hr).
  - injection Hr as <- <-. exact (Hm w e0 w0 Em).
Qed.

(** A schema throws a [ZodError], or an [Error] when it has no issue to
    report. *)
Lemma parse_civil s data e : Zod.parse s data = Throw e -> nullish e = false.
Proof.
  unfold Zod.parse. destruct (existsb _ _); [|discriminate].
  destruct (List.flat_map _ _); intros Hr; injection Hr as <-; reflexivity.
Qed.

(** A [try] statement whose body is civil throws nothing. *)
Lemma tryCatch_civil_total {A} (body : M W A) handler :
  civil body ->
  (forall e, nullish e = false -> total (handler e)) ->
  total (tryCatch body handler).
Proof.
  intros Hb Hh w. unfold tryCatch.
  destruct (body w) as [[a|e] w0] eqn:Eb; [now exists a, w0|].
  exact (Hh e (Hb w e w0 Eb) w0).
Qed.

Lemma catch_total (prefix : string) (e : exn) :
  nullish e = false ->
  total (W:=W)
    match e with
    | ZodError issues => ret (AuthEngine.validationFailure issues)
    | Err _ msg => ret (failure (prefix ++ msg))
    | Thrown v =>
        await msg <- lift (messageOf v);
        ret (failure (prefix ++ msg))
    end.
Proof.
  intros He w. destruct e as [issues|c msg|v]; try (eexists; eexists; reflexivity).
  destruct v; try discriminate; eexists; eexists; reflexivity.
Qed.

Lemma login_returns config credentials :
  civilEngine config -> total (AuthEngine.login config credentials).
Proof.
  intros (Hfind & _ & Htoken & Hlogin & _ & _ & Hcompare & _).
  apply tryCatch_civil_total; [|intros e He; now apply catch_total].
  apply civil_bind; [apply civil_lift, parse_civil|]. intros validated.
  apply civil_bind; [apply Hfind|]. intros [user|]; [|apply civil_ret].
  destruct (negb (truthy (prop user "password"))); [apply civil_ret|].
  apply civil_bind; [apply civil_lift, Hcompare|]. intros isValid.
  destruct (negb isValid); [apply civil_ret|].
  apply civil_bind; [apply Hlogin|]. intros _.
  apply civil_bind; [apply Htoken|]. intros tok. apply civil_ret.
Qed.

Lemma register_returns config data :
  civilEngine config -> total (AuthEngine.register config data).
Proof.
  intros (Hfind & Hcreate & Htoken & _ & Hregister & Hhash & _ & Hvalidator).
  apply tryCatch_civil_total; [|intros e He; now apply catch_total].
  assert (Hrest : civil
    (await validated <-
       lift (Zod.parse (AuthEngine.buildRegisterSchema config) data);
     await existingUser <-
       findUserByEmail (adapter config) (prop validated "email");
     match existingUser with
     | Some _ => ret AuthEngine.userExists
     | None =>
         await hashedPassword <-
           bcrypt_hash (prop validated "password") AuthEngine.SALT_ROUNDS;
         await user <-
           createUser (adapter config)
             (assign [ ("email", prop validated "email");
                       ("password", VStr hashedPassword) ]
                     (remove "password" validated));
         await_ AuthEngine.runCallback onRegister config user;
         await tok <- generateToken (strategy config) user;
         ret (AuthEngine.authenticated user tok)
     end)).
  { apply civil_bind; [apply civil_lift, parse_civil|]. intros validated.
    apply civil_bind; [apply Hfind|]. intros [existing|]; [apply civil_ret|].
    apply civil_bind; [apply Hhash|]. intros hashed.
    apply civil_bind; [apply Hcreate|]. intros user.
    apply civil_bind; [apply Hregister|]. intros _.
    apply civil_bind; [apply Htoken|]. intros tok. apply civil_ret. }
  cbv zeta.
  destruct (customValidator (AuthEngine.validationConfig config))
    as [validator|] eqn:Hcv; [|exact Hrest].
  apply civil_bind; [apply civil_lift; intros e; exact (Hvalidator _ _ e eq_refl)|].
  intros customResult.
  destruct (negb (cv_success customResult)); [apply civil_ret | exact Hrest].
Qed.

Lemma login_shapes config credentials :
  post (fun res =>
          (exists u tok, res = AuthEngine.authenticated u tok)
          \/ res = AuthEngine.invalidCredentials
          \/ (exists issues, res = AuthEngine.validationFailure issues)
          \/ (exists msg, res = failure ("Login failed: " ++ msg)))
       (AuthEngine.login config credentials).
Proof. unfold AuthEngine.login. repeat post_step; eauto 10. Qed.

Lemma register_shapes config data :
  post (fun res =>
          (exists u tok, res = AuthEngine.authenticated u tok)
          \/ (exists errs, res = failureWith "Validation failed" errs)
          \/ res = AuthEngine.userExists
          \/ (exists issues, res = AuthEngine.validationFailure issues)
          \/ (exists msg, res = failure ("Registration failed: " ++ msg)))
       (AuthEngine.register config data).
Proof. unfold AuthEngine.register; cbv zeta. repeat post_step; eauto 10. Qed.

(** X13.  An answer of [login] has one of four shapes: a success carrying
    the sanitized user and a token; the refusal "Invalid credentials"; a
    validation failure; or "Login failed: " followed by the message of
    what interrupted it.  [login] throws nothing but the TypeError its
    catch block raises when it reads the [message] of a thrown [null] or
    [undefined]; and it always answers when none of its collaborators --
    the adapter, bcrypt, the callback, the strategy -- throws [null] or
    [undefined]. *)
Theorem login_outcomes config credentials w :
  (forall res w',
      AuthEngine.login config credentials w = (Return res, w') ->
      (exists u tok, res = AuthEngine.authenticated u tok)
      \/ res = AuthEngine.invalidCredentials
      \/ (exists issues, res = AuthEngine.validationFailure issues)
      \/ (exists msg, res = failure ("Login failed: " ++ msg)))
  /\ (forall e w',
         AuthEngine.login config credentials w = (Throw e, w') ->
         e = messageTypeError VUndefined \/ e = messageTypeError VNull)
  /\ (civilEngine config ->
      exists res w', AuthEngine.login config credentials w = (Return res, w')).
Proof.
  split; [|split].
  - intros res w'. apply login_shapes.
  - intros e w'. apply login_Throw.
  - intros Hcivil. now apply login_returns.
Qed.

(** X14.  An answer of [register] has one of five shapes: a success
    carrying the sanitized user and a token; "Validation failed" with the
    custom validator's map; "User already exists"; a validation failure; or
    "Registration failed: " followed by the message of what interrupted it.
    [register] throws nothing but the TypeError its catch block raises when
    it reads the [message] of a thrown [null] or [undefined]; and it always
    answers when none of its collaborators -- the custom validator, the
    adapter, bcrypt, the callback, the strategy -- throws [null] or
    [undefined]. *)
Theorem register_outcomes config data w :
  (forall res w',
      AuthEngine.register config data w = (Return res, w') ->
      (exists u tok, res = AuthEngine.authenticated u tok)
      \/ (exists errs, res = failureWith "Validation failed" errs)
      \/ res = AuthEngine.userExists
      \/ (exists issues, res = AuthEngine.validationFailure issues)
      \/ (exists msg, res = failure ("Registration failed: " ++ msg)))
  /\ (forall e w',
         AuthEngine.register config data w = (Throw e, w') ->
         e = messageTypeError VUndefined \/ e = messageTypeError VNull)
  /\ (civilEngine config ->
      exists res w', AuthEngine.register config data w = (Return res, w')).
Proof.
  split; [|split].
  - intros res w'. apply register_shapes.
  - intros e w'. apply register_Throw.
  - intros Hcivil. now apply register_returns.
Qed.
End Outcomes.

(* ===================================================================== *)
(** * Registration followed by login, over the in-memory adapter *)
(* ===================================================================== *)

Section RegisterLogin.
Context `{Externals} `{Bcrypt MemoryAdapter.World}.
Implicit Types (config : AuthConfig MemoryAdapter.World) (w : MemoryAdapter.World).

(** Extra keys leave the keys of the shape alone. *)
Lemma mergeExtra_get extras k : forall (final : obj value),
  (forall kv, In kv extras -> fst kv <> k) ->
  get (fold_left Zod.mergeExtra extras final) k = get final k.
Proof.
  induction extras as [|kv extras IH]; intros final Hk; simpl; [reflexivity|].
  rewrite IH by (intros kv' Hin; apply Hk; now right).
  unfold Zod.mergeExtra. destruct (_ && _); [|reflexivity].
  apply get_set_ne. apply Hk. now left.
Qed.

(** What the default rules return on an input they accept. *)
Lemma parse_register_default config data e p :
  validation config = None ->
  prop data "email" = VStr e -> isEmail e = true ->
  prop data "password" = VStr p -> (6 <= String.length p)%nat ->
  exists validated,
    Zod.parse (AuthEngine.buildRegisterSchema config) data = Return validated
    /\ prop validated "email" = VStr e
    /\ prop validated "password" = VStr p.
Proof.
  intros Hv He Hmail Hp Hlen.
  unfold AuthEngine.buildRegisterSchema, AuthEngine.validationConfig. rewrite Hv.
  cbn [email password fields].
  unfold Zod.parse, Zod.shapePairs. simpl.
  rewrite He, Hp. simpl. unfold Zod.email, Zod.min. rewrite Hmail.
  destruct (Nat.ltb_spec (String.length p) 6) as [|_]; [lia|]. simpl.
  eexists. split; [reflexivity|].
  unfold prop.
  rewrite !mergeExtra_get.
  - split; reflexivity.
  - intros kv Hin. unfold Zod.extraPairs in Hin. simpl in Hin.
    apply filter_In in Hin as [_ Hex]. intros Heq. rewrite Heq in Hex.
    discriminate.
  - intros kv Hin. unfold Zod.extraPairs in Hin. simpl in Hin.
    apply filter_In in Hin as [_ Hex]. intros Heq. rewrite Heq in Hex.
    discriminate.
Qed.

(** What [createUser] returns and files on data with a string e-mail. *)
Lemma createUser_Return (data : obj value) e w :
  prop data "email" = VStr e ->
  let id := MemoryAdapter.uuids w (MemoryAdapter.drawn w) in
  let user :=
    set "updatedAt" (VDate (MemoryAdapter.clock w))
      (set "createdAt" (VDate (MemoryAdapter.clock w))
         (assign [("id", VStr id)] data)) in
  MemoryAdapter.createUser data w
  = (Return user,
     {| MemoryAdapter.store :=
          {| MemoryAdapter.users :=
               <[id := user]> (MemoryAdapter.users (MemoryAdapter.store w));
             MemoryAdapter.emailIndex :=
               <[toLowerCase e := id]>
                 (MemoryAdapter.emailIndex (MemoryAdapter.store w)) |};
        MemoryAdapter.clock := MemoryAdapter.clock w;
        MemoryAdapter.uuids := MemoryAdapter.uuids w;
        MemoryAdapter.drawn := S (MemoryAdapter.drawn w) |}).
Proof.
  intros He.
  unfold MemoryAdapter.createUser, MemoryAdapter.randomUUID,
    MemoryAdapter.newDate, MemoryAdapter.setStore, bind, lift, ret.
  now rewrite He.
Qed.

(** X15.  Over the in-memory adapter, under the default rules and without
    callbacks: a registration with a well-formed e-mail that is not
    registered yet and a password of six characters or more files a user
    whose [password] is the hash, not the password, and succeeds as soon as
    the strategy issues a token; and a login that follows with the password
    and the e-mail, in whatever letter case, succeeds with the same user --
    provided the hash is not empty and [bcrypt.compare] matches the
    password against it. *)
Theorem register_then_login
    config data credentials e e' p hashed w w1 :
  adapter config = MemoryAdapter.adapter ->
  callbacks config = None ->
  validation config = None ->
  prop data "email" = VStr e -> isEmail e = true ->
  prop data "password" = VStr p -> (6 <= String.length p)%nat ->
  fst (MemoryAdapter.findUserByEmail (VStr e) w) = Return None ->
  bcrypt_hash (VStr p) AuthEngine.SALT_ROUNDS w = (Return hashed, w1) ->
  MemoryAdapter.uuids w1 (MemoryAdapter.drawn w1) <> "" ->
  hashed <> "" ->
  bcrypt_compare (VStr p) (VStr hashed) = Return true ->
  prop credentials "email" = VStr e' -> isEmail e' = true ->
  toLowerCase e' = toLowerCase e ->
  prop credentials "password" = VStr p ->
  exists created w2,
    MemoryAdapter.findUserById (MemoryAdapter.uuids w1 (MemoryAdapter.drawn w1)) w2
    = (Return (Some created), w2)
    /\ prop created "email" = VStr e
    /\ prop created "password" = VStr hashed
    /\ forall tok w3,
         generateToken (strategy config) created w2 = (Return tok, w3) ->
         AuthEngine.register config data w
         = (Return (AuthEngine.authenticated created tok), w3)
         /\ forall tok' w4,
              MemoryAdapter.store w3 = MemoryAdapter.store w2 ->
              generateToken (strategy config) created w3 = (Return tok', w4) ->
              AuthEngine.login config credentials w3
              = (Return (AuthEngine.authenticated created tok'), w4).
Proof.
  intros Hadapter Hcbs Hv He Hmail Hp Hlen Hfree Hhash Hid Hne Hcmp
         He' Hmail' Hlower Hp'.
  destruct (parse_register_default config data e p Hv He Hmail Hp Hlen)
    as (validated & Hparse & Hve & Hvp).
  pose proof (parse_NoDupKeys _ _ _ Hparse) as Hnd.
  set (given := assign [("email", VStr e); ("password", VStr hashed)]
                       (remove "password" validated)).
  assert (Hgiven : NoDupKeys given).
  { apply NoDupKeys_assign. unfold NoDupKeys. simpl.
    apply NoDup_cons. split; [|apply NoDup_cons; split; [|apply NoDup_nil; exact I]].
    - intros Hin. apply list_elem_of_In in Hin. destruct Hin as [Heq|[]]. discriminate.
    - intros Hin. inversion Hin. }
  assert (Hgmail : prop given "email" = VStr e).
  { unfold given. rewrite <- Hve. rewrite created_email by exact Hnd.
    reflexivity. }
  assert (Hgpw : get given "password" = Some (VStr hashed)).
  { unfold given. rewrite get_assign by now apply NoDupKeys_remove.
    now rewrite get_remove_eq. }
  set (created :=
         set "updatedAt" (VDate (MemoryAdapter.clock w1))
           (set "createdAt" (VDate (MemoryAdapter.clock w1))
              (assign [("id", VStr (MemoryAdapter.uuids w1 (MemoryAdapter.drawn w1)))]
                      given))).
  set (w2 :=
         {| MemoryAdapter.store :=
              {| MemoryAdapter.users :=
                   <[MemoryAdapter.uuids w1 (MemoryAdapter.drawn w1) := created]>
                     (MemoryAdapter.users (MemoryAdapter.store w1));
                 MemoryAdapter.emailIndex :=
                   <[toLowerCase e := MemoryAdapter.uuids w1 (MemoryAdapter.drawn w1)]>
                     (MemoryAdapter.emailIndex (MemoryAdapter.store w1)) |};
            MemoryAdapter.clock := MemoryAdapter.clock w1;
            MemoryAdapter.uuids := MemoryAdapter.uuids w1;
            MemoryAdapter.drawn := S (MemoryAdapter.drawn w1) |}).
  assert (Hcreate : MemoryAdapter.createUser given w1 = (Return created, w2))
    by exact (createUser_Return given e w1 Hgmail).
  assert (Hfound : MemoryAdapter.findUserByEmail (VStr e') w2
                   = (Return (Some created), w2)).
  { unfold MemoryAdapter.findUserByEmail, bind, lift. simpl.
    rewrite Hlower, lookup_insert_eq.
    destruct (String.eqb_spec (MemoryAdapter.uuids w1 (MemoryAdapter.drawn w1)) "");
      [contradiction|].
    now rewrite lookup_insert_eq. }
  assert (Hcpw : prop created "password" = VStr hashed).
  { unfold created. rewrite !prop_set_ne by discriminate.
    unfold prop. now rewrite get_assign, Hgpw. }
  exists created, w2.
  split; [unfold MemoryAdapter.findUserById; simpl; now rewrite lookup_insert_eq|].
  split.
  { unfold created. rewrite !prop_set_ne by discriminate.
    unfold prop in *. rewrite get_assign by exact Hgiven.
    destruct (get given "email"); [exact Hgmail | discriminate]. }
  split; [exact Hcpw|].
  intros tok w3 Htok. split.
  - rewrite register_accepted
      by (unfold customAccepts, AuthEngine.validationConfig; now rewrite Hv).
    unfold tryCatch, bind, lift. rewrite Hparse, Hadapter. simpl.
    rewrite Hve.
    destruct (MemoryAdapter.findUserByEmail (VStr e) w) as [r w0] eqn:Hfind.
    pose proof (findUserByEmail_readonly _ _ _ _ Hfind) as ->.
    simpl in Hfree. subst r.
    rewrite Hvp, Hhash. fold given. rewrite Hcreate.
    unfold AuthEngine.runCallback. rewrite Hcbs. unfold ret at 1.
    now rewrite Htok.
  - intros tok' w4 Hstore Htok'.
    unfold AuthEngine.login, tryCatch, bind, lift.
    rewrite (parse_login_accepts credentials e' p He' Hp' Hmail')
      by (intros ->; simpl in Hlen; lia).
    rewrite Hadapter. simpl.
    change (prop [("email", VStr e'); ("password", VStr p)] "email") with (VStr e').
    change (prop [("email", VStr e'); ("password", VStr p)] "password") with (VStr p).
    destruct (MemoryAdapter.findUserByEmail (VStr e') w3) as [r w0] eqn:Hfind.
    pose proof (findUserByEmail_readonly _ _ _ _ Hfind) as ->.
    pose proof (findUserByEmail_store (VStr e') w3 w2 Hstore) as Hsame.
    rewrite Hfind, Hfound in Hsame. simpl in Hsame. subst r.
    rewrite Hcpw. simpl.
    destruct (String.eqb_spec hashed ""); [contradiction|]. simpl.
    rewrite Hcmp. simpl.
    unfold AuthEngine.runCallback. rewrite Hcbs. unfold ret at 1.
    now rewrite Htok'.
Qed.
End RegisterLogin.

(* ===================================================================== *)
(** * The JWT strategy: what goes into a token and what comes out *)
(* ===================================================================== *)

Section Enumeration.
Context {V : Type}.
Implicit Types (o : obj V) (k : string).

Lemma In_insertIndex_keep n (e : string * V) l x :
  In x l -> In x (insertIndex n e l).
Proof.
  induction l as [|[m e'] l IH]; simpl; [intros []|].
  destruct (n <? m)%N; simpl.
  - intros Hin. now right.
  - intros [<-|Hin]; [now left | right; now apply IH].
Qed.

Lemma In_insertIndex_new n (e : string * V) l : In (n, e) (insertIndex n e l).
Proof.
  induction l as [|[m e'] l IH]; simpl; [now left|].
  destruct (n <? m)%N; simpl; [now left | now right].
Qed.

Lemma indexEntries_complete o e n : forall acc,
  arrayIndex (fst e) = Some n ->
  In e o \/ In (n, e) acc ->
  In (n, e)
     (fold_left
        (fun acc e =>
           match arrayIndex (fst e) with
           | Some n => insertIndex n e acc
           | None => acc
           end) o acc).
Proof.
  intros acc Hn. revert acc.
  induction o as [|e' o IH]; intros acc [Hin|Hacc]; simpl.
  - destruct Hin.
  - exact Hacc.
  - destruct Hin as [->|Hin].
    + apply IH. right. rewrite Hn. apply In_insertIndex_new.
    + apply IH. now left.
  - apply IH. right. destruct (arrayIndex (fst e')); [|exact Hacc].
    now apply In_insertIndex_keep.
Qed.

(** Enumeration lists every own property. *)
Lemma ownEntries_complete o e : In e o -> In e (ownEntries o).
Proof.
  intros Hin. unfold ownEntries, indexEntries. apply in_app_iff.
  destruct (arrayIndex (fst e)) as [n|] eqn:Hn.
  - left. apply in_map_iff. exists (n, e). split; [reflexivity|].
    apply indexEntries_complete; [exact Hn | now left].
  - right. apply filter_In. split; [exact Hin | now rewrite Hn].
Qed.

Lemma get_Some_In o k v : get o k = Some v -> In (k, v) o.
Proof.
  induction o as [|[k1 v1] o IH]; simpl; [discriminate|].
  destruct (String.eqb_spec k1 k) as [->|Hne].
  - intros Hv. injection Hv as ->. now left.
  - intros Hv. right. now apply IH.
Qed.

Lemma ownKeys_complete o k v : get o k = Some v -> In k (ownKeys o).
Proof.
  intros Hget. unfold ownKeys. apply in_map_iff. exists (k, v).
  split; [reflexivity|]. now apply ownEntries_complete, get_Some_In.
Qed.
End Enumeration.

Section JwtPayload.
Context `{Externals}.

Lemma rest_get_Some (u : User) k keys : forall (acc : obj value),
  NoDupKeys acc ->
  In k keys \/ get acc k = Some (prop u k) ->
  get (fold_left (fun acc key => set key (prop u key) (assign [] acc)) keys acc) k
  = Some (prop u k).
Proof.
  induction keys as [|key keys IH]; intros acc Hnd Hk; simpl.
  - destruct Hk as [[]|Hacc]. exact Hacc.
  - apply IH; [apply NoDupKeys_set, NoDupKeys_assign, NoDupKeys_nil|].
    destruct (String.eqb_spec key k) as [->|Hne].
    + right. apply get_set_eq.
    + destruct Hk as [[Heq|Hin]|Hacc]; [contradiction | now left |].
      right. rewrite get_set_ne by exact Hne. now rewrite get_copy.
Qed.

Lemma NoDupKeys_rest (u : User) keys : forall (acc : obj value),
  NoDupKeys acc ->
  NoDupKeys
    (fold_left (fun acc key => set key (prop u key) (assign [] acc)) keys acc).
Proof.
  induction keys as [|key keys IH]; intros acc Hnd; simpl; [exact Hnd|].
  apply IH, NoDupKeys_set, NoDupKeys_assign, NoDupKeys_nil.
Qed.

(** An attribute of the user other than [id] and [password] is a claim. *)
Lemma payload_get (u : User) k v :
  k <> "id" -> k <> "password" -> get u k = Some v ->
  get (JWTStrategy.payload u) k = Some v.
Proof.
  intros Hid Hpw Hget. unfold JWTStrategy.payload.
  rewrite get_assign by (apply NoDupKeys_rest, NoDupKeys_nil).
  rewrite rest_get_Some.
  - unfold prop. now rewrite Hget.
  - apply NoDupKeys_nil.
  - left. apply filter_In. split; [exact (ownKeys_complete _ _ _ Hget)|].
    unfold JWTStrategy.excluded.
    destruct (String.eqb_spec k "id"); [contradiction|].
    now destruct (String.eqb_spec k "password").
Qed.

Lemma payload_no_password (u : User) :
  get (JWTStrategy.payload u) "password" = None.
Proof.
  unfold JWTStrategy.payload. rewrite get_assign_None; [reflexivity|].
  apply rest_get_None; [|reflexivity].
  intros Hin. apply filter_In in Hin as [_ Hex]. discriminate.
Qed.

(** X16.  The claims [generateToken] signs: never a [password], never an
    [id]; every other attribute of the user as it is -- so that an
    attribute [sub] or [email] of the user replaces the claim made from the
    user's [id] or e-mail --; and, for a user without an attribute [sub],
    the subject is the user's [id]. *)
Theorem payload_claims (u : User) :
  get (JWTStrategy.payload u) "password" = None
  /\ get (JWTStrategy.payload u) "id" = None
  /\ (forall k v, k <> "id" -> k <> "password" ->
                  get u k = Some v -> get (JWTStrategy.payload u) k = Some v)
  /\ (get u "sub" = None ->
      get (JWTStrategy.payload u) "sub" = Some (prop u "id")).
Proof.
  split; [apply payload_no_password|]. split; [apply payload_no_id|].
  split; [apply payload_get | apply payload_sub].
Qed.

(** X17.  When the library accepts a token whose [sub] is truthy, [verify]
    succeeds with a user that carries every claim of the token as an
    attribute, [sub], [iat] and [exp] included; the user's [id] is the
    token's [sub], unless the token has a claim [id], which wins. *)
Theorem verify_accepted {jwt : Jsonwebtoken.Lib} this tok now decoded :
  Jsonwebtoken.verify tok (JWTStrategy.secret (JWTStrategy.config this))
    (JWTStrategy.verifyOptions this) now = Return decoded ->
  truthy (prop decoded "sub") = true ->
  NoDupKeys decoded ->
  exists verified,
    JWTStrategy.verify this tok now
    = {| success := true; user := Some verified; token := None;
         error := None; errors := None |}
    /\ (forall k v, get decoded k = Some v -> get verified k = Some v)
    /\ (forall k, k <> "id" -> k <> "email" -> get verified k = get decoded k)
    /\ (get decoded "id" = None -> get verified "id" = Some (prop decoded "sub")).
Proof.
  intros Hv Hsub Hnd.
  exists (assign [("id", prop decoded "sub"); ("email", prop decoded "email")]
                 decoded).
  split; [unfold JWTStrategy.verify; now rewrite Hv, Hsub|].
  split; [|split].
  - intros k v Hget. now rewrite get_assign, Hget.
  - intros k Hid Hemail. rewrite get_assign by exact Hnd.
    destruct (get decoded k); [reflexivity|]. cbn [get].
    destruct (String.eqb_spec "id" k); [congruence|].
    now destruct (String.eqb_spec "email" k); [congruence|].
  - intros Hnone. now rewrite get_assign, Hnone.
Qed.

Existing Instance Jsonwebtoken.symbolic.

Lemma NoDupKeys_toJSON (p : obj value) :
  NoDupKeys p -> NoDupKeys (Jsonwebtoken.toJSON p).
Proof.
  unfold NoDupKeys. induction p as [|[k v] p IH]; simpl; [auto|].
  intros Hnd. apply NoDup_cons in Hnd as [Hk Hnd].
  assert (Hsub : forall k', In k' (List.map fst (Jsonwebtoken.toJSON p)) ->
                            In k' (List.map fst p)).
  { clear. induction p as [|[k1 v1] p IHp]; simpl; [auto|].
    intros k' Hin. rewrite map_app, in_app_iff in Hin.
    destruct Hin as [Hin|Hin]; [|right; now apply IHp].
    destruct v1; simpl in Hin; tauto. }
  assert (Htail : NoDup (k :: List.map fst (Jsonwebtoken.toJSON p))).
  { apply NoDup_cons. split; [|now apply IH].
    intros Hin. apply Hk. apply list_elem_of_In, Hsub.
    now apply list_elem_of_In. }
  rewrite map_app.
  destruct v; simpl; try exact Htail. now apply IH.
Qed.

Lemma symbolic_verify_Return tok secret options now decoded :
  Jsonwebtoken.symbolic_verify tok secret options now = Return decoded ->
  exists key, tok = Signed decoded key.
Proof.
  unfold Jsonwebtoken.symbolic_verify. intros Hv.
  destruct tok as [raw|payload key]; [destruct (String.eqb raw ""); discriminate|].
  exists key.
  repeat match type of Hv with
         | context [match ?x with _ => _ end] =>
             lazymatch x with
             | context [match _ with _ => _ end] => fail
             | _ => destruct x; simpl in Hv
             end
         end;
    try discriminate; now injection Hv as <-.
Qed.

(** X18.  A user that [verify] yields for a token of [generateToken] cannot
    be handed back to [generateToken]: the user carries the token's [exp]
    as an attribute, the attribute becomes a claim, and the library refuses
    to sign claims that have an [exp] when it is asked to set one. *)
Theorem verified_user_not_signable
    (cfg : JWTStrategy.JWTStrategyConfig) (u verified : User)
    (now now' now'' : Z) (tok : Token) :
  JWTStrategy.generateToken (JWTStrategy.new cfg) u now = Return tok ->
  JWTStrategy.verify (JWTStrategy.new cfg) tok now'
  = {| success := true; user := Some verified; token := None;
       error := None; errors := None |} ->
  (exists exp, get verified "exp" = Some (VNum exp))
  /\ exists msg,
       JWTStrategy.generateToken (JWTStrategy.new cfg) verified now''
       = Throw (Err Error msg).
Proof.
  intros Hgen Hver.
  unfold JWTStrategy.generateToken in Hgen. simpl in Hgen.
  assert (Hopts :
    Jsonwebtoken.validateOptions (JWTStrategy.options (JWTStrategy.new cfg))
    = Return tt).
  { revert Hgen. unfold Jsonwebtoken.symbolic_sign.
    destruct (String.eqb _ ""); [discriminate|].
    destruct (Jsonwebtoken.validatePayload _); [|discriminate].
    match goal with |- context [if ?b then _ else _] => destruct b; [discriminate|] end.
    destruct (Jsonwebtoken.validateOptions _) as [[]|]; [reflexivity | discriminate]. }
  apply symbolic_sign_Return in Hgen; [|apply NoDupKeys_payload].
  destruct Hgen as (p & -> & Hsecret & Hnd & _ & Hexpires & _).
  destruct (Hexpires _ eq_refl) as [exp Hpexp].
  assert (Hjexp : get (Jsonwebtoken.toJSON p) "exp" = Some (VNum exp))
    by (apply get_toJSON_stable; auto).
  assert (Hvexp : get verified "exp" = Some (VNum exp)).
  { revert Hver. unfold JWTStrategy.verify.
    destruct (Jsonwebtoken.verify _ _ _ _) as [decoded|e] eqn:Hv.
    - destruct (symbolic_verify_Return _ _ _ _ _ Hv) as [key Hkey].
      injection Hkey as <- _.
      destruct (negb _); [discriminate|].
      intros Hr. injection Hr as <-.
      rewrite get_assign by now apply NoDupKeys_toJSON.
      now rewrite Hjexp.
    - destruct (instanceofTokenExpiredError e); [discriminate|].
      destruct (instanceofJsonWebTokenError e); discriminate. }
  split; [now exists exp|].
  unfold JWTStrategy.generateToken. simpl.
  unfold Jsonwebtoken.symbolic_sign, Jsonwebtoken.error.
  destruct (String.eqb _ ""); [eexists; reflexivity|].
  destruct (Jsonwebtoken.validatePayload _) as [[]|[issues|c msg|thrown]] eqn:Hvp.
  - assert (Hexp : prop (assign [] (JWTStrategy.payload verified)) "exp" = VNum exp).
    { unfold prop. rewrite get_copy by apply NoDupKeys_payload.
      now rewrite (payload_get verified "exp" (VNum exp)). }
    rewrite Hexp. simpl.
    unfold Jsonwebtoken.validateOptions in Hopts. simpl in Hopts.
    destruct (match JWTStrategy.expiresIn cfg with
              | Some v => v
              | None => VStr "7d"
              end); try discriminate; simpl; eexists; reflexivity.
  - exfalso. revert Hvp. unfold Jsonwebtoken.validatePayload, Jsonwebtoken.error.
    destruct (List.filter _ _) as [|[k v] rest]; discriminate.
  - revert Hvp. unfold Jsonwebtoken.validatePayload, Jsonwebtoken.error.
    destruct (List.filter _ _) as [|[k v] rest]; [discriminate|].
    intros Hr. injection Hr as <- <-. eexists. reflexivity.
  - exfalso. revert Hvp. unfold Jsonwebtoken.validatePayload, Jsonwebtoken.error.
    destruct (List.filter _ _) as [|[k v] rest]; discriminate.
Qed.
End JwtPayload.

(* ===================================================================== *)
(** * The Express middleware and the route handlers *)
(* ===================================================================== *)

Section Headers.

Lemma substring_all s : String.substring 0 (String.length s) s = s.
Proof. induction s as [|a s IH]; simpl; [reflexivity | now rewrite IH]. Qed.

(** A string that starts with a prefix is the prefix followed by the
    substring from the length of the prefix. *)
Lemma startsWith_split prefix : forall s,
  Express.startsWith s prefix = true ->
  s = prefix ++ Express.substringFrom (String.length prefix) s.
Proof.
  unfold Express.startsWith, Express.substringFrom.
  induction prefix as [|a prefix IH]; intros s Hs; simpl.
  - now rewrite Nat.sub_0_r, substring_all.
  - destruct s as [|b s]; simpl in Hs; [discriminate|].
    destruct (ascii_dec a b) as [->|]; [|discriminate].
    change (String b s
            = String b (prefix ++ String.substring (String.length prefix)
                                    (String.length s - String.length prefix) s)).
    f_equal. now apply IH.
Qed.

(** A header made of "Bearer " and a token is truthy, starts with
    "Bearer ", and its substring from 7 is the token. *)
Lemma bearer_header tok :
  truthy (VStr ("Bearer " ++ tok)) = true
  /\ Express.startsWith ("Bearer " ++ tok) "Bearer " = true
  /\ Express.substringFrom 7 ("Bearer " ++ tok) = tok.
Proof.
  change ("Bearer " ++ tok)
    with (String "B" (String "e" (String "a" (String "r" (String "e"
            (String "r" (String " " tok))))))).
  split; [reflexivity|]. split.
  - unfold Express.startsWith. simpl. now destruct tok.
  - unfold Express.substringFrom.
    cbn [String.length Nat.sub String.substring].
    rewrite Nat.sub_0_r. apply substring_all.
Qed.
End Headers.

Section MiddlewareFacts.
Context {W : Type} `{Externals} `{Bcrypt W} `{Express.TokenReader}.
Implicit Types (auth engine : AuthConfig W) (req : Express.Request) (w : W).

Lemma errorOr_not_empty result fallback :
  fallback <> "" -> Express.errorOr result fallback <> "".
Proof.
  intros Hf. unfold Express.errorOr.
  destruct (error result) as [e|]; [|exact Hf].
  now destruct (String.eqb_spec e "").
Qed.

(** X19.  [requireAuth] on a request without an [authorization] header, or
    with one that does not start with "Bearer " -- another scheme, another
    letter case, no space --, answers 401 "Authentication required" and
    leaves the world alone: the strategy is not consulted. *)
Theorem requireAuth_without_bearer auth options req w :
  Express.authorization req = VUndefined
  \/ (exists header,
        Express.authorization req = VStr header
        /\ Express.startsWith header "Bearer " = false) ->
  Express.requireAuth auth options req w
  = (Return
       (Express.Responded
          {| Express.status := 401;
             Express.json := failure "Authentication required" |}),
     w).
Proof.
  intros [Hnone | (header & Hheader & Hprefix)];
    unfold Express.requireAuth, tryCatch; rewrite ?Hnone, ?Hheader.
  - reflexivity.
  - cbn [truthy]. destruct (negb (negb (String.eqb header ""))); [reflexivity|].
    now rewrite Hprefix.
Qed.

(** What [requireAuth] does with a request, case by case. *)
Lemma requireAuth_run auth options req w :
  exists handled w',
    Express.requireAuth auth options req w = (Return handled, w')
    /\ match handled with
       | Express.Next req' =>
           exists tok result u,
             Express.authorization req = VStr ("Bearer " ++ tok)
             /\ AuthEngine.verifyToken auth (Express.readToken tok) w
                = (Return result, w')
             /\ success result = true
             /\ Types.user result = Some u
             /\ req' = Express.setUser u req
       | Express.Responded res =>
           Express.status res = 401%Z
           /\ exists msg,
                Express.json res = failure msg /\ msg <> ""
                /\ (msg = "Authentication required"
                    \/ msg = "Authentication failed"
                    \/ exists tok result,
                         Express.authorization req = VStr ("Bearer " ++ tok)
                         /\ AuthEngine.verifyToken auth (Express.readToken tok) w
                            = (Return result, w')
                         /\ msg = Express.errorOr result "Invalid token")
       end.
Proof.
  unfold Express.requireAuth, tryCatch.
  destruct (Express.authorization req) as [| |b|n|header|t] eqn:Hauth; cbn [truthy negb].
  1-2: eexists; eexists; split; [reflexivity|];
       split; [reflexivity|]; exists "Authentication required";
       split; [reflexivity|]; split; [discriminate | now left].
  1-2,4: try match goal with
             | |- context [if ?c then _ else _] => destruct c
             end;
         eexists; eexists; (split; [reflexivity|]);
         (split; [reflexivity|]); eexists; (split; [reflexivity|]);
         (split; [discriminate | auto]).
  destruct (negb (negb (String.eqb header ""))).
  { eexists; eexists; split; [reflexivity|];
      split; [reflexivity|]; exists "Authentication required";
      split; [reflexivity|]; split; [discriminate | now left]. }
  destruct (Express.startsWith header "Bearer ") eqn:Hprefix; cbn [negb].
  2:{ eexists; eexists; split; [reflexivity|];
      split; [reflexivity|]; exists "Authentication required";
      split; [reflexivity|]; split; [discriminate | now left]. }
  pose proof (startsWith_split "Bearer " header Hprefix) as Hsplit.
  change (String.length "Bearer ") with 7%nat in Hsplit.
  unfold bind.
  destruct (AuthEngine.verifyToken auth
              (Express.readToken (Express.substringFrom 7 header)) w)
    as [[result|e] w'] eqn:Hverify.
  - destruct (success result) eqn:Hsuccess;
      [destruct (Types.user result) as [u|] eqn:Huser|].
    + eexists; eexists; split; [reflexivity|].
      exists (Express.substringFrom 7 header), result, u.
      split; [now rewrite <- Hsplit|]. now repeat split.
    + eexists; eexists; split; [reflexivity|].
      split; [reflexivity|]. eexists. split; [reflexivity|].
      split; [now apply errorOr_not_empty|].
      right. right. exists (Express.substringFrom 7 header), result.
      split; [now rewrite <- Hsplit|]. now split.
    + eexists; eexists; split; [reflexivity|].
      split; [reflexivity|]. eexists. split; [reflexivity|].
      split; [now apply errorOr_not_empty|].
      right. right. exists (Express.substringFrom 7 header), result.
      split; [now rewrite <- Hsplit|]. now split.
  - eexists; eexists; split; [reflexivity|].
    split; [reflexivity|]. exists "Authentication failed".
    split; [reflexivity|]. split; [discriminate | right; now left].
Qed.

(** X20.  [requireAuth] never throws.  It calls [next] only on a header
    "Bearer " followed by a token that [verifyToken] answers with a success
    and a user, and then the request carries that user; every other
    request is answered 401 with a failure whose [error] is not empty:
    "Authentication required", "Authentication failed", or the error of
    the verification ("Invalid token" when it has none).  The [options] --
    [roles] among them -- play no part. *)
Theorem requireAuth_outcomes auth options req w :
  exists handled w',
    Express.requireAuth auth options req w = (Return handled, w')
    /\ (forall options',
           Express.requireAuth auth options' req w = (Return handled, w'))
    /\ match handled with
       | Express.Next req' =>
           exists tok result u,
             Express.authorization req = VStr ("Bearer " ++ tok)
             /\ AuthEngine.verifyToken auth (Express.readToken tok) w
                = (Return result, w')
             /\ success result = true
             /\ Types.user result = Some u
             /\ req' = Express.setUser u req
       | Express.Responded res =>
           Express.status res = 401%Z
           /\ exists msg,
                Express.json res = failure msg /\ msg <> ""
                /\ (msg = "Authentication required"
                    \/ msg = "Authentication failed"
                    \/ exists tok result,
                         Express.authorization req = VStr ("Bearer " ++ tok)
                         /\ AuthEngine.verifyToken auth (Express.readToken tok) w
                            = (Return result, w')
                         /\ msg = Express.errorOr result "Invalid token")
       end.
Proof.
  destruct (requireAuth_run auth options req w) as (handled & w' & Hrun & Hshape).
  exists handled, w'. split; [exact Hrun|]. split; [|exact Hshape].
  intros options'. exact Hrun.
Qed.

(** What [optionalAuth] does with a request, case by case. *)
Lemma optionalAuth_run auth req w :
  exists req' w',
    Express.optionalAuth auth req w = (Return (Express.Next req'), w')
    /\ (req' = req
        \/ exists tok result u,
             Express.authorization req = VStr ("Bearer " ++ tok)
             /\ AuthEngine.verifyToken auth (Express.readToken tok) w
                = (Return result, w')
             /\ success result = true
             /\ Types.user result = Some u
             /\ req' = Express.setUser u req).
Proof.
  unfold Express.optionalAuth, tryCatch.
  destruct (Express.authorization req) as [| |b|n|header|t] eqn:Hauth; cbn [truthy negb].
  1-2: eexists; eexists; split; [reflexivity | now left].
  1-2,4: try match goal with
             | |- context [if ?c then _ else _] => destruct c
             end;
         eexists; eexists; (split; [reflexivity | now left]).
  destruct (negb (negb (String.eqb header "")));
    [eexists; eexists; split; [reflexivity | now left]|].
  destruct (Express.startsWith header "Bearer ") eqn:Hprefix; cbn [negb];
    [|eexists; eexists; split; [reflexivity | now left]].
  pose proof (startsWith_split "Bearer " header Hprefix) as Hsplit.
  change (String.length "Bearer ") with 7%nat in Hsplit.
  unfold bind.
  destruct (AuthEngine.verifyToken auth
              (Express.readToken (Express.substringFrom 7 header)) w)
    as [[result|e] w'] eqn:Hverify;
    [|eexists; eexists; split; [reflexivity | now left]].
  destruct (success result) eqn:Hsuccess;
    [destruct (Types.user result) as [u|] eqn:Huser|];
    try (eexists; eexists; split; [reflexivity | now left]).
  eexists; eexists; split; [reflexivity|]. right.
  exists (Express.substringFrom 7 header), result, u.
  split; [now rewrite <- Hsplit|]. now repeat split.
Qed.

(** X21.  [optionalAuth] never answers and never throws: it always calls
    [next].  Without an [authorization] header, or with one that does not
    start with "Bearer ", it hands the request on as it came and leaves the
    world alone.  On a header "Bearer " followed by a token it asks
    [verifyToken]: when the answer is a success with a user, the request
    goes on with that user attached; when the answer is anything else, or
    the verification throws, the request goes on as it came -- a token
    that is refused is treated like no token. *)
Theorem optionalAuth_outcomes auth req w :
  (exists req' w',
      Express.optionalAuth auth req w = (Return (Express.Next req'), w')
      /\ (req' = req
          \/ exists tok result u,
               Express.authorization req = VStr ("Bearer " ++ tok)
               /\ AuthEngine.verifyToken auth (Express.readToken tok) w
                  = (Return result, w')
               /\ success result = true
               /\ Types.user result = Some u
               /\ req' = Express.setUser u req))
  /\ (Express.authorization req = VUndefined
      \/ (exists header,
            Express.authorization req = VStr header
            /\ Express.startsWith header "Bearer " = false) ->
      Express.optionalAuth auth req w = (Return (Express.Next req), w))
  /\ (forall tok r w',
         Express.authorization req = VStr ("Bearer " ++ tok) ->
         AuthEngine.verifyToken auth (Express.readToken tok) w = (r, w') ->
         Express.optionalAuth auth req w
         = (Return
              (Express.Next
                 match r with
                 | Return result =>
                     match success result, Types.user result with
                     | true, Some u => Express.setUser u req
                     | _, _ => req
                     end
                 | Throw _ => req
                 end),
            w')).
Proof.
  split; [apply optionalAuth_run|]. split.
  - intros [Hnone | (header & Hheader & Hprefix)];
      unfold Express.optionalAuth, tryCatch; rewrite ?Hnone, ?Hheader.
    + reflexivity.
    + cbn [truthy]. destruct (negb (negb (String.eqb header ""))); [reflexivity|].
      now rewrite Hprefix.
  - intros tok r w' Hauth Hverify.
    destruct (bearer_header tok) as (Htruthy & Hprefix & Htok).
    unfold Express.optionalAuth, tryCatch, bind.
    rewrite Hauth. cbv beta iota zeta.
    rewrite Htruthy, Hprefix, Htok. cbn [negb]. rewrite Hverify.
    destruct r as [result|e]; [|reflexivity].
    destruct (success result); [destruct (Types.user result)|]; reflexivity.
Qed.

(** X22.  The [login] and [register] handlers answer whenever the engine
    answers, with the result of the engine as the body: [login] with
    status 200 on a success and 401 on every failure, [register] with 201
    on a success and 400 on every failure -- a validation failure, a
    duplicate e-mail and an interrupted registration alike.  When the
    engine rejects, so does the handler, and no answer is sent.  Both
    handlers always answer when none of the engine's collaborators throws
    [null] or [undefined]. *)
Theorem handlers_status engine req w :
  (forall r w',
      AuthEngine.login engine (Express.body req) w = (r, w') ->
      Routes.login engine req w
      = (match r with
         | Return result =>
             Return {| Express.status := if success result then 200 else 401;
                       Express.json := result |}
         | Throw e => Throw e
         end, w'))
  /\ (forall r w',
         AuthEngine.register engine (Express.body req) w = (r, w') ->
         Routes.register engine req w
         = (match r with
            | Return result =>
                Return {| Express.status := if success result then 201 else 400;
                          Express.json := result |}
            | Throw e => Throw e
            end, w'))
  /\ (civilEngine engine ->
      (exists result w',
          Routes.login engine req w
          = (Return {| Express.status := if success result then 200 else 401;
                       Express.json := result |}, w'))
      /\ (exists result w',
             Routes.register engine req w
             = (Return {| Express.status := if success result then 201 else 400;
                          Express.json := result |}, w'))).
Proof.
  split; [|split].
  - intros r w' Hrun. unfold Routes.login, bind. rewrite Hrun. now destruct r.
  - intros r w' Hrun. unfold Routes.register, bind. rewrite Hrun. now destruct r.
  - intros Hcivil. split.
    + destruct (login_returns engine (Express.body req) Hcivil w)
        as (result & w' & Hrun).
      exists result, w'. unfold Routes.login, bind. now rewrite Hrun.
    + destruct (register_returns engine (Express.body req) Hcivil w)
        as (result & w' & Hrun).
      exists result, w'. unfold Routes.register, bind. now rewrite Hrun.
Qed.

(** X23.  The [logout] handler answers 200 [{success: true}] when the
    request carries no user or the configuration has no [onLogout]
    callback, without touching the world; when the callback throws, the
    handler throws what the callback threw and sends no answer. *)
Theorem logout_handler engine req w :
  (Express.user req = None
   \/ callbacks engine = None
   \/ (exists cbs, callbacks engine = Some cbs /\ onLogout cbs = None) ->
   Routes.logout engine req w
   = (Return (Routes.ok {| success := true; user := None; token := None;
                           error := None; errors := None |}), w))
  /\ (forall u cbs callback e w',
         Express.user req = Some u ->
         callbacks engine = Some cbs ->
         onLogout cbs = Some callback ->
         callback u w = (Throw e, w') ->
         AuthEngine.logout engine u w = (Throw e, w')
         /\ Routes.logout engine req w = (Throw e, w')).
Proof.
  split.
  - intros Hcase.
    unfold Routes.logout, AuthEngine.logout, AuthEngine.runCallback, bind.
    destruct (Express.user req) as [u|]; [|reflexivity].
    destruct Hcase as [Hu | [Hcbs | (cbs & Hcbs & Hon)]]; [discriminate| |].
    + now rewrite Hcbs.
    + now rewrite Hcbs, Hon.
  - intros u cbs callback e w' Hu Hcbs Hon Hthrow.
    unfold Routes.logout, AuthEngine.logout, AuthEngine.runCallback, bind.
    now rewrite Hu, Hcbs, Hon, Hthrow.
Qed.

(** X24.  Behind [requireAuth], [me] never answers 401: a request that
    [requireAuth] hands on carries the verified user, and [me] answers 200
    with that user as it is, without consulting the adapter or the
    strategy. *)
Theorem me_behind_requireAuth engine req req' w w' :
  Routes.requireAuth engine req w = (Return (Express.Next req'), w') ->
  exists tok result u,
    Express.authorization req = VStr ("Bearer " ++ tok)
    /\ AuthEngine.verifyToken engine (Express.readToken tok) w = (Return result, w')
    /\ Types.user result = Some u
    /\ Routes.me engine req' w'
       = (Return (Routes.ok {| success := true; user := Some u; token := None;
                               error := None; errors := None |}), w').
Proof.
  unfold Routes.requireAuth. intros Hrun.
  destruct (requireAuth_run engine
              {| Express.requireAuth_ := None; Express.roles := None |} req w)
    as (handled & w0 & Hrun' & Hshape).
  rewrite Hrun in Hrun'. injection Hrun' as <- <-.
  destruct Hshape as (tok & result & u & Hauth & Hverify & _ & Huser & ->).
  exists tok, result, u. repeat split; auto.
Qed.
End MiddlewareFacts.

(* ===================================================================== *)
(** * Tokens of the JWT strategy: lifetime, and what they do not depend on *)
(* ===================================================================== *)

Section TokenFacts.
Context `{Externals}.
Existing Instance Jsonwebtoken.symbolic.

(** An attribute the user lacks is no claim, [sub] and [email] apart. *)
Lemma payload_get_None (u : User) k :
  k <> "sub" -> k <> "email" -> get u k = None ->
  get (JWTStrategy.payload u) k = None.
Proof.
  intros Hsub Hemail Hu. unfold JWTStrategy.payload.
  rewrite get_assign by (apply NoDupKeys_rest, NoDupKeys_nil).
  rewrite rest_get_None.
  - cbn [get]. destruct (String.eqb_spec "sub" k); [congruence|].
    now destruct (String.eqb_spec "email" k); [congruence|].
  - intros Hin. apply filter_In in Hin as [Hin _].
    apply In_ownKeys in Hin. now apply get_None_notin in Hu.
  - reflexivity.
Qed.

(** X25.  A token [generateToken] returns for a user without an attribute
    [iat] is signed under the secret, is stamped with the second of its
    issuance, and expires after the configured span -- seven days when the
    configuration names none. *)
Theorem token_lifetime (cfg : JWTStrategy.JWTStrategyConfig) (u : User)
    (now : Z) (tok : Token) :
  JWTStrategy.generateToken (JWTStrategy.new cfg) u now = Return tok ->
  get u "iat" = None ->
  exists claims exp,
    tok = Signed claims (JWTStrategy.secret cfg)
    /\ get claims "iat" = Some (VNum (now / 1000))
    /\ Jsonwebtoken.timespan
         (match JWTStrategy.expiresIn cfg with
          | Some span => span
          | None => VStr "7d"
          end) (now / 1000) = Some exp
    /\ get claims "exp" = Some (VNum exp).
Proof.
  intros Hgen Hiat.
  unfold JWTStrategy.generateToken in Hgen. simpl in Hgen.
  unfold Jsonwebtoken.symbolic_sign in Hgen.
  destruct (String.eqb (JWTStrategy.secret cfg) ""); [discriminate|].
  destruct (Jsonwebtoken.validatePayload _); [|discriminate].
  match type of Hgen with
  | context [if ?b then _ else _] => destruct b; [discriminate|]
  end.
  destruct (Jsonwebtoken.validateOptions _) eqn:Hopts; [|discriminate].
  assert (Hstamp : prop (assign [] (JWTStrategy.payload u)) "iat" = VUndefined).
  { unfold prop. rewrite get_copy by apply NoDupKeys_payload.
    now rewrite payload_get_None. }
  rewrite Hstamp in Hgen.
  set (p1 := set "iat" (VNum (now / 1000)) (assign [] (JWTStrategy.payload u))) in *.
  assert (Hp1 : NoDupKeys p1)
    by (apply NoDupKeys_set, NoDupKeys_assign, NoDupKeys_nil).
  assert (Hi1 : get p1 "iat" = Some (VNum (now / 1000))) by apply get_set_eq.
  clearbody p1.
  unfold Jsonwebtoken.validateOptions in Hopts.
  cbn [Jsonwebtoken.expiresIn JWTStrategy.options JWTStrategy.new
       JWTStrategy.config JWTStrategy.expiresIn] in Hgen, Hopts.
  set (span := match JWTStrategy.expiresIn cfg with
               | Some span => span
               | None => VStr "7d"
               end) in *.
  clearbody span.
  destruct (Jsonwebtoken.timespan span (now / 1000)) as [exp|] eqn:Hspan;
    [|destruct span; simpl in Hopts, Hspan, Hgen; discriminate].
  assert (Hdefined : isUndefined span = false)
    by (destruct span; simpl in Hspan; try discriminate; reflexivity).
  rewrite Hdefined in Hgen.
  destruct (Jsonwebtoken.optionToPayload "audience" "aud" _ _) as [p3|] eqn:Haud;
    [|discriminate].
  destruct (Jsonwebtoken.optionToPayload "issuer" "iss" _ _) as [p4|] eqn:Hiss;
    [|discriminate].
  injection Hgen as <-.
  apply optionToPayload_Return in Haud, Hiss.
  exists (Jsonwebtoken.toJSON p4), exp.
  split; [reflexivity|].
  assert (Hp4 : NoDupKeys p4
                /\ get p4 "iat" = Some (VNum (now / 1000))
                /\ get p4 "exp" = Some (VNum exp)).
  { destruct Haud as [[_ ->] | (aud & _ & ->)];
      destruct Hiss as [[_ ->] | (iss & _ & ->)];
      (split; [repeat apply NoDupKeys_set; exact Hp1|]);
      rewrite ?get_set_ne by discriminate;
      now rewrite get_set_eq. }
  destruct Hp4 as (Hnd & Hi & He).
  split; [now apply get_toJSON_stable|].
  split; [reflexivity|].
  now apply get_toJSON_stable.
Qed.

(** X26.  A strategy built with [expiresIn] set to [undefined] -- the key
    is there, so that it replaces the default span of the constructor --
    signs nothing: [generateToken] throws for every user.  [quickAuth]
    does not hand such a key on: with [expiresIn] undefined it builds the
    strategy it builds without one. *)
Theorem explicit_undefined_expiresIn (cfg : JWTStrategy.JWTStrategyConfig) :
  JWTStrategy.expiresIn cfg = Some VUndefined ->
  (forall (u : User) now,
      exists msg,
        JWTStrategy.generateToken (JWTStrategy.new cfg) u now
        = Throw (Err Error msg))
  /\ (forall secret adapter validation,
         Index.quickAuth
           {| Index.secret := secret; Index.adapter_ := adapter;
              Index.strategy_ := None; Index.expiresIn := Some VUndefined;
              Index.validation_ := validation |}
         = Index.quickAuth
             {| Index.secret := secret; Index.adapter_ := adapter;
                Index.strategy_ := None; Index.expiresIn := None;
                Index.validation_ := validation |}).
Proof.
  intros Hundefined. split; [|reflexivity].
  intros u now. unfold JWTStrategy.generateToken. simpl.
  unfold Jsonwebtoken.symbolic_sign, Jsonwebtoken.error.
  destruct (String.eqb _ ""); [eexists; reflexivity|].
  destruct (Jsonwebtoken.validatePayload _) as [[]|[issues|c msg|thrown]] eqn:Hvp.
  - unfold Jsonwebtoken.validateOptions, Jsonwebtoken.error.
    cbn [Jsonwebtoken.expiresIn JWTStrategy.options JWTStrategy.new
         JWTStrategy.config JWTStrategy.expiresIn].
    rewrite Hundefined. cbn [isUndefined negb]. rewrite andb_false_r.
    eexists. reflexivity.
  - exfalso. revert Hvp. unfold Jsonwebtoken.validatePayload, Jsonwebtoken.error.
    destruct (List.filter _ _) as [|[k v] rest]; discriminate.
  - revert Hvp. unfold Jsonwebtoken.validatePayload, Jsonwebtoken.error.
    destruct (List.filter _ _) as [|[k v] rest]; [discriminate|].
    intros Hr. injection Hr as <- <-. eexists. reflexivity.
  - exfalso. revert Hvp. unfold Jsonwebtoken.validatePayload, Jsonwebtoken.error.
    destruct (List.filter _ _) as [|[k v] rest]; discriminate.
Qed.

Context `{Express.TokenReader}.

Lemma deleteUser_clock id w r w' :
  MemoryAdapter.deleteUser id w = (r, w') ->
  MemoryAdapter.clock w' = MemoryAdapter.clock w.
Proof.
  unfold MemoryAdapter.deleteUser, MemoryAdapter.setStore, bind, lift.
  destruct (MemoryAdapter.users (MemoryAdapter.store w) !! id) as [user|].
  - destruct (MemoryAdapter.toLowerCaseOf _ _); intros Hr;
      injection Hr as _ <-; reflexivity.
  - intros Hr. now injection Hr as _ <-.
Qed.

(** With the JWT strategy, what [requireAuth] does depends on the request
    and on the clock only. *)
Lemma requireAuth_clock (engine : AuthConfig MemoryAdapter.World) this options req
    w1 w2 :
  strategy engine = JWTStrategy.strategy MemoryAdapter.clock this ->
  MemoryAdapter.clock w1 = MemoryAdapter.clock w2 ->
  exists handled,
    Express.requireAuth engine options req w1 = (Return handled, w1)
    /\ Express.requireAuth engine options req w2 = (Return handled, w2).
Proof.
  intros Hstrategy Hclock.
  unfold Express.requireAuth, tryCatch, bind, AuthEngine.verifyToken.
  rewrite Hstrategy. cbn [Types.verify JWTStrategy.strategy].
  destruct (Express.authorization req) as [| |b|n|header|t]; cbn [truthy negb];
    try (eexists; split; reflexivity).
  - destruct b; eexists; split; reflexivity.
  - destruct (negb (negb (n =? 0)%Z)); eexists; split; reflexivity.
  - destruct (negb (negb (String.eqb header "")));
      [eexists; split; reflexivity|].
    destruct (negb (Express.startsWith header "Bearer "));
      [eexists; split; reflexivity|].
    rewrite Hclock.
    destruct (success _); [destruct (Types.user _)|];
      eexists; split; reflexivity.
Qed.

(** X27.  With the JWT strategy, [requireAuth] reads the clock and nothing
    else of the world: it leaves the world as it is, and a request it
    hands on keeps being handed on, with the same user, after the
    in-memory adapter has deleted that user -- or any other. *)
Theorem tokens_outlive_users (engine : AuthConfig MemoryAdapter.World)
    this options req id w :
  strategy engine = JWTStrategy.strategy MemoryAdapter.clock this ->
  exists handled,
    Express.requireAuth engine options req w = (Return handled, w)
    /\ forall r w',
         MemoryAdapter.deleteUser id w = (r, w') ->
         Express.requireAuth engine options req w' = (Return handled, w').
Proof.
  intros Hstrategy.
  destruct (requireAuth_clock engine this options req w w Hstrategy eq_refl)
    as (handled & Hrun & _).
  exists handled. split; [exact Hrun|].
  intros r w' Hdelete.
  destruct (requireAuth_clock engine this options req w w' Hstrategy)
    as (handled' & Hrun1 & Hrun2).
  - symmetry. exact (deleteUser_clock _ _ _ _ Hdelete).
  - rewrite Hrun in Hrun1. injection Hrun1 as ->. exact Hrun2.
Qed.
End TokenFacts.

(* ===================================================================== *)
(** * Registration: fields the rules do not name *)
(* ===================================================================== *)

Section UnknownFields.
Context `{Externals} `{Bcrypt MemoryAdapter.World}.
Implicit Types (config : AuthConfig MemoryAdapter.World) (w : MemoryAdapter.World).



End UnknownFields.

(* ===================================================================== *)
(** * Collaborators that throw error objects only *)
(* ===================================================================== *)

Section CivilCollaborators.
Context `{Externals}.

Lemma toLowerCaseOf_civil expr v e :
  MemoryAdapter.toLowerCaseOf expr v = Throw e -> nullish e = false.
Proof. destruct v; simpl; intros Hr; try discriminate; now injection Hr as <-. Qed.

Lemma memory_findUserByEmail_civil email : civil (MemoryAdapter.findUserByEmail email).
Proof.
  intros w e w'. unfold MemoryAdapter.findUserByEmail, bind, lift.
  destruct (MemoryAdapter.toLowerCaseOf "email" email) as [lower|e0] eqn:Hlower.
  - destruct (MemoryAdapter.emailIndex (MemoryAdapter.store w) !! lower) as [id|];
      [destruct (String.eqb id "")|]; discriminate.
  - intros Hr. injection Hr as <- _. exact (toLowerCaseOf_civil _ _ _ Hlower).
Qed.

Lemma memory_createUser_civil data : civil (MemoryAdapter.createUser data).
Proof.
  intros w e w'.
  unfold MemoryAdapter.createUser, MemoryAdapter.randomUUID,
    MemoryAdapter.newDate, MemoryAdapter.setStore, bind, lift, ret.
  destruct (MemoryAdapter.toLowerCaseOf "data.email" (prop data "email"))
    as [lower|e0] eqn:Hlower; [discriminate|].
  intros Hr. injection Hr as <- _. exact (toLowerCaseOf_civil _ _ _ Hlower).
Qed.

(** The symbolic library throws [Error]s only when it signs. *)
Lemma symbolic_sign_civil payload secret options now e :
  Jsonwebtoken.symbolic_sign payload secret options now = Throw e ->
  nullish e = false.
Proof.
  unfold Jsonwebtoken.symbolic_sign, Jsonwebtoken.validatePayload,
    Jsonwebtoken.validateOptions, Jsonwebtoken.optionToPayload,
    Jsonwebtoken.error.
  intros Hs.
  repeat match type of Hs with
         | context [match ?x with _ => _ end] =>
             lazymatch x with
             | context [match _ with _ => _ end] => fail
             | _ => destruct x; simpl in Hs
             end
         end;
    try discriminate; injection Hs as <-; reflexivity.
Qed.

Lemma jwt_generateToken_civil {W : Type} (clock : W -> Z) this u :
  civil (generateToken (@JWTStrategy.strategy Jsonwebtoken.symbolic W clock this) u).
Proof.
  intros w e w' Hr. simpl in Hr. injection Hr as Hr _.
  exact (symbolic_sign_civil _ _ _ _ _ Hr).
Qed.
End CivilCollaborators.

(* ===================================================================== *)
(** * The further theorems at work *)
(* ===================================================================== *)

(** No key twice, on a concrete object. *)
Ltac distinct_keys := apply (bool_decide_unpack _); vm_compute; exact I.

Section ExercisedFurther.
Import Scenario.
#[local] Existing Instance Reference.externals.
#[local] Existing Instance Reference.bcrypt.
#[local] Existing Instance Jsonwebtoken.symbolic.
#[local] Existing Instance Cases.reader.

(** The collaborators of the installation throw error objects only. *)
Lemma engine_civil : civilEngine engine.
Proof.
  repeat split.
  - exact memory_findUserByEmail_civil.
  - exact memory_createUser_civil.
  - intros u. exact (jwt_generateToken_civil _ _ u).
  - intros u w e w' Hr. discriminate.
  - intros u w e w' Hr. discriminate.
  - intros data rounds w e w'. destruct data; simpl; intros Hr;
      try discriminate; now injection Hr as <- _.
  - intros data encrypted e. destruct data, encrypted; simpl; intros Hr;
      try discriminate; now injection Hr as <-.
  - intros validator data e Hcv. discriminate.
Qed.

(** [alice] logs in; with a callback that rejects without a reason the
    login is rejected, with the TypeError of the catch block. *)
Lemma login_outcomes_witness :
  (exists res w',
      AuthEngine.login engine registration (world aliceStore 1) = (Return res, w'))
  /\ AuthEngine.login Cases.rejecting registration (world aliceStore 1)
     = (Throw (Err Error "Cannot read properties of undefined (reading 'message')"),
        world aliceStore 1).
Proof.
  split; [|vm_compute; reflexivity].
  exact (proj2 (proj2 (login_outcomes engine registration (world aliceStore 1)))
           engine_civil).
Defined.

(** [alice] registers; with a callback that rejects without a reason the
    registration is rejected. *)
Lemma register_outcomes_witness :
  (exists res w',
      AuthEngine.register engine registration (world emptyStore 0) = (Return res, w'))
  /\ AuthEngine.register Cases.rejecting registration (world emptyStore 0)
     = (Throw (Err Error "Cannot read properties of undefined (reading 'message')"),
        created).
Proof.
  split; [|vm_compute; reflexivity].
  exact (proj2 (proj2 (register_outcomes engine registration (world emptyStore 0)))
           engine_civil).
Defined.

(** [alice]'s token on a route that does not require one. *)
Lemma optionalAuth_outcomes_witness :
  Express.optionalAuth engine (Cases.request (VStr "Bearer alice.jwt"))
    (world aliceStore 1)
  = (Return
       (Express.Next
          (Express.setUser Cases.verifiedAlice
             (Cases.request (VStr "Bearer alice.jwt")))),
     world aliceStore 1)
  /\ Express.optionalAuth engine (Cases.request (VStr "Bearer mallory.jwt"))
       (world aliceStore 1)
     = (Return (Express.Next (Cases.request (VStr "Bearer mallory.jwt"))),
        world aliceStore 1).
Proof.
  split.
  - apply (proj2 (proj2 (optionalAuth_outcomes engine
                           (Cases.request (VStr "Bearer alice.jwt"))
                           (world aliceStore 1)))
             "alice.jwt"
             (Return {| success := true; user := Some Cases.verifiedAlice;
                        token := None; error := None; errors := None |})
             (world aliceStore 1));
      [reflexivity | vm_compute; reflexivity].
  - apply (proj2 (proj2 (optionalAuth_outcomes engine
                           (Cases.request (VStr "Bearer mallory.jwt"))
                           (world aliceStore 1)))
             "mallory.jwt" (Return (failure "Invalid token"))
             (world aliceStore 1));
      [reflexivity | vm_compute; reflexivity].
Defined.

(** The handlers on [alice]'s credentials, and on an engine that rejects. *)
Lemma handlers_status_witness :
  Routes.login engine (Cases.posting registration) (world aliceStore 1)
  = (Return {| Express.status := 200;
               Express.json := AuthEngine.authenticated alice aliceToken |},
     world aliceStore 1)
  /\ Routes.register engine (Cases.posting registration) (world aliceStore 1)
     = (Return {| Express.status := 400; Express.json := AuthEngine.userExists |},
        world aliceStore 1)
  /\ Routes.login Cases.rejecting (Cases.posting registration) (world aliceStore 1)
     = (Throw (Err Error "Cannot read properties of undefined (reading 'message')"),
        world aliceStore 1).
Proof.
  split; [|split].
  - apply (proj1 (handlers_status engine (Cases.posting registration)
                    (world aliceStore 1))
             (Return (AuthEngine.authenticated alice aliceToken))).
    vm_compute. reflexivity.
  - apply (proj1 (proj2 (handlers_status engine (Cases.posting registration)
                           (world aliceStore 1)))
             (Return AuthEngine.userExists)).
    vm_compute. reflexivity.
  - apply (proj1 (handlers_status Cases.rejecting (Cases.posting registration)
                    (world aliceStore 1))
             (Throw (Err Error "Cannot read properties of undefined (reading 'message')"))).
    vm_compute. reflexivity.
Defined.

(** [alice] is created in the empty store and found under her identifier,
    hash included. *)
Lemma createUser_findUserById_witness :
  exists u w',
    MemoryAdapter.createUser Cases.filed (world emptyStore 0) = (Return u, w')
    /\ MemoryAdapter.findUserById id1 w' = (Return (Some u), w')
    /\ prop u "id" = VStr id1
    /\ get u "password" = Some (VStr "$2b$12$secret1").
Proof.
  destruct (createUser_findUserById Cases.filed "a@b.com" (world emptyStore 0)
              eq_refl)
    as (u & w' & Hcreate & Hfind & _ & _ & Hid & Hattr).
  exists u, w'. split; [exact Hcreate|]. split; [exact Hfind|].
  split; [exact (Hid eq_refl)|].
  apply Hattr; [distinct_keys | discriminate | discriminate | reflexivity].
Defined.

(** [alice], registered in lower case, is found in upper case. *)
Lemma findUserByEmail_case_insensitive_witness :
  MemoryAdapter.findUserByEmail (VStr "A@B.COM") created
  = (Return (Some alice), created).
Proof.
  apply (proj2 (findUserByEmail_case_insensitive "a@b.com" "A@B.COM" eq_refl)
           Cases.filed alice (world emptyStore 0) created);
    [reflexivity | vm_compute; discriminate | vm_compute; reflexivity].
Defined.

(** Data without an e-mail leave a record nobody can look up by e-mail. *)
Lemma createUser_without_email_witness :
  exists msg u w',
    MemoryAdapter.createUser [("password", VStr "x")] (world emptyStore 0)
    = (Throw (Err Error msg), w')
    /\ MemoryAdapter.users (MemoryAdapter.store w') !! id1 = Some u
    /\ MemoryAdapter.emailIndex (MemoryAdapter.store w')
       = MemoryAdapter.emailIndex emptyStore.
Proof.
  exact (createUser_without_email [("password", VStr "x")] (world emptyStore 0)
           eq_refl).
Defined.

(** A second user under [alice]'s e-mail takes the e-mail over. *)
Lemma createUser_duplicate_email_witness :
  exists u w',
    MemoryAdapter.createUser Cases.filed (world aliceStore 1) = (Return u, w')
    /\ MemoryAdapter.findUserByEmail (VStr "a@b.com") w' = (Return (Some u), w')
    /\ MemoryAdapter.users (MemoryAdapter.store w') !! id1
       = MemoryAdapter.users aliceStore !! id1.
Proof.
  apply (createUser_duplicate_email Cases.filed "a@b.com" id1 (world aliceStore 1));
    [reflexivity | vm_compute; reflexivity
     | vm_compute; discriminate | vm_compute; discriminate].
Defined.

(** Deleting nobody, and deleting [alice]. *)
Lemma deleteUser_effect_witness :
  MemoryAdapter.deleteUser "nobody" (world aliceStore 1)
  = (Return tt, world aliceStore 1)
  /\ exists w',
       MemoryAdapter.deleteUser id1 (world aliceStore 1) = (Return tt, w')
       /\ MemoryAdapter.findUserById id1 w' = (Return None, w')
       /\ MemoryAdapter.findUserByEmail (VStr "a@b.com") w' = (Return None, w').
Proof.
  split.
  - apply (proj1 (deleteUser_effect "nobody" (world aliceStore 1))).
    vm_compute. reflexivity.
  - apply (proj2 (deleteUser_effect id1 (world aliceStore 1)) alice "a@b.com");
      [vm_compute; reflexivity | reflexivity].
Defined.



(** A new password handed to [updateUser] is filed in the clear. *)
Lemma updateUser_files_password_as_given_witness :
  exists returned filed w',
    AuthEngine.updateUser engine id1 [("password", VStr "hunter2")]
      (world aliceStore 1)
    = (Return returned, w')
    /\ get returned "password" = None
    /\ MemoryAdapter.users (MemoryAdapter.store w') !! id1 = Some filed
    /\ get filed "password" = Some (VStr "hunter2").
Proof.
  apply (updateUser_files_password_as_given engine id1
           [("password", VStr "hunter2")] alice (VStr "hunter2")
           (world aliceStore 1));
    [reflexivity | vm_compute; reflexivity | distinct_keys | distinct_keys
     | reflexivity | reflexivity].
Defined.

(** Nobody is filed under "nobody". *)
Lemma unknown_id_witness :
  AuthEngine.getUser engine "nobody" (world aliceStore 1)
  = (Return None, world aliceStore 1)
  /\ AuthEngine.deleteUser engine "nobody" (world aliceStore 1)
     = (Return tt, world aliceStore 1)
  /\ AuthEngine.updateUser engine "nobody" [("name", VStr "Nobody")]
       (world aliceStore 1)
     = (Throw (Err Error "User not found"), world aliceStore 1).
Proof.
  apply (unknown_id engine "nobody" [("name", VStr "Nobody")] (world aliceStore 1));
    [reflexivity | vm_compute; reflexivity].
Defined.

(** Two issues on the password, one on the whole object, one on a field
    named "__proto__". *)
Lemma formatZodError_last_message_witness :
  get (AuthEngine.formatZodError Cases.issues) "password" = Some "Needs a digit"
  /\ AuthEngine.formatZodError Cases.issues = [("password", "Needs a digit")].
Proof.
  split; [|reflexivity].
  apply (proj2 (proj2 (proj2 (formatZodError_last_message Cases.issues)))
           "password");
    discriminate.
Defined.

(** An issue on the whole object alone leaves the map empty. *)
Lemma validationFailure_error_witness :
  AuthEngine.validationFailure [{| path := []; message := "Passwords differ" |}]
  = failureWith "Validation failed" (Some []).
Proof.
  apply (proj2 (validationFailure_error
                  [{| path := []; message := "Passwords differ" |}])).
  intros i [<-|[]]. reflexivity.
Defined.

(** Both fields of [malformed] fail. *)
Lemma register_default_rules_witness :
  AuthEngine.register engine malformed (world emptyStore 0)
  = (Return
       {| success := false; user := None; token := None;
          error := Some "Invalid email format";
          errors :=
            Some [ ("email", "Invalid email format");
                   ("password", "Password must be at least 6 characters") ] |},
     world emptyStore 0).
Proof.
  apply (register_default_rules engine malformed "not-an-email" "x"
           (world emptyStore 0));
    [reflexivity | reflexivity | reflexivity | left; reflexivity].
Defined.

(** [alice] registers, then logs in with her address in upper case. *)
Lemma register_then_login_witness :
  AuthEngine.register engine registration (world emptyStore 0)
  = (Return (AuthEngine.authenticated alice aliceToken), created)
  /\ AuthEngine.login engine
       [("email", VStr "A@B.COM"); ("password", VStr "secret1")] created
     = (Return (AuthEngine.authenticated alice aliceToken), created)
  /\ exists filed w2,
       MemoryAdapter.findUserById id1 w2 = (Return (Some filed), w2)
       /\ prop filed "email" = VStr "a@b.com"
       /\ prop filed "password" = VStr "$2b$12$secret1"
       /\ forall tok w3,
            generateToken (strategy engine) filed w2 = (Return tok, w3) ->
            AuthEngine.register engine registration (world emptyStore 0)
            = (Return (AuthEngine.authenticated filed tok), w3)
            /\ forall tok' w4,
                 MemoryAdapter.store w3 = MemoryAdapter.store w2 ->
                 generateToken (strategy engine) filed w3 = (Return tok', w4) ->
                 AuthEngine.login engine
                   [("email", VStr "A@B.COM"); ("password", VStr "secret1")] w3
                 = (Return (AuthEngine.authenticated filed tok'), w4).
Proof.
  split; [vm_compute; reflexivity|]. split; [vm_compute; reflexivity|].
  apply (register_then_login engine registration
           [("email", VStr "A@B.COM"); ("password", VStr "secret1")]
           "a@b.com" "A@B.COM" "secret1" "$2b$12$secret1"
           (world emptyStore 0) (world emptyStore 0));
    try reflexivity; try (vm_compute; reflexivity);
    try (vm_compute; discriminate).
  vm_compute. lia.
Defined.


(** What goes into [alice]'s token. *)
Lemma payload_claims_witness :
  get alice "password" = Some (VStr "$2b$12$secret1")
  /\ get (JWTStrategy.payload alice) "password" = None
  /\ get (JWTStrategy.payload alice) "createdAt" = Some (VDate now)
  /\ get (JWTStrategy.payload alice) "sub" = Some (VStr id1).
Proof.
  destruct (payload_claims alice) as (Hpassword & _ & Hattr & Hsub).
  split; [reflexivity|]. split; [exact Hpassword|].
  split; [apply Hattr; [discriminate | discriminate | reflexivity]|].
  exact (Hsub eq_refl).
Defined.

(** The user behind [alice]'s token carries its [exp]. *)
Lemma verify_accepted_witness :
  exists verified,
    JWTStrategy.verify (JWTStrategy.new strategyConfig) aliceToken now
    = {| success := true; user := Some verified; token := None;
         error := None; errors := None |}
    /\ get verified "exp" = Some (VNum 1700604800)
    /\ get verified "id" = Some (VStr id1).
Proof.
  destruct (@verify_accepted Jsonwebtoken.symbolic
              (JWTStrategy.new strategyConfig) aliceToken now
              [ ("sub", VStr id1); ("email", VStr "a@b.com");
                ("createdAt", VStr "2023-11-14T22:13:20.000Z");
                ("updatedAt", VStr "2023-11-14T22:13:20.000Z");
                ("iat", VNum 1700000000); ("exp", VNum 1700604800) ])
    as (verified & Hrun & Hclaims & _ & Hid);
    [vm_compute; reflexivity | reflexivity | distinct_keys |].
  exists verified. split; [exact Hrun|].
  split; [apply Hclaims; reflexivity | exact (Hid eq_refl)].
Defined.

(** The user behind [alice]'s token gets no second token. *)
Lemma verified_user_not_signable_witness :
  (exists exp, get Cases.verifiedAlice "exp" = Some (VNum exp))
  /\ exists msg,
       JWTStrategy.generateToken (JWTStrategy.new strategyConfig)
         Cases.verifiedAlice (now + 2000)
       = Throw (Err Error msg).
Proof.
  apply (verified_user_not_signable strategyConfig alice Cases.verifiedAlice
           now (now + 1000) (now + 2000) aliceToken);
    vm_compute; reflexivity.
Defined.

(** The scheme in lower case is no bearer token. *)
Lemma requireAuth_without_bearer_witness :
  Express.requireAuth engine
    {| Express.requireAuth_ := None; Express.roles := None |}
    (Cases.request (VStr "bearer alice.jwt")) (world aliceStore 1)
  = (Return
       (Express.Responded
          {| Express.status := 401;
             Express.json := failure "Authentication required" |}),
     world aliceStore 1).
Proof.
  apply (requireAuth_without_bearer engine
           {| Express.requireAuth_ := None; Express.roles := None |}
           (Cases.request (VStr "bearer alice.jwt")) (world aliceStore 1)).
  right. exists "bearer alice.jwt". split; reflexivity.
Defined.

(** Logging out without a callback, and with one that fails. *)
Lemma logout_handler_witness :
  Routes.logout engine (Express.setUser alice (Cases.request VUndefined))
    (world aliceStore 1)
  = (Return (Routes.ok {| success := true; user := None; token := None;
                          error := None; errors := None |}),
     world aliceStore 1)
  /\ Routes.logout Cases.auditing
       (Express.setUser alice (Cases.request VUndefined)) (world aliceStore 1)
     = (Throw mailDown, world aliceStore 1).
Proof.
  split.
  - apply (proj1 (logout_handler engine
                    (Express.setUser alice (Cases.request VUndefined))
                    (world aliceStore 1))).
    right. left. reflexivity.
  - apply (proj2 (logout_handler Cases.auditing
                    (Express.setUser alice (Cases.request VUndefined))
                    (world aliceStore 1))
             alice
             {| onLogin := None; onRegister := None;
                onLogout := Some (fun _ => throw mailDown) |}
             (fun _ => throw mailDown) mailDown (world aliceStore 1));
      reflexivity.
Defined.

(** [alice]'s token opens the way to [me]. *)
Lemma me_behind_requireAuth_witness :
  exists tok result u,
    Express.authorization (Cases.request (VStr "Bearer alice.jwt"))
    = VStr ("Bearer " ++ tok)
    /\ AuthEngine.verifyToken engine (Express.readToken tok) (world aliceStore 1)
       = (Return result, world aliceStore 1)
    /\ Types.user result = Some u
    /\ Routes.me engine
         (Express.setUser Cases.verifiedAlice
            (Cases.request (VStr "Bearer alice.jwt")))
         (world aliceStore 1)
       = (Return (Routes.ok {| success := true; user := Some u; token := None;
                               error := None; errors := None |}),
          world aliceStore 1).
Proof.
  apply (me_behind_requireAuth engine (Cases.request (VStr "Bearer alice.jwt"))
           (Express.setUser Cases.verifiedAlice
              (Cases.request (VStr "Bearer alice.jwt")))
           (world aliceStore 1) (world aliceStore 1)).
  vm_compute. reflexivity.
Defined.

(** [alice]'s token lives seven days. *)
Lemma token_lifetime_witness :
  exists claims exp,
    aliceToken = Signed claims "s3cret"
    /\ get claims "iat" = Some (VNum 1700000000)
    /\ Jsonwebtoken.timespan (VStr "7d") 1700000000 = Some exp
    /\ get claims "exp" = Some (VNum exp).
Proof.
  apply (token_lifetime strategyConfig alice now aliceToken);
    [vm_compute; reflexivity | reflexivity].
Defined.

(** No token for [alice] from a strategy with [expiresIn: undefined]. *)
Lemma explicit_undefined_expiresIn_witness :
  exists msg,
    JWTStrategy.generateToken (JWTStrategy.new Cases.unbounded) alice now
    = Throw (Err Error msg).
Proof.
  exact (proj1 (explicit_undefined_expiresIn Cases.unbounded eq_refl) alice now).
Defined.

(** [alice]'s token after [alice] has been deleted. *)
Lemma tokens_outlive_users_witness :
  exists handled,
    Express.requireAuth engine
      {| Express.requireAuth_ := None; Express.roles := None |}
      (Cases.request (VStr "Bearer alice.jwt")) (world aliceStore 1)
    = (Return handled, world aliceStore 1)
    /\ forall r w',
         MemoryAdapter.deleteUser id1 (world aliceStore 1) = (r, w') ->
         Express.requireAuth engine
           {| Express.requireAuth_ := None; Express.roles := None |}
           (Cases.request (VStr "Bearer alice.jwt")) w'
         = (Return handled, w').
Proof.
  apply (tokens_outlive_users engine (JWTStrategy.new strategyConfig)
           {| Express.requireAuth_ := None; Express.roles := None |}
           (Cases.request (VStr "Bearer alice.jwt")) id1 (world aliceStore 1)).
  reflexivity.
Defined.
End ExercisedFurther.
